(** * Role binding between tracked bodies and clinical roles

    A shallow embedding of [binding_manager.py] (class [RoleBindingManager])
    and of the click-assignment block inlined in the main loop of
    [body_tracking.py], with the properties of the role-binding engine.

    Conventions of the embedding.
    - Python [int] is [Z]; Python [float] and the numpy scalars read from a
      keypoint are binary64 values ([PrimFloat.float]) and their product is
      the binary64 product; [int(...)] of a float truncates toward zero and
      raises on NaN and on an infinity.  No proof below looks inside the
      product or its rounding: the properties hold of whatever integers
      [int] yields.
    - A method of the manager is a computation in the monad [M]: it receives
      the object's fields, and gives back either a value or a raised exception,
      together with the fields as they are at that point.
    - [role_map] is a finite map from body ids to labels.
    - What a method prints is not part of the state.  The line printed by
      [try_assign_from_click] is kept as the [bind_event] the model returns,
      because it names the body and the label of an assignment. *)

From Stdlib Require Import ZArith Floats Lia Ascii.
From stdpp Require Import base option list gmap strings pretty.

Local Open Scope string_scope.
Local Open Scope Z_scope.

(** ** Python values and exceptions *)

Module Py.

Inductive exn : Type :=
| ValueError      (* int(nan) *)
| OverflowError.  (* int(inf) *)

Inductive result (A : Type) : Type :=
| Ok (a : A)
| Raise (e : exn).
Arguments Ok {A} a.
Arguments Raise {A} e.

Definition result_bind {A B} (f : A → result B) (r : result A) : result B :=
  match r with
  | Ok a => f a
  | Raise e => Raise e
  end.

(** [ord(c)] for a one-character string. *)
Definition ord (c : Ascii.ascii) : Z := Z.of_N (Ascii.N_of_ascii c).

(** [np.isnan(x)] *)
Definition isnan (x : float) : bool := PrimFloat.is_nan x.

(** [int(x)] for a float [x]: the integer part, rounding toward zero. *)
Definition int (x : float) : result Z :=
  match Prim2SF x with
  | S754_nan => Raise ValueError
  | S754_infinity _ => Raise OverflowError
  | S754_zero _ => Ok 0
  | S754_finite s m e =>
      let a := Z.shiftl (Z.pos m) e in
      Ok (if s then - a else a)
  end.

(** [s or d] for an optional string: [None] and [""] are falsy. *)
Definition str_or (s : option string) (d : string) : string :=
  match s with
  | None => d
  | Some "" => d
  | Some x => x
  end.

(** [r == s] for an optional string [r] and a string literal [s]. *)
Definition str_eq (r : option string) (s : string) : bool :=
  match r with
  | Some x => String.eqb x s
  | None => false
  end.

(** [f"{n}"] for an [int]. *)
Definition fmt_int (n : Z) : string := pretty n.

End Py.
Export Py.

Global Instance result_ret : MRet result := @Ok.
Global Instance result_mbind : MBind result := @result_bind.

(** ** The tracker's data ([pyzed.sl]), as far as the binding code reads it *)

Module sl.

Record Body : Type := mkBody {
  id : Z;
  (* [None], or the array of [x, y] keypoints *)
  keypoint_2d : option (list (float * float))
}.

Record Bodies : Type := mkBodies {
  body_list : list Body
}.

End sl.

(** ** The manager's fields *)

Record RoleBindingManager : Type := mkManager {
  image_scale : float * float;
  role_map : gmap Z string;
  current_role : option string;
  click_pending : bool;
  click_pos : Z * Z;
  surgeon_count : Z;
  assistant_count : Z;
  nurse_count : Z
}.

(** [RoleBindingManager(image_scale)]: the dataclass defaults. *)
Definition new_manager (scale : float * float) : RoleBindingManager :=
  {| image_scale := scale;
     role_map := ∅;
     current_role := None;
     click_pending := false;
     click_pos := (0, 0);
     surgeon_count := 0;
     assistant_count := 0;
     nurse_count := 0 |}.

(** Attribute assignment [self.f = v], one function per assigned field. *)
Definition set_role_map (v : gmap Z string) (m : RoleBindingManager) :=
  {| image_scale := image_scale m; role_map := v;
     current_role := current_role m; click_pending := click_pending m;
     click_pos := click_pos m; surgeon_count := surgeon_count m;
     assistant_count := assistant_count m; nurse_count := nurse_count m |}.

Definition set_current_role (v : option string) (m : RoleBindingManager) :=
  {| image_scale := image_scale m; role_map := role_map m;
     current_role := v; click_pending := click_pending m;
     click_pos := click_pos m; surgeon_count := surgeon_count m;
     assistant_count := assistant_count m; nurse_count := nurse_count m |}.

Definition set_click_pending (v : bool) (m : RoleBindingManager) :=
  {| image_scale := image_scale m; role_map := role_map m;
     current_role := current_role m; click_pending := v;
     click_pos := click_pos m; surgeon_count := surgeon_count m;
     assistant_count := assistant_count m; nurse_count := nurse_count m |}.

Definition set_click_pos (v : Z * Z) (m : RoleBindingManager) :=
  {| image_scale := image_scale m; role_map := role_map m;
     current_role := current_role m; click_pending := click_pending m;
     click_pos := v; surgeon_count := surgeon_count m;
     assistant_count := assistant_count m; nurse_count := nurse_count m |}.

Definition set_surgeon_count (v : Z) (m : RoleBindingManager) :=
  {| image_scale := image_scale m; role_map := role_map m;
     current_role := current_role m; click_pending := click_pending m;
     click_pos := click_pos m; surgeon_count := v;
     assistant_count := assistant_count m; nurse_count := nurse_count m |}.

Definition set_assistant_count (v : Z) (m : RoleBindingManager) :=
  {| image_scale := image_scale m; role_map := role_map m;
     current_role := current_role m; click_pending := click_pending m;
     click_pos := click_pos m; surgeon_count := surgeon_count m;
     assistant_count := v; nurse_count := nurse_count m |}.

Definition set_nurse_count (v : Z) (m : RoleBindingManager) :=
  {| image_scale := image_scale m; role_map := role_map m;
     current_role := current_role m; click_pending := click_pending m;
     click_pos := click_pos m; surgeon_count := surgeon_count m;
     assistant_count := assistant_count m; nurse_count := v |}.

(** ** Methods as state-passing computations that may raise *)

Definition M (A : Type) : Type :=
  RoleBindingManager → result A * RoleBindingManager.

Definition M_ret {A} (a : A) : M A := λ m, (Ok a, m).

Definition M_bind {A B} (f : A → M B) (c : M A) : M B :=
  λ m, match c m with
       | (Ok a, m') => f a m'
       | (Raise e, m') => (Raise e, m')
       end.

Global Instance M_mret : MRet M := @M_ret.
Global Instance M_mbind : MBind M := @M_bind.

(** Read [self]. *)
Definition self : M RoleBindingManager := λ m, (Ok m, m).

(** Run an assignment to a field of [self]. *)
Definition assign (upd : RoleBindingManager → RoleBindingManager) : M unit :=
  λ m, (Ok (), upd m).

(** A pure computation that may raise, run inside a method. *)
Definition lift {A} (r : result A) : M A := λ m, (r, m).

(** ** [RoleBindingManager.set_current_role_from_key] *)

Definition set_current_role_from_key (key : Z) : M (option string) :=
  if key =? ord "s"%char then
    assign (set_current_role (Some "Surgeon"));;
    mret (Some "[Role] Current role set to 'Surgeon'. Click on a person to bind.")
  else if key =? ord "a"%char then
    assign (set_current_role (Some "Assistant"));;
    mret (Some "[Role] Current role set to 'Assistant'. Click on a person to bind.")
  else if key =? ord "n"%char then
    assign (set_current_role (Some "Nurse"));;
    mret (Some "[Role] Current role set to 'Nurse'. Click on a person to bind.")
  else if key =? 27 then
    assign (set_current_role None);;
    mret (Some "[Role] Binding cancelled.")
  else mret None.

(** ** [RoleBindingManager.register_click] *)

Definition register_click (x y : Z) : M unit :=
  assign (set_click_pos (x, y));;
  assign (set_click_pending true).

(** ** [RoleBindingManager._generate_role_name] *)

Definition _generate_role_name : M string :=
  m ← self;
  if str_eq (current_role m) "Surgeon" then
    assign (set_surgeon_count (surgeon_count m + 1));;
    m ← self;
    mret ("Surgeon_" +:+ fmt_int (surgeon_count m))
  else if str_eq (current_role m) "Assistant" then
    assign (set_assistant_count (assistant_count m + 1));;
    m ← self;
    mret ("Assistant_" +:+ fmt_int (assistant_count m))
  else if str_eq (current_role m) "Nurse" then
    assign (set_nurse_count (nurse_count m + 1));;
    m ← self;
    mret ("Nurse_" +:+ fmt_int (nurse_count m))
  else mret (str_or (current_role m) "Unknown").

(** ** The nearest-body loop

    The loop of [try_assign_from_click] (and of the inlined block) reads
    [image_scale] and the click position and updates the two locals
    [best_body] and [best_dist2]; it assigns no field of [self]. *)

Definition loop_state : Type := option sl.Body * option Z.

(** One iteration, for [body], from the locals [(best_body, best_dist2)]. *)
Definition nearest_iter (scale : float * float) (cx cy : Z)
    (st : loop_state) (body : sl.Body) : result loop_state :=
  match sl.keypoint_2d body with
  | None => mret st                                   (* continue *)
  | Some [] => mret st                                (* continue *)
  | Some (kp :: _) =>
      if isnan kp.1 || isnan kp.2 then mret st        (* continue *)
      else
        bx ← Py.int (PrimFloat.mul kp.1 scale.1);
        by_ ← Py.int (PrimFloat.mul kp.2 scale.2);
        let dx := bx - cx in
        let dy := by_ - cy in
        let dist2 := dx * dx + dy * dy in
        if match st.2 with
           | None => true
           | Some best_dist2 => dist2 <? best_dist2
           end
        then mret (Some body, Some dist2)
        else mret st
  end.

Fixpoint nearest_loop (scale : float * float) (cx cy : Z)
    (bodies : list sl.Body) (st : loop_state) : result loop_state :=
  match bodies with
  | [] => mret st
  | body :: rest =>
      st' ← nearest_iter scale cx cy st body;
      nearest_loop scale cx cy rest st'
  end.

(** ** [RoleBindingManager.try_assign_from_click]

    The method returns [None]; the model returns which of its paths ran,
    that is, which line it printed. *)

Inductive bind_event : Type :=
| NotAttempted                                 (* first [return], nothing printed *)
| NoBodiesAvailable                            (* "[Bind] No bodies available for assignment." *)
| Assigned (bid : Z) (assigned_role : string)  (* "[Bind] Assigned role '..' to body ID .." *)
| NoValidBody.                                 (* "[Bind] No valid body found near click." *)

Definition try_assign_from_click (bodies : option sl.Bodies) : M bind_event :=
  m ← self;
  if negb (click_pending m) || bool_decide (current_role m = None) then
    mret NotAttempted
  else
    match bodies with
    | None =>
        assign (set_click_pending false);;
        mret NoBodiesAvailable
    | Some bodies =>
        if (length (sl.body_list bodies) =? 0)%nat then
          assign (set_click_pending false);;
          mret NoBodiesAvailable
        else
          let '(cx, cy) := click_pos m in
          st ← lift (nearest_loop (image_scale m) cx cy
                       (sl.body_list bodies) (None, None));
          ev ← match st.1 with
               | Some best_body =>
                   let bid := sl.id best_body in
                   assigned_role ← _generate_role_name;
                   assign (λ m, set_role_map (<[bid := assigned_role]> (role_map m)) m);;
                   mret (Assigned bid assigned_role)
               | None => mret NoValidBody
               end;
          assign (set_click_pending false);;
          mret ev
    end.

(** ** The click-assignment block of [body_tracking.py]

    Lines 381-427 of the loop in [main].  The locals of [main] it reads and
    assigns ([role_map], [current_role], [click_pending], [click_pos], the
    three counters, [image_scale]) are held in the same record, so that the
    block and the method can be started from one state. *)

Module body_tracking.

Definition click_assign_block (bodies : sl.Bodies) : M bind_event :=
  m ← self;
  match click_pending m, current_role m with
  | true, Some role =>
      if (0 <? length (sl.body_list bodies))%nat then
        let '(cx, cy) := click_pos m in
        st ← lift (nearest_loop (image_scale m) cx cy
                     (sl.body_list bodies) (None, None));
        ev ← match st.1 with
             | Some best_body =>
                 let bid := sl.id best_body in
                 assigned_role ←
                   (if String.eqb role "Surgeon" then
                      assign (set_surgeon_count (surgeon_count m + 1));;
                      m ← self;
                      mret ("Surgeon_" +:+ fmt_int (surgeon_count m))
                    else if String.eqb role "Assistant" then
                      assign (set_assistant_count (assistant_count m + 1));;
                      m ← self;
                      mret ("Assistant_" +:+ fmt_int (assistant_count m))
                    else if String.eqb role "Nurse" then
                      assign (set_nurse_count (nurse_count m + 1));;
                      m ← self;
                      mret ("Nurse_" +:+ fmt_int (nurse_count m))
                    else mret role);
                 assign (λ m, set_role_map (<[bid := assigned_role]> (role_map m)) m);;
                 mret (Assigned bid assigned_role)
             | None => mret NoValidBody
             end;
        assign (set_click_pending false);;
        mret ev
      else mret NotAttempted
  | _, _ => mret NotAttempted
  end.

End body_tracking.

(** ** Sequences of calls on one manager *)

Inductive call : Type :=
| SetCurrentRoleFromKey (key : Z)
| RegisterClick (x y : Z)
| TryAssignFromClick (bodies : option sl.Bodies).

(** The fields after a call; a call that raises leaves them as they were
    when the exception left the method. *)
Definition after_call (c : call) (m : RoleBindingManager) : RoleBindingManager :=
  match c with
  | SetCurrentRoleFromKey key => (set_current_role_from_key key m).2
  | RegisterClick x y => (register_click x y m).2
  | TryAssignFromClick bodies => (try_assign_from_click bodies m).2
  end.

(** The label [_generate_role_name] returned during a call, if it ran. *)
Definition label_of_call (c : call) (m : RoleBindingManager) : list string :=
  match c with
  | TryAssignFromClick bodies =>
      match (try_assign_from_click bodies m).1 with
      | Ok (Assigned _ assigned_role) => [assigned_role]
      | _ => []
      end
  | _ => []
  end.

Fixpoint run (cs : list call) (m : RoleBindingManager) : RoleBindingManager :=
  match cs with
  | [] => m
  | c :: cs => run cs (after_call c m)
  end.

Fixpoint labels (cs : list call) (m : RoleBindingManager) : list string :=
  match cs with
  | [] => []
  | c :: cs => label_of_call c m ++ labels cs (after_call c m)
  end.

(** ** Vocabulary of the specification *)

Inductive RoleCategory : Type := Surgeon | Assistant | Nurse.

Global Instance RoleCategory_eq_dec : EqDecision RoleCategory.
Proof. solve_decision. Defined.

Definition category_name (c : RoleCategory) : string :=
  match c with
  | Surgeon => "Surgeon"
  | Assistant => "Assistant"
  | Nurse => "Nurse"
  end.

Definition counter (c : RoleCategory) (m : RoleBindingManager) : Z :=
  match c with
  | Surgeon => surgeon_count m
  | Assistant => assistant_count m
  | Nurse => nurse_count m
  end.

(** The label ["{category}_{n}"]. *)
Definition role_label (c : RoleCategory) (n : Z) : string :=
  category_name c +:+ "_" +:+ fmt_int n.

(** The active selection is none or one of the three categories. *)
Definition selection_ok (r : option string) : Prop :=
  r = None ∨ ∃ c, r = Some (category_name c).

(** The reference point of a body as the loop sees it: no usable first
    keypoint, a display position, or a first keypoint whose scaled value
    [int] rejects. *)
Inductive reference : Type :=
| Absent
| Display (p : Z * Z)
| Unconvertible (e : exn).

Definition reference_point (scale : float * float) (body : sl.Body) : reference :=
  match sl.keypoint_2d body with
  | None => Absent
  | Some [] => Absent
  | Some (kp :: _) =>
      if isnan kp.1 || isnan kp.2 then Absent
      else match Py.int (PrimFloat.mul kp.1 scale.1) with
           | Raise e => Unconvertible e
           | Ok bx =>
               match Py.int (PrimFloat.mul kp.2 scale.2) with
               | Raise e => Unconvertible e
               | Ok by_ => Display (bx, by_)
               end
           end
  end.

(** A body with an absent or empty [keypoint_2d], or a NaN coordinate in its
    first keypoint. *)
Definition invalid_reference (body : sl.Body) : bool :=
  match sl.keypoint_2d body with
  | None => true
  | Some [] => true
  | Some (kp :: _) => isnan kp.1 || isnan kp.2
  end.

(** Squared Euclidean distance between the click and a display position. *)
Definition dist2 (click p : Z * Z) : Z :=
  (p.1 - click.1) * (p.1 - click.1) + (p.2 - click.2) * (p.2 - click.2).

(** [bodies !! i] is the first body, in iteration order, at minimum squared
    distance from the click. *)
Definition first_nearest (scale : float * float) (click : Z * Z)
    (bodies : list sl.Body) (i : nat) (b : sl.Body) (p : Z * Z) : Prop :=
  bodies !! i = Some b ∧
  reference_point scale b = Display p ∧
  (∀ j b' p', bodies !! j = Some b' → reference_point scale b' = Display p' →
     dist2 click p ≤ dist2 click p') ∧
  (∀ j b' p', (j < i)%nat → bodies !! j = Some b' →
     reference_point scale b' = Display p' →
     dist2 click p < dist2 click p').

(** No body of the frame makes [int] raise. *)
Definition convertible (scale : float * float) (bodies : list sl.Body) : Prop :=
  ∀ b e, b ∈ bodies → reference_point scale b ≠ Unconvertible e.

(** What a key does to the active selection, if anything. *)
Definition key_effect (key : Z) : option (option string) :=
  if key =? 115 then Some (Some "Surgeon")
  else if key =? 97 then Some (Some "Assistant")
  else if key =? 110 then Some (Some "Nurse")
  else if key =? 27 then Some None
  else None.

(** The effect of the last state-changing key of a sequence. *)
Fixpoint last_key_effect (keys : list Z) : option (option string) :=
  match keys with
  | [] => None
  | k :: rest =>
      match last_key_effect rest with
      | Some r => Some r
      | None => key_effect k
      end
  end.

(** The fields after one more label of category [c] has been counted. *)
Definition increment (c : RoleCategory) (m : RoleBindingManager) : RoleBindingManager :=
  match c with
  | Surgeon => set_surgeon_count (surgeon_count m + 1) m
  | Assistant => set_assistant_count (assistant_count m + 1) m
  | Nurse => set_nurse_count (nurse_count m + 1) m
  end.

(** What the locals [(best_body, best_dist2)] hold once the loop has gone
    through the bodies [seen]: nothing when none of them had a usable
    reference point, and otherwise the first nearest of them with its
    squared distance. *)
Definition best_of (scale : float * float) (click : Z * Z)
    (seen : list sl.Body) (st : loop_state) : Prop :=
  match st with
  | (None, None) => ∀ b, b ∈ seen → reference_point scale b = Absent
  | (Some b, Some d) =>
      ∃ i p, first_nearest scale click seen i b p ∧ d = dist2 click p
  | _ => False
  end.

(** The paths through [try_assign_from_click], as a relation between the
    argument, the fields before, and the outcome with the fields after. *)
Inductive try_assign_path (bodies : option sl.Bodies) (m : RoleBindingManager) :
    result bind_event * RoleBindingManager → Prop :=
| path_not_attempted :
    click_pending m = false ∨ current_role m = None →
    try_assign_path bodies m (Ok NotAttempted, m)
| path_no_bodies r :
    click_pending m = true → current_role m = Some r →
    (bodies = None ∨ ∃ bs, bodies = Some bs ∧ sl.body_list bs = []) →
    try_assign_path bodies m (Ok NoBodiesAvailable, set_click_pending false m)
| path_raise r bs e :
    click_pending m = true → current_role m = Some r →
    bodies = Some bs → sl.body_list bs ≠ [] →
    nearest_loop (image_scale m) (click_pos m).1 (click_pos m).2
      (sl.body_list bs) (None, None) = Raise e →
    try_assign_path bodies m (Raise e, m)
| path_no_valid_body r bs d :
    click_pending m = true → current_role m = Some r →
    bodies = Some bs → sl.body_list bs ≠ [] →
    nearest_loop (image_scale m) (click_pos m).1 (click_pos m).2
      (sl.body_list bs) (None, None) = Ok (None, d) →
    try_assign_path bodies m (Ok NoValidBody, set_click_pending false m)
| path_assigned r bs b d assigned_role m1 :
    click_pending m = true → current_role m = Some r →
    bodies = Some bs → sl.body_list bs ≠ [] →
    nearest_loop (image_scale m) (click_pos m).1 (click_pos m).2
      (sl.body_list bs) (None, None) = Ok (Some b, d) →
    _generate_role_name m = (Ok assigned_role, m1) →
    try_assign_path bodies m
      (Ok (Assigned (sl.id b) assigned_role),
       set_click_pending false
         (set_role_map (<[sl.id b := assigned_role]> (role_map m1)) m1)).

(** ** More Python values: substring test, dictionary subscript *)

Module PyStr.

(** [sub in s] for two strings. *)
Fixpoint contains (sub s : string) : bool :=
  String.prefix sub s ||
  match s with
  | EmptyString => false
  | String _ rest => contains sub rest
  end.

(** The result of a dictionary subscript [d[key]]. *)
Inductive lookup (A : Type) : Type :=
| Found (a : A)
| KeyError (key : string).
Arguments Found {A} a.
Arguments KeyError {A} key.

End PyStr.
Export PyStr.

(** A BGR colour. *)
Definition color : Type := (Z * Z * Z)%type.

(** [d[key]] for a dictionary of colours. *)
Definition getitem (d : gmap string color) (key : string) : lookup color :=
  match d !! key with
  | Some v => Found v
  | None => KeyError key
  end.

(** ** [RoleBindingManager.get_label_and_color]

    The method reads [role_map] and the field [role_color]; no method assigns
    [role_color], so it is passed as an argument.  [default_role_color] is the
    dictionary the dataclass builds when the caller gives none. *)

Definition default_role_color : gmap string color :=
  <["Surgeon" := (0, 0, 255)]>
    (<["Assistant" := (255, 0, 0)]>
       (<["Nurse" := (0, 255, 0)]> ∅)).

Definition get_label_and_color (role_color : gmap string color)
    (body_id : Z) (m : RoleBindingManager) : lookup (string * color) :=
  let role_text := default ("ID:" +:+ fmt_int body_id) (role_map m !! body_id) in
  if contains "Surgeon" role_text then
    match getitem role_color "Surgeon" with
    | Found c => Found (role_text, c)
    | KeyError k => KeyError k
    end
  else if contains "Assistant" role_text then
    match getitem role_color "Assistant" with
    | Found c => Found (role_text, c)
    | KeyError k => KeyError k
    end
  else if contains "Nurse" role_text then
    match getitem role_color "Nurse" with
    | Found c => Found (role_text, c)
    | KeyError k => KeyError k
    end
  else Found (role_text, (0, 255, 255)).

(** ** The viewer ([viewer_2d.py], class [BodyViewer2D])

    The viewer keeps a reference to the manager, so its methods run on the
    pair of the viewer's own fields and the manager's.  Of the fields, the
    help image (an array that is only handed to [cv2.imshow]) is left out, and
    [display_resolution] is kept as the height that is read from it.  What
    the methods draw is returned as the list of calls made on OpenCV, with
    the arguments that vary (text, position, colour, rectangle corners,
    window); font, font scale, text thickness and line type are constants of
    the source.  A drawing call that is given a point outside the range of
    a C [int] raises [cv2.error]; [cv_viewer.render_2D] and [cv2.imshow],
    which are given no point computed here, are taken to return. *)

Module cv2.

(** OpenCV's event code for a press of the left button. *)
Definition EVENT_LBUTTONDOWN : Z := 1.

(** The coordinates OpenCV takes: the drawing functions convert each
    coordinate of a point to a C [int], and raise [cv2.error] on a Python
    integer that does not fit. *)
Definition fits_int (z : Z) : bool := (- 2 ^ 31 <=? z) && (z <? 2 ^ 31).

Definition fits_point (p : Z * Z) : bool := fits_int p.1 && fits_int p.2.

End cv2.

Module viewer_2d.

Record BodyViewer2D : Type := mkViewer {
  window_name : string;
  display_height : Z;
  image_scale : float * float;
  button_x : Z;
  button_y : Z;
  button_w : Z;
  button_h : Z;
  help_window_name : string;
  binding_help_requested : bool
}.

(** [BodyViewer2D(window_name, display_resolution, image_scale, manager,
    help_image)]: the fields [__init__] sets, with its default button. *)
Definition new_viewer (name : string) (height : Z) (scale : float * float)
    : BodyViewer2D :=
  {| window_name := name; display_height := height; image_scale := scale;
     button_x := 20; button_y := 70; button_w := 170; button_h := 40;
     help_window_name := "Binding Help"; binding_help_requested := false |}.

Definition set_binding_help_requested (b : bool) (v : BodyViewer2D) : BodyViewer2D :=
  {| window_name := window_name v; display_height := display_height v;
     image_scale := image_scale v;
     button_x := button_x v; button_y := button_y v;
     button_w := button_w v; button_h := button_h v;
     help_window_name := help_window_name v; binding_help_requested := b |}.

(** [BodyViewer2D._mouse_callback]; [flags] and [param] are not read. *)
Definition _mouse_callback (event x y : Z)
    (s : BodyViewer2D * RoleBindingManager) : BodyViewer2D * RoleBindingManager :=
  let '(v, m) := s in
  if event =? cv2.EVENT_LBUTTONDOWN then
    if (button_x v <=? x) && (x <=? button_x v + button_w v) &&
       ((button_y v <=? y) && (y <=? button_y v + button_h v))
    then (set_binding_help_requested true v, m)
    else (v, (register_click x y m).2)
  else (v, m).

(** The calls [render_frame] makes on OpenCV and on [cv_viewer]. *)
Inductive draw : Type :=
| Render2D (scale : float * float) (bodies : list sl.Body)
| PutText (text : string) (org : Z * Z) (col : color)
| Rectangle (pt1 pt2 : Z * Z) (col : color) (thickness : Z)
| ImShow (window : string) (help_image : bool).

(** [cv2.putText] and [cv2.rectangle] return on the points OpenCV takes. *)
Definition accepts (d : draw) : bool :=
  match d with
  | PutText _ org _ => cv2.fits_point org
  | Rectangle pt1 pt2 _ _ => cv2.fits_point pt1 && cv2.fits_point pt2
  | Render2D _ _ => true
  | ImShow _ _ => true
  end.

(** What stops [render_frame]: [int] on a keypoint, a colour subscript, or
    [cv2.error] from a drawing call. *)
Inductive render_error : Type :=
| IntError (e : exn)
| ColorKeyError (key : string)
| Cv2Error.

(** Drawing calls made one after the other: the calls that returned, and
    [cv2.error] if one did not. *)
Fixpoint draw_all (calls : list draw) : list draw * option render_error :=
  match calls with
  | [] => ([], None)
  | d :: rest =>
      if accepts d then
        let '(drawn, err) := draw_all rest in
        (d :: drawn, err)
      else ([], Some Cv2Error)
  end.

(** The loop of [render_frame] over the bodies: the labels drawn, and the
    exception that ended the loop if one did. *)
Fixpoint label_loop (role_color : gmap string color) (scale : float * float)
    (m : RoleBindingManager) (bodies : list sl.Body)
    : list draw * option render_error :=
  match bodies with
  | [] => ([], None)
  | body :: rest =>
      let body_id := sl.id body in
      match sl.keypoint_2d body with
      | None => label_loop role_color scale m rest             (* continue *)
      | Some [] => label_loop role_color scale m rest          (* continue *)
      | Some (kp :: _) =>
          if isnan kp.1 || isnan kp.2
          then label_loop role_color scale m rest              (* continue *)
          else
            match Py.int (PrimFloat.mul kp.1 scale.1) with
            | Raise e => ([], Some (IntError e))
            | Ok x =>
                match Py.int (PrimFloat.mul kp.2 scale.2) with
                | Raise e => ([], Some (IntError e))
                | Ok y =>
                    match get_label_and_color role_color body_id m with
                    | KeyError k => ([], Some (ColorKeyError k))
                    | Found (role_text, col) =>
                        if accepts (PutText role_text (x, y - 10) col) then
                          let '(drawn, err) := label_loop role_color scale m rest in
                          (PutText role_text (x, y - 10) col :: drawn, err)
                        else ([], Some Cv2Error)
                    end
                end
            end
      end
  end.

(** The calls [render_frame] makes before its loop over the bodies: the
    skeletons, the count, the help button, and the role being bound. *)
Definition overlay (bodies : sl.Bodies) (num_people : Z)
    (v : BodyViewer2D) (m : RoleBindingManager) : list draw :=
  let fixed :=
    [Render2D (image_scale v) (sl.body_list bodies);
     PutText ("People detected: " +:+ fmt_int num_people) (20, 40) (0, 255, 0);
     Rectangle (button_x v, button_y v)
       (button_x v + button_w v, button_y v + button_h v) (255, 255, 255) (-1);
     Rectangle (button_x v, button_y v)
       (button_x v + button_w v, button_y v + button_h v) (0, 0, 0) 2;
     PutText "Binding Help" (button_x v + 15, button_y v + 27) (0, 0, 0)] in
  let banner :=
    match current_role m with
    | Some role =>
        [PutText ("Current role to bind: " +:+ role)
           (20, display_height v - 20) (0, 255, 255)]
    | None => []
    end in
  (fixed ++ banner)%list.

(** [BodyViewer2D.render_frame]: the calls that returned, the exception if
    one was raised, and the viewer's fields afterwards.  The manager is only
    read. *)
Definition render_frame (role_color : gmap string color)
    (bodies : sl.Bodies) (num_people : Z)
    (v : BodyViewer2D) (m : RoleBindingManager)
    : list draw * option render_error * BodyViewer2D :=
  match draw_all (overlay bodies num_people v m) with
  | (shown, Some err) => (shown, Some err, v)
  | (shown, None) =>
      match label_loop role_color (image_scale v) m (sl.body_list bodies) with
      | (drawn, Some err) => ((shown ++ drawn)%list, Some err, v)
      | (drawn, None) =>
          if binding_help_requested v then
            ((shown ++ drawn
                ++ [ImShow (help_window_name v) true; ImShow (window_name v) false])%list,
             None, set_binding_help_requested false v)
          else
            ((shown ++ drawn ++ [ImShow (window_name v) false])%list, None, v)
      end
  end.

End viewer_2d.

(** ** The mouse callback of [body_tracking.py]

    [mouse_callback] in [main] (lines 239-251): it assigns the locals
    [click_pending], [click_pos] and [binding_help_requested], and reads the
    button constants 20, 70, 170 and 40. *)

Definition body_tracking_mouse_callback (event x y : Z)
    (s : bool * RoleBindingManager) : bool * RoleBindingManager :=
  let '(binding_help_requested, m) := s in
  let button_x := 20 in
  let button_y := 70 in
  let button_w := 170 in
  let button_h := 40 in
  if event =? cv2.EVENT_LBUTTONDOWN then
    if (button_x <=? x) && (x <=? button_x + button_w) &&
       ((button_y <=? y) && (y <=? button_y + button_h))
    then (true, m)
    else (binding_help_requested, set_click_pending true (set_click_pos (x, y) m))
  else (binding_help_requested, m).

(** A left press at [(x, y)] falls on the help button, borders included. *)
Definition on_button (v : viewer_2d.BodyViewer2D) (x y : Z) : Prop :=
  viewer_2d.button_x v ≤ x ≤ viewer_2d.button_x v + viewer_2d.button_w v ∧
  viewer_2d.button_y v ≤ y ≤ viewer_2d.button_y v + viewer_2d.button_h v.

#[global] Instance on_button_dec v x y : Decision (on_button v x y).
Proof. unfold on_button. apply _. Defined.

(** The callback run on a sequence of events [(event, x, y)], in order. *)
Definition deliver (events : list (Z * Z * Z))
    (s : viewer_2d.BodyViewer2D * RoleBindingManager)
    : viewer_2d.BodyViewer2D * RoleBindingManager :=
  foldl (λ s ev, viewer_2d._mouse_callback ev.1.1 ev.1.2 ev.2 s) s events.

(** The last left press of a sequence of events that fell off the help
    button, if there was one. *)
Fixpoint last_binding_click (v : viewer_2d.BodyViewer2D)
    (events : list (Z * Z * Z)) : option (Z * Z) :=
  match events with
  | [] => None
  | (event, x, y) :: rest =>
      match last_binding_click v rest with
      | Some click => Some click
      | None =>
          if (event =? cv2.EVENT_LBUTTONDOWN) && negb (bool_decide (on_button v x y))
          then Some (x, y) else None
      end
  end.

(** Some event of the sequence is a left press on the help button. *)
Fixpoint help_pressed (v : viewer_2d.BodyViewer2D)
    (events : list (Z * Z * Z)) : bool :=
  match events with
  | [] => false
  | (event, x, y) :: rest =>
      (event =? cv2.EVENT_LBUTTONDOWN) && bool_decide (on_button v x y)
      || help_pressed v rest
  end.

(** The label a frame shows for a body, read off [render_frame]: nothing
    without a display position, otherwise the text and colour of the body's id
    ten pixels above that position. *)
Definition shown_label (role_color : gmap string color) (scale : float * float)
    (m : RoleBindingManager) (body : sl.Body) : option viewer_2d.draw :=
  match reference_point scale body, get_label_and_color role_color (sl.id body) m with
  | Display p, Found (role_text, col) =>
      Some (viewer_2d.PutText role_text (p.1, p.2 - 10) col)
  | _, _ => None
  end.

(** OpenCV takes the position of every label of the frame: each display
    position, moved up ten pixels, is a point within its range. *)
Definition labels_fit (scale : float * float) (bodies : list sl.Body) : Prop :=
  ∀ b p, b ∈ bodies → reference_point scale b = Display p →
    cv2.fits_point (p.1, p.2 - 10) = true.

(** ** The loop of [main.py]

    One pass through the body of [while True] in [main] (lines 73-106).  What
    the camera and OpenCV supply is the input of the pass: whether
    [zed_tracker.grab()] succeeded, the bodies [retrieve()] returned, and the
    integer [cv2.waitKey] returned (-1 when no key was pressed).  The pass
    ends by going round again, by [break], or by an exception that nothing
    catches.  OpenCV runs the mouse callback while it waits for a key; the
    callback and the key handling assign different fields, so mouse events
    are taken between passes. *)

Module main_py.

Record loop_state : Type := mkLoop {
  binding_manager : RoleBindingManager;
  viewer : viewer_2d.BodyViewer2D;
  key_wait : Z
}.

Inductive outcome : Type :=
| Continue
| Break
| Raised (err : viewer_2d.render_error).

Definition iteration (role_color : gmap string color)
    (grab : bool) (bodies : sl.Bodies) (waitkey : Z) (st : loop_state)
    : outcome * loop_state * list viewer_2d.draw :=
  if negb grab then (Continue, st, [])
  else
    let num_people := Z.of_nat (length (sl.body_list bodies)) in
    match try_assign_from_click (Some bodies) (binding_manager st) with
    | (Raise e, m1) =>
        (Raised (viewer_2d.IntError e), mkLoop m1 (viewer st) (key_wait st), [])
    | (Ok _, m1) =>
        match viewer_2d.render_frame role_color bodies num_people (viewer st) m1 with
        | (drawn, Some err, v1) => (Raised err, mkLoop m1 v1 (key_wait st), drawn)
        | (drawn, None, v1) =>
            let key := Z.land waitkey 255 in
            if key =? ord "q" then (Break, mkLoop m1 v1 (key_wait st), drawn)
            else
              let key_wait' :=
                if key =? ord "m"
                then (if 0 <? key_wait st then 0 else 10)
                else key_wait st in
              let m2 := (set_current_role_from_key key m1).2 in
              (Continue, mkLoop m2 v1 key_wait', drawn)
        end
    end.

(** What happens to the program, in order. *)
Inductive input : Type :=
| Frame (grab : bool) (bodies : sl.Bodies) (waitkey : Z)
| Mouse (event x y : Z).

(** The loop run on a sequence of inputs, until it ends or they run out. *)
Fixpoint session (role_color : gmap string color) (inputs : list input)
    (st : loop_state) : outcome * loop_state :=
  match inputs with
  | [] => (Continue, st)
  | Frame grab bodies waitkey :: rest =>
      match iteration role_color grab bodies waitkey st with
      | (Continue, st', _) => session role_color rest st'
      | (o, st', _) => (o, st')
      end
  | Mouse event x y :: rest =>
      let '(v', m') :=
        viewer_2d._mouse_callback event x y (viewer st, binding_manager st) in
      session role_color rest (mkLoop m' v' (key_wait st))
  end.

End main_py.

(** ** Command-line options ([body_tracking.py], [parse_args])

    An option string is the sequence of the bytes of its UTF-8 encoding; the
    separators and substrings [parse_args] looks for are ASCII, so removing,
    splitting and searching act on the bytes as they do on the characters.
    Of [pyzed]'s [InitParameters] the model keeps what [parse_args] sets: the
    input ([set_from_svo_file], [set_from_stream] with or without a port) and
    [camera_resolution].  Python's [str.isdigit] and [int] on a string, which
    depend on the Unicode tables, are parameters, [isdigit] and [int_str];
    the properties below say which of their documented behaviour they rely
    on. *)

Module args.

(** [s.endswith(suffix)] *)
Fixpoint endswith (suffix s : string) : bool :=
  String.eqb suffix s ||
  match s with
  | EmptyString => false
  | String _ rest => endswith suffix rest
  end.

(** [s.replace(c, "")] for a one-character [c]. *)
Fixpoint remove_char (c : ascii) (s : string) : string :=
  match s with
  | EmptyString => EmptyString
  | String a rest =>
      if Ascii.eqb a c then remove_char c rest
      else String a (remove_char c rest)
  end.

(** [c] is one of the characters 0 to 9. *)
Definition is_digit (c : ascii) : bool :=
  (48 <=? Z.of_N (N_of_ascii c)) && (Z.of_N (N_of_ascii c) <=? 57).

Fixpoint all_digits (s : string) : bool :=
  match s with
  | EmptyString => true
  | String a rest => is_digit a && all_digits rest
  end.

(** [s.isdigit()] for an ASCII string [s]: not empty, and digits only.
    The examples run [parse_args] with it. *)
Definition ascii_isdigit (s : string) : bool :=
  match s with
  | EmptyString => false
  | String _ _ => all_digits s
  end.

(** [s.split(c)] for a one-character separator [c]. *)
Fixpoint split (c : ascii) (s : string) : list string :=
  match s with
  | EmptyString => [EmptyString]
  | String a rest =>
      if Ascii.eqb a c then EmptyString :: split c rest
      else match split c rest with
           | first :: others => String a first :: others
           | [] => [String a EmptyString]
           end
  end.

Record Options : Type := mkOptions {
  input_svo_file : string;
  ip_address : string;
  resolution : string
}.

Inductive RESOLUTION : Type := HD2K | HD1200 | HD1080 | HD720 | SVGA | VGA.

Inductive input_type : Type :=
| LiveCamera
| SvoFile (path : string)
| Stream (ip : string) (port : option Z).

Record InitParameters : Type := mkInit {
  input : input_type;
  camera_resolution : RESOLUTION
}.

(** The part of [init_params] that [main] has set when it calls
    [parse_args]: no input chosen, resolution HD1080. *)
Definition default_init : InitParameters :=
  {| input := LiveCamera; camera_resolution := HD1080 |}.

Definition parse_args (isdigit : string → bool) (int_str : string → result Z)
    (init : InitParameters) (opt : Options) : result InitParameters :=
  init ←
    (if (0 <? String.length (input_svo_file opt))%nat
        && endswith ".svo" (input_svo_file opt)
     then mret (mkInit (SvoFile (input_svo_file opt)) (camera_resolution init))
     else if (0 <? String.length (ip_address opt))%nat then
       let ip_str := ip_address opt in
       if isdigit (remove_char "." (remove_char ":" ip_str))
          && (length (split "." ip_str) =? 4)%nat
          && (length (split ":" ip_str) =? 2)%nat
       then
         port ← int_str (default "" (split ":" ip_str !! 1%nat));
         mret (mkInit (Stream (default "" (split ":" ip_str !! 0%nat)) (Some port))
                 (camera_resolution init))
       else if isdigit (remove_char "." (remove_char ":" ip_str))
               && (length (split "." ip_str) =? 4)%nat
       then mret (mkInit (Stream ip_str None) (camera_resolution init))
       else mret init
     else mret init);
  if contains "HD2K" (resolution opt) then mret (mkInit (input init) HD2K)
  else if contains "HD1200" (resolution opt) then mret (mkInit (input init) HD1200)
  else if contains "HD1080" (resolution opt) then mret (mkInit (input init) HD1080)
  else if contains "HD720" (resolution opt) then mret (mkInit (input init) HD720)
  else if contains "SVGA" (resolution opt) then mret (mkInit (input init) SVGA)
  else if contains "VGA" (resolution opt) then mret (mkInit (input init) VGA)
  else mret init.

(** The check under [if __name__ == '__main__'] and the start of [main]:
    [None] when the script exits because both a file and an address were
    given, otherwise what [parse_args] makes of the default parameters. *)
Definition script_args (isdigit : string → bool) (int_str : string → result Z)
    (opt : Options) : option (result InitParameters) :=
  if (0 <? String.length (input_svo_file opt))%nat
     && (0 <? String.length (ip_address opt))%nat
  then None
  else Some (parse_args isdigit int_str default_init opt).

(** The name of a resolution, as the [--resolution] option documents it. *)
Definition resolution_name (r : RESOLUTION) : string :=
  match r with
  | HD2K => "HD2K" | HD1200 => "HD1200" | HD1080 => "HD1080"
  | HD720 => "HD720" | SVGA => "SVGA" | VGA => "VGA"
  end.

End args.

(** ** The loop of [body_tracking.py]

    One pass through the body of [while True] in [main] (lines 258-466), on
    the same inputs as a pass of [main.py].  The locals of [main] are the
    manager's record (as for the click-assignment block), the flag
    [binding_help_requested] and [key_wait]; [role_color] (lines 213-217)
    holds the entries of [default_role_color], the button is at 20, 70 with
    size 170 by 40, and the windows are "ZED | 2D View" and "Binding Help".
    [display_height] is [display_resolution.height].  The drawing calls are
    those of [render_frame], made by the loop itself. *)

Module body_tracking_main.

(** The loop that draws the labels (lines 336-368). *)
Fixpoint label_loop (m : RoleBindingManager) (bodies : list sl.Body)
    : list viewer_2d.draw * option viewer_2d.render_error :=
  match bodies with
  | [] => ([], None)
  | body :: rest =>
      let body_id := sl.id body in
      match sl.keypoint_2d body with
      | Some (kp :: _) =>
          if negb (isnan kp.1) && negb (isnan kp.2) then
            match Py.int (PrimFloat.mul kp.1 (image_scale m).1) with
            | Raise e => ([], Some (viewer_2d.IntError e))
            | Ok x =>
                match Py.int (PrimFloat.mul kp.2 (image_scale m).2) with
                | Raise e => ([], Some (viewer_2d.IntError e))
                | Ok y =>
                    let role_text :=
                      default ("ID:" +:+ fmt_int body_id) (role_map m !! body_id) in
                    match
                      (if contains "Surgeon" role_text
                       then getitem default_role_color "Surgeon"
                       else if contains "Assistant" role_text
                       then getitem default_role_color "Assistant"
                       else if contains "Nurse" role_text
                       then getitem default_role_color "Nurse"
                       else Found (0, 255, 255))
                    with
                    | KeyError k => ([], Some (viewer_2d.ColorKeyError k))
                    | Found col =>
                        if viewer_2d.accepts
                             (viewer_2d.PutText role_text (x, y - 10) col)
                        then
                          let '(drawn, err) := label_loop m rest in
                          (viewer_2d.PutText role_text (x, y - 10) col :: drawn, err)
                        else ([], Some viewer_2d.Cv2Error)
                    end
                end
            end
          else label_loop m rest
      | _ => label_loop m rest
      end
  end.

Definition iteration (display_height : Z)
    (grab : bool) (bodies : sl.Bodies) (waitkey : Z)
    (st : bool * RoleBindingManager * Z)
    : main_py.outcome * (bool * RoleBindingManager * Z) * list viewer_2d.draw :=
  let '(binding_help_requested, m, key_wait) := st in
  if grab then
    let num_people := Z.of_nat (length (sl.body_list bodies)) in
    let button_x := 20 in
    let button_y := 70 in
    let button_w := 170 in
    let button_h := 40 in
    let fixed :=
      [viewer_2d.Render2D (image_scale m) (sl.body_list bodies);
       viewer_2d.PutText ("People detected: " +:+ fmt_int num_people)
         (20, 40) (0, 255, 0);
       viewer_2d.Rectangle (button_x, button_y)
         (button_x + button_w, button_y + button_h) (255, 255, 255) (-1);
       viewer_2d.Rectangle (button_x, button_y)
         (button_x + button_w, button_y + button_h) (0, 0, 0) 2;
       viewer_2d.PutText "Binding Help" (button_x + 15, button_y + 27) (0, 0, 0)] in
    let banner :=
      match current_role m with
      | Some role =>
          [viewer_2d.PutText ("Current role to bind: " +:+ role)
             (20, display_height - 20) (0, 255, 255)]
      | None => []
      end in
    match viewer_2d.draw_all (fixed ++ banner) with
    | (shown, Some err) => (main_py.Raised err, st, shown)
    | (shown, None) =>
    match label_loop m (sl.body_list bodies) with
    | (drawn, Some err) =>
        (main_py.Raised err, st, (shown ++ drawn)%list)
    | (drawn, None) =>
        let help :=
          if binding_help_requested
          then [viewer_2d.ImShow "Binding Help" true] else [] in
        let binding_help_requested :=
          if binding_help_requested then false else binding_help_requested in
        match body_tracking.click_assign_block bodies m with
        | (Raise e, m1) =>
            (main_py.Raised (viewer_2d.IntError e),
             (binding_help_requested, m1, key_wait),
             (shown ++ drawn ++ help)%list)
        | (Ok _, m1) =>
            let shown :=
              (shown ++ drawn ++ help
                 ++ [viewer_2d.ImShow "ZED | 2D View" false])%list in
            let key := Z.land waitkey 255 in
            if key =? ord "q" then
              (main_py.Break, (binding_help_requested, m1, key_wait), shown)
            else
              let key_wait :=
                if key =? ord "m"
                then (if 0 <? key_wait then 0 else 10)
                else key_wait in
              let m2 :=
                if key =? ord "s" then set_current_role (Some "Surgeon") m1
                else if key =? ord "a" then set_current_role (Some "Assistant") m1
                else if key =? ord "n" then set_current_role (Some "Nurse") m1
                else if key =? 27 then set_current_role None m1
                else m1 in
              (main_py.Continue, (binding_help_requested, m2, key_wait), shown)
        end
    end
    end
  else (main_py.Continue, st, []).

End body_tracking_main.

(** ** More vocabulary *)

(** The character [c] occurs in [s]. *)
Fixpoint occurs (c : ascii) (s : string) : bool :=
  match s with
  | EmptyString => false
  | String a rest => Ascii.eqb c a || occurs c rest
  end.

(** The number of [register_click] calls in a sequence. *)
Fixpoint clicks (cs : list call) : nat :=
  match cs with
  | [] => 0
  | RegisterClick _ _ :: cs => S (clicks cs)
  | _ :: cs => clicks cs
  end.

(** The exception [int] raises on the first body of a frame whose keypoint
    it rejects, if there is one. *)
Fixpoint first_failure (scale : float * float) (bodies : list sl.Body)
    : option exn :=
  match bodies with
  | [] => None
  | b :: rest =>
      match reference_point scale b with
      | Unconvertible e => Some e
      | _ => first_failure scale rest
      end
  end.

(** The role map holds numbered labels only, each numbered between 1 and its
    category's counter, and no label twice; the counters are not negative. *)
Definition bindings_ok (m : RoleBindingManager) : Prop :=
  (∀ c, 0 ≤ counter c m) ∧
  (∀ bid l, role_map m !! bid = Some l →
     ∃ c n, l = role_label c n ∧ 0 < n ≤ counter c m) ∧
  (∀ bid1 bid2 l, role_map m !! bid1 = Some l → role_map m !! bid2 = Some l →
     bid1 = bid2).

(** ** The scenarios of the specification, run on the model *)

Section Scenarios.

Let scale : float * float := (1%float, 1%float).
Let body (i : Z) (x y : float) : sl.Body := sl.mkBody i (Some [(x, y)]).
Let frame : option sl.Bodies :=
  Some (sl.mkBodies [body 1 100%float 100%float; body 2 500%float 500%float]).

Let session1 : list call :=
  [SetCurrentRoleFromKey 115; RegisterClick 110 110; TryAssignFromClick frame].
Let session2 : list call :=
  session1 ++ [RegisterClick 510 510; TryAssignFromClick frame].
Let session3 : list call :=
  session2 ++ [SetCurrentRoleFromKey 97; RegisterClick 110 110;
               TryAssignFromClick frame].

Example scenario1 :
  role_map (run session1 (new_manager scale)) = {[ 1 := "Surgeon_1" ]}.
Proof. vm_compute. reflexivity. Qed.

Example scenario2 :
  role_map (run session2 (new_manager scale))
  = <[ 2 := "Surgeon_2" ]> {[ 1 := "Surgeon_1" ]}.
Proof. vm_compute. reflexivity. Qed.

Example scenario3 :
  let m := run session3 (new_manager scale) in
  role_map m !! 1 = Some "Assistant_1" ∧ role_map m !! 2 = Some "Surgeon_2" ∧
  surgeon_count m = 2 ∧ assistant_count m = 1.
Proof. vm_compute. auto. Qed.

Example scenario4 :
  let m := run [SetCurrentRoleFromKey 110; RegisterClick 5 5;
                TryAssignFromClick (Some (sl.mkBodies []))] (new_manager scale) in
  click_pending m = false ∧ role_map m = ∅ ∧ nurse_count m = 0.
Proof. vm_compute. auto. Qed.

Example scenario5 :
  let m := run [SetCurrentRoleFromKey 27; RegisterClick 5 5;
                TryAssignFromClick frame; TryAssignFromClick frame]
             (new_manager scale) in
  click_pending m = true ∧ click_pos m = (5, 5) ∧ role_map m = ∅.
Proof. vm_compute. auto. Qed.

(** Scaling and truncation: 100.7 * 1.5 = 151.05 is read as pixel 151,
    -0.9 as pixel 0. *)
Example display_truncates :
  reference_point (1.5%float, 1%float)
    (body 7 0x1.92ccccccccccdp+6%float (-0x1.ccccccccccccdp-1)%float)
  = Display (151, 0).
Proof. vm_compute. reflexivity. Qed.

(** An infinite coordinate is not NaN, and [int] raises on it. *)
Example display_infinite :
  reference_point scale (body 7 infinity 3%float) = Unconvertible OverflowError.
Proof. vm_compute. reflexivity. Qed.

(** A frame with an infinite coordinate: the call raises out of the loop,
    before any field is assigned, and the click is still pending. *)
Example infinite_keypoint_raises :
  try_assign_from_click
    (Some (sl.mkBodies [body 1 100%float 100%float; body 2 infinity 3%float]))
    (run [SetCurrentRoleFromKey 115; RegisterClick 110 110] (new_manager scale))
  = (Raise OverflowError,
     run [SetCurrentRoleFromKey 115; RegisterClick 110 110] (new_manager scale)).
Proof. vm_compute. reflexivity. Qed.

End Scenarios.

(** ** Unfolding the method monad *)

Ltac run_method :=
  cbv [mbind mret M_mbind M_mret M_bind M_ret self assign lift
       result_mbind result_ret result_bind].

Lemma set_click_pending_fields v m :
  image_scale (set_click_pending v m) = image_scale m ∧
  role_map (set_click_pending v m) = role_map m ∧
  current_role (set_click_pending v m) = current_role m ∧
  click_pos (set_click_pending v m) = click_pos m ∧
  surgeon_count (set_click_pending v m) = surgeon_count m ∧
  assistant_count (set_click_pending v m) = assistant_count m ∧
  nurse_count (set_click_pending v m) = nurse_count m.
Proof. repeat split. Qed.

(** ** Role selection by key *)

Lemma key_effect_codes :
  key_effect (ord "s") = Some (Some "Surgeon") ∧
  key_effect (ord "a") = Some (Some "Assistant") ∧
  key_effect (ord "n") = Some (Some "Nurse") ∧
  key_effect 27 = Some None.
Proof. repeat split. Qed.

Lemma set_current_role_from_key_effect key m :
  (set_current_role_from_key key m).2
  = match key_effect key with
    | Some r => set_current_role r m
    | None => m
    end.
Proof.
  unfold set_current_role_from_key, key_effect.
  change (ord "s") with 115. change (ord "a") with 97. change (ord "n") with 110.
  repeat case_match; reflexivity.
Qed.

Lemma run_keys_current_role keys : ∀ m,
  current_role (run (SetCurrentRoleFromKey <$> keys) m)
  = default (current_role m) (last_key_effect keys).
Proof.
  induction keys as [|k keys IH]; intros m; [reflexivity|].
  cbn [fmap list_fmap run after_call last_key_effect].
  rewrite IH, set_current_role_from_key_effect.
  destruct (last_key_effect keys) as [r|]; [reflexivity|].
  destruct (key_effect k); reflexivity.
Qed.

(** C6: [set_current_role_from_key] sets the active role to Surgeon on 's',
    Assistant on 'a', Nurse on 'n' and to none on ESC (27), and returns a
    non-empty status string in these four cases; on any other key it changes
    nothing and returns [None].  After a sequence of keys the active role is
    the effect of the last of these four keys in it, or the initial role when
    there is none. *)
Theorem key_selects_role :
  (∀ m, ∃ msg, msg ≠ "" ∧
     set_current_role_from_key (ord "s") m
     = (Ok (Some msg), set_current_role (Some "Surgeon") m)) ∧
  (∀ m, ∃ msg, msg ≠ "" ∧
     set_current_role_from_key (ord "a") m
     = (Ok (Some msg), set_current_role (Some "Assistant") m)) ∧
  (∀ m, ∃ msg, msg ≠ "" ∧
     set_current_role_from_key (ord "n") m
     = (Ok (Some msg), set_current_role (Some "Nurse") m)) ∧
  (∀ m, ∃ msg, msg ≠ "" ∧
     set_current_role_from_key 27 m = (Ok (Some msg), set_current_role None m)) ∧
  (∀ key m, key ≠ ord "s" → key ≠ ord "a" → key ≠ ord "n" → key ≠ 27 →
     set_current_role_from_key key m = (Ok None, m)) ∧
  (∀ key, key ≠ ord "s" → key ≠ ord "a" → key ≠ ord "n" → key ≠ 27 →
     key_effect key = None) ∧
  (∀ keys m,
     current_role (run (SetCurrentRoleFromKey <$> keys) m)
     = default (current_role m) (last_key_effect keys)).
Proof.
  split_and!.
  - intros m. eexists. split; [|reflexivity]. discriminate.
  - intros m. eexists. split; [|reflexivity]. discriminate.
  - intros m. eexists. split; [|reflexivity]. discriminate.
  - intros m. eexists. split; [|reflexivity]. discriminate.
  - intros key m Hs Ha Hn He. unfold set_current_role_from_key.
    change (ord "s") with 115 in *. change (ord "a") with 97 in *.
    change (ord "n") with 110 in *.
    repeat case_match; try lia. reflexivity.
  - intros key Hs Ha Hn He. unfold key_effect.
    change (ord "s") with 115 in *. change (ord "a") with 97 in *.
    change (ord "n") with 110 in *.
    repeat case_match; try lia. reflexivity.
  - intros keys m. apply run_keys_current_role.
Qed.

(** An unrecognised key ('x') between 'a' and the end leaves Assistant
    selected; the sequence s, ESC, a, x ends in Assistant. *)
Lemma key_selects_role_witness :
  set_current_role_from_key 120 (new_manager (1%float, 1%float))
  = (Ok None, new_manager (1%float, 1%float)) ∧
  key_effect 120 = None ∧
  current_role (run (SetCurrentRoleFromKey <$> [115; 27; 97; 120])
                  (new_manager (1%float, 1%float)))
  = Some "Assistant".
Proof.
  pose proof key_selects_role as (_ & _ & _ & _ & Hother & Heff & Hseq).
  split_and!.
  - apply Hother; vm_compute; discriminate.
  - apply Heff; vm_compute; discriminate.
  - rewrite Hseq. reflexivity.
Defined.

(** ** The click buffer *)

(** C7: [register_click] is last-write-wins.  Two clicks in a row leave
    exactly the state that the second click alone leaves: the flag is set and
    the position is the second click's, so a later assignment attempt sees
    only the second click. *)
Theorem register_click_last_wins (m : RoleBindingManager) (x1 y1 x2 y2 : Z) :
  let m1 := (register_click x1 y1 m).2 in
  register_click x2 y2 m1 = register_click x2 y2 m ∧
  click_pending (register_click x2 y2 m1).2 = true ∧
  click_pos (register_click x2 y2 m1).2 = (x2, y2) ∧
  ∀ bodies,
    try_assign_from_click bodies (register_click x2 y2 m1).2
    = try_assign_from_click bodies (register_click x2 y2 m).2.
Proof. repeat split. Qed.

(** ** The guards of [try_assign_from_click] *)

Lemma try_assign_not_attempted m bodies :
  click_pending m = false ∨ current_role m = None →
  try_assign_from_click bodies m = (Ok NotAttempted, m).
Proof.
  intros H. unfold try_assign_from_click. run_method.
  destruct H as [-> | ->]; [reflexivity|].
  rewrite bool_decide_eq_true_2 by reflexivity.
  rewrite orb_true_r. reflexivity.
Qed.

Lemma try_assign_guard_passed m r :
  click_pending m = true → current_role m = Some r →
  negb (click_pending m) || bool_decide (current_role m = None) = false.
Proof.
  intros -> ->. rewrite bool_decide_eq_false_2 by discriminate. reflexivity.
Qed.

Lemma run_try_assign_not_attempted frames : ∀ m,
  click_pending m = false ∨ current_role m = None →
  run (TryAssignFromClick <$> frames) m = m.
Proof.
  induction frames as [|f frames IH]; intros m H; [reflexivity|].
  cbn [fmap list_fmap run after_call].
  rewrite try_assign_not_attempted by exact H. cbn [snd]. apply IH, H.
Qed.

(** C3, as the claim states it, fails for one of the two resolvers it names:
    the click-assignment block of [body_tracking.py] also asks for a
    non-empty body list before it does anything, so on an empty frame, with a
    click pending and a role selected, the click is still pending after it. *)
Lemma inline_block_skips_empty_frame :
  let m := run [SetCurrentRoleFromKey 110; RegisterClick 5 5]
             (new_manager (1%float, 1%float)) in
  click_pending m = true ∧ current_role m = Some "Nurse" ∧
  click_pending (body_tracking.click_assign_block (sl.mkBodies []) m).2 = true.
Proof. repeat split. Qed.

(** C3, amended: with a click pending and a role selected, a call of
    [try_assign_from_click] on an empty body list (or on no [Bodies] object)
    clears the pending flag and does nothing else: the role map, the three
    counters, the selection and the stored click position are unchanged.  The
    click-assignment block of [body_tracking.py], run on an empty body list
    from the same state, binds and counts nothing either, and leaves the
    whole state as it was, the pending click included. *)
Theorem empty_frame_consumes_click (m : RoleBindingManager) (r : string) :
  click_pending m = true →
  current_role m = Some r →
  (try_assign_from_click (Some (sl.mkBodies [])) m
   = (Ok NoBodiesAvailable, set_click_pending false m) ∧
   try_assign_from_click None m
   = (Ok NoBodiesAvailable, set_click_pending false m) ∧
   click_pending (set_click_pending false m) = false ∧
   role_map (set_click_pending false m) = role_map m ∧
   surgeon_count (set_click_pending false m) = surgeon_count m ∧
   assistant_count (set_click_pending false m) = assistant_count m ∧
   nurse_count (set_click_pending false m) = nurse_count m) ∧
  body_tracking.click_assign_block (sl.mkBodies []) m = (Ok NotAttempted, m).
Proof.
  intros Hp Hr. split.
  - assert (Hg := try_assign_guard_passed m r Hp Hr).
    unfold try_assign_from_click. run_method. rewrite Hg. cbn.
    repeat split.
  - unfold body_tracking.click_assign_block. run_method.
    rewrite Hp, Hr. reflexivity.
Qed.

Lemma empty_frame_consumes_click_witness :
  let m := run [SetCurrentRoleFromKey 110; RegisterClick 5 5]
             (new_manager (1%float, 1%float)) in
  try_assign_from_click (Some (sl.mkBodies [])) m
  = (Ok NoBodiesAvailable, set_click_pending false m) ∧
  body_tracking.click_assign_block (sl.mkBodies []) m = (Ok NotAttempted, m).
Proof.
  intros m.
  destruct (empty_frame_consumes_click m "Nurse") as [(Hmethod & _) Hblock];
    [reflexivity..|].
  split; [exact Hmethod | exact Hblock].
Defined.

(** C4: when no click is pending, or no role is selected, the call returns
    at once and changes nothing, whatever the frame; so do any number of such
    calls.  In particular a click registered while no role is selected stays
    pending, with its position, across repeated calls. *)
Theorem try_assign_waits_for_click_and_role (m : RoleBindingManager) :
  click_pending m = false ∨ current_role m = None →
  (∀ bodies, try_assign_from_click bodies m = (Ok NotAttempted, m)) ∧
  (∀ frames, run (TryAssignFromClick <$> frames) m = m) ∧
  (∀ x y frames,
     current_role m = None →
     let m1 := (register_click x y m).2 in
     run (TryAssignFromClick <$> frames) m1 = m1 ∧
     click_pending m1 = true ∧ click_pos m1 = (x, y)).
Proof.
  intros H. split_and!.
  - intros bodies. apply try_assign_not_attempted, H.
  - intros frames. apply run_try_assign_not_attempted, H.
  - intros x y frames Hnone m1. split_and!; try reflexivity.
    apply run_try_assign_not_attempted. right. exact Hnone.
Qed.

Lemma try_assign_waits_for_click_and_role_witness :
  let m := (register_click 5 5 (new_manager (1%float, 1%float))).2 in
  let frame := Some (sl.mkBodies [sl.mkBody 1 (Some [(3%float, 4%float)])]) in
  try_assign_from_click frame m = (Ok NotAttempted, m) ∧
  run (TryAssignFromClick <$> [frame; None; frame]) m = m.
Proof.
  intros m frame.
  assert (H : click_pending m = false ∨ current_role m = None)
    by (right; reflexivity).
  destruct (try_assign_waits_for_click_and_role m H) as (Hone & Hmany & _).
  split; [apply Hone | apply Hmany].
Defined.

(** ** Label generation *)

Lemma generate_role_name_category c m :
  current_role m = Some (category_name c) →
  _generate_role_name m
  = (Ok (role_label c (counter c m + 1)), increment c m).
Proof.
  intros H. unfold _generate_role_name. run_method. rewrite H.
  destruct c; reflexivity.
Qed.

Lemma str_eq_category r c :
  str_eq r (category_name c) = true ↔ r = Some (category_name c).
Proof.
  destruct r as [x|]; cbn; [|split; discriminate].
  rewrite String.eqb_eq. split; congruence.
Qed.

Lemma generate_role_name_fallback m :
  (∀ c, current_role m ≠ Some (category_name c)) →
  _generate_role_name m = (Ok (str_or (current_role m) "Unknown"), m).
Proof.
  intros H. unfold _generate_role_name. run_method.
  destruct (str_eq (current_role m) "Surgeon") eqn:Es.
  { apply (str_eq_category _ Surgeon) in Es. destruct (H _ Es). }
  destruct (str_eq (current_role m) "Assistant") eqn:Ea.
  { apply (str_eq_category _ Assistant) in Ea. destruct (H _ Ea). }
  destruct (str_eq (current_role m) "Nurse") eqn:En.
  { apply (str_eq_category _ Nurse) in En. destruct (H _ En). }
  reflexivity.
Qed.

Lemma selection_category_dec r :
  (∃ c, r = Some (category_name c)) ∨ (∀ c, r ≠ Some (category_name c)).
Proof.
  destruct (str_eq r "Surgeon") eqn:Es.
  { left. exists Surgeon. by apply str_eq_category. }
  destruct (str_eq r "Assistant") eqn:Ea.
  { left. exists Assistant. by apply str_eq_category. }
  destruct (str_eq r "Nurse") eqn:En.
  { left. exists Nurse. by apply str_eq_category. }
  right. intros c Hc. apply str_eq_category in Hc.
  destruct c; cbn in Hc; congruence.
Qed.

(** [_generate_role_name] always returns. *)
Lemma generate_role_name_returns m :
  ∃ assigned_role m1, _generate_role_name m = (Ok assigned_role, m1).
Proof.
  destruct (selection_category_dec (current_role m)) as [[c Hc]|Hn].
  - rewrite (generate_role_name_category c m Hc). eauto.
  - rewrite (generate_role_name_fallback m Hn). eauto.
Qed.

Lemma role_label_inj c n c' n' :
  role_label c n = role_label c' n' → c = c' ∧ n = n'.
Proof.
  unfold role_label, fmt_int.
  destruct c, c'; cbn; intros H; try discriminate H;
    (split; [reflexivity|]); simplify_eq; by apply (inj pretty).
Qed.

Lemma counter_increment c c' m :
  counter c' (increment c m)
  = if bool_decide (c' = c) then counter c m + 1 else counter c' m.
Proof. destruct c, c'; reflexivity. Qed.

(** ** The nearest-body loop *)

Lemma nearest_iter_reference scale cx cy st b :
  nearest_iter scale cx cy st b
  = match reference_point scale b with
    | Absent => Ok st
    | Unconvertible e => Raise e
    | Display p =>
        Ok (if match st.2 with
               | None => true
               | Some best_dist2 => dist2 (cx, cy) p <? best_dist2
               end
            then (Some b, Some (dist2 (cx, cy) p))
            else st)
    end.
Proof.
  unfold nearest_iter, reference_point.
  destruct (sl.keypoint_2d b) as [[|kp kps]|]; try reflexivity.
  destruct (isnan kp.1 || isnan kp.2); [reflexivity|].
  destruct (Py.int (PrimFloat.mul kp.1 scale.1)) as [bx|e]; [|reflexivity].
  destruct (Py.int (PrimFloat.mul kp.2 scale.2)) as [by_|e]; [|reflexivity].
  cbn. unfold dist2. cbn. destruct st.2; [|reflexivity].
  by destruct (_ <? _).
Qed.

Lemma reference_point_invalid scale b :
  invalid_reference b = true ↔ reference_point scale b = Absent.
Proof.
  unfold invalid_reference, reference_point.
  destruct (sl.keypoint_2d b) as [[|kp kps]|]; try done.
  destruct (isnan kp.1 || isnan kp.2); [done|].
  destruct (Py.int _); [destruct (Py.int _)|]; done.
Qed.

Lemma first_nearest_unique scale click bodies i b p i' b' p' :
  first_nearest scale click bodies i b p →
  first_nearest scale click bodies i' b' p' →
  i = i' ∧ b = b' ∧ p = p'.
Proof.
  intros (Hi & Hp & Hmin & Hfst) (Hi' & Hp' & Hmin' & Hfst').
  assert (i = i') as <-.
  { destruct (Nat.lt_total i i') as [Hlt|[?|Hlt]]; [|done|].
    - specialize (Hfst' _ _ _ Hlt Hi Hp). specialize (Hmin _ _ _ Hi' Hp'). lia.
    - specialize (Hfst _ _ _ Hlt Hi' Hp'). specialize (Hmin' _ _ _ Hi Hp). lia. }
  split; [done|]. simplify_eq. split; [done|]. congruence.
Qed.

Lemma first_nearest_snoc_absent scale click seen b0 i b p :
  reference_point scale b0 = Absent →
  first_nearest scale click seen i b p →
  first_nearest scale click (seen ++ [b0]) i b p.
Proof.
  intros Habs (Hi & Hp & Hmin & Hfst). split_and!.
  - rewrite lookup_app_l; [done|]. by eapply lookup_lt_Some.
  - done.
  - intros j b' p' Hj Hp'. apply lookup_app_Some in Hj as [Hj|[_ Hj]].
    + by eapply Hmin.
    + apply list_lookup_singleton_Some in Hj as [_ <-]. congruence.
  - intros j b' p' Hlt Hj Hp'. eapply Hfst; [done| |done].
    apply lookup_lt_Some in Hi.
    rewrite lookup_app_l in Hj; [done|lia].
Qed.

(** One iteration keeps the locals in step with the bodies gone through. *)
Lemma nearest_iter_best_of scale cx cy seen st b :
  best_of scale (cx, cy) seen st →
  (∀ e, reference_point scale b ≠ Unconvertible e) →
  ∃ st', nearest_iter scale cx cy st b = Ok st' ∧
         best_of scale (cx, cy) (seen ++ [b]) st'.
Proof.
  intros Hst Hconv. rewrite nearest_iter_reference.
  destruct (reference_point scale b) as [|p|e] eqn:Hb.
  - (* skipped *)
    exists st. split; [done|].
    destruct st as [[b0|] [d|]]; cbn in *; try done.
    + destruct Hst as (i & p & Hfn & ->). exists i, p. split; [|done].
      by apply first_nearest_snoc_absent.
    + intros b' [Hin| ->%list_elem_of_singleton]%elem_of_app; auto.
  - (* a display position *)
    destruct st as [[b0|] [d|]]; cbn in *; try done.
    + destruct Hst as (i & p0 & (Hi & Hp0 & Hmin & Hfst) & ->).
      destruct (Z.ltb_spec (dist2 (cx, cy) p) (dist2 (cx, cy) p0)) as [Hlt|Hge].
      * eexists; split; [done|]. exists (length seen), p. split; [|done].
        split_and!.
        -- rewrite lookup_app_r by lia. by rewrite Nat.sub_diag.
        -- done.
        -- intros j b' p' Hj Hp'. apply lookup_app_Some in Hj as [Hj|[_ Hj]].
           ++ specialize (Hmin _ _ _ Hj Hp'). lia.
           ++ apply list_lookup_singleton_Some in Hj as [_ <-].
              assert (p' = p) as -> by congruence. lia.
        -- intros j b' p' Hj Hlook Hp'.
           rewrite lookup_app_l in Hlook by lia.
           specialize (Hmin _ _ _ Hlook Hp'). lia.
      * eexists; split; [done|]. exists i, p0. split; [|done].
        split_and!.
        -- rewrite lookup_app_l; [done|]. by eapply lookup_lt_Some.
        -- done.
        -- intros j b' p' Hj Hp'. apply lookup_app_Some in Hj as [Hj|[_ Hj]].
           ++ by eapply Hmin.
           ++ apply list_lookup_singleton_Some in Hj as [_ <-].
              assert (p' = p) as -> by congruence. lia.
        -- intros j b' p' Hlt Hj Hp'. eapply Hfst; [done| |done].
           apply lookup_lt_Some in Hi.
           rewrite lookup_app_l in Hj; [done|lia].
    + eexists; split; [done|]. exists (length seen), p. split; [|done].
      split_and!.
      * rewrite lookup_app_r by lia. by rewrite Nat.sub_diag.
      * done.
      * intros j b' p' Hj Hp'. apply lookup_app_Some in Hj as [Hj|[_ Hj]].
        -- apply list_elem_of_lookup_2, Hst in Hj. congruence.
        -- apply list_lookup_singleton_Some in Hj as [_ <-].
           assert (p' = p) as -> by congruence. lia.
      * intros j b' p' Hj Hlook Hp'.
        rewrite lookup_app_l in Hlook by lia.
        apply list_elem_of_lookup_2, Hst in Hlook. congruence.
  - by destruct (Hconv e).
Qed.

Lemma nearest_loop_best_of scale cx cy bodies : ∀ seen st,
  best_of scale (cx, cy) seen st →
  convertible scale bodies →
  ∃ st', nearest_loop scale cx cy bodies st = Ok st' ∧
         best_of scale (cx, cy) (seen ++ bodies) st'.
Proof.
  induction bodies as [|b bodies IH]; intros seen st Hst Hconv.
  - exists st. rewrite app_nil_r. done.
  - destruct (nearest_iter_best_of scale cx cy seen st b Hst) as (st1 & E1 & H1).
    { intros e. apply Hconv. by left. }
    destruct (IH (seen ++ [b])%list st1 H1) as (st' & E' & H').
    { intros b' e Hin. apply Hconv. by right. }
    exists st'. rewrite <- app_assoc in H'. split; [|exact H'].
    cbn [nearest_loop]. rewrite E1. exact E'.
Qed.

(** The loop returns exactly when no body makes [int] raise. *)
Lemma nearest_loop_returns scale cx cy bodies : ∀ st st',
  nearest_loop scale cx cy bodies st = Ok st' → convertible scale bodies.
Proof.
  induction bodies as [|b bodies IH]; intros st st' H b' e Hin.
  - by apply not_elem_of_nil in Hin.
  - cbn [nearest_loop] in H. rewrite nearest_iter_reference in H.
    apply elem_of_cons in Hin as [->|Hin].
    + intros Hb. rewrite Hb in H. discriminate H.
    + destruct (reference_point scale b) as [|p|e0]; try discriminate H;
        by eapply IH.
Qed.

(** From the start of the loop. *)
Lemma nearest_loop_spec scale cx cy bodies st' :
  nearest_loop scale cx cy bodies (None, None) = Ok st' →
  best_of scale (cx, cy) bodies st'.
Proof.
  intros H.
  destruct (nearest_loop_best_of scale cx cy bodies [] (None, None))
    as (st1 & E1 & H1).
  - intros b Hin. by apply not_elem_of_nil in Hin.
  - by eapply nearest_loop_returns.
  - rewrite E1 in H. by simplify_eq.
Qed.

Lemma nearest_loop_all_invalid scale cx cy bodies : ∀ st,
  (∀ b, b ∈ bodies → invalid_reference b = true) →
  nearest_loop scale cx cy bodies st = Ok st.
Proof.
  induction bodies as [|b bodies IH]; intros st H; [done|].
  cbn [nearest_loop]. rewrite nearest_iter_reference.
  assert (reference_point scale b = Absent) as ->.
  { apply reference_point_invalid, H. by left. }
  cbn. apply IH. intros b' Hin. apply H. by right.
Qed.

(** ** The paths of [try_assign_from_click] *)

Lemma try_assign_from_click_path bodies m :
  try_assign_path bodies m (try_assign_from_click bodies m).
Proof.
  destruct (click_pending m) eqn:Hp; cycle 1.
  { rewrite try_assign_not_attempted by (by left). constructor. by left. }
  destruct (current_role m) as [r|] eqn:Hr; cycle 1.
  { rewrite try_assign_not_attempted by (by right). constructor. by right. }
  assert (Hg := try_assign_guard_passed m r Hp Hr).
  unfold try_assign_from_click. run_method. rewrite Hg.
  destruct bodies as [bs|]; cycle 1.
  { eapply path_no_bodies; eauto. }
  destruct (sl.body_list bs) as [|b0 rest] eqn:Hbs.
  { eapply path_no_bodies; eauto. }
  cbn [length Nat.eqb]. rewrite <- Hbs.
  assert (Hne : sl.body_list bs ≠ []) by (rewrite Hbs; discriminate).
  destruct (click_pos m) as [cx cy] eqn:Hc.
  destruct (nearest_loop (image_scale m) cx cy (sl.body_list bs) (None, None))
    as [[[b|] d]|e] eqn:Hloop; cbn [fst].
  - destruct (generate_role_name_returns m) as (l & m1 & Hgen). rewrite Hgen.
    eapply path_assigned; eauto. by rewrite Hc.
  - eapply path_no_valid_body; eauto. by rewrite Hc.
  - eapply path_raise; eauto. by rewrite Hc.
Qed.

(** With the guards passed and a non-empty frame, the outcome is decided by
    the locals the loop ends with. *)
Lemma try_assign_from_click_scan m bodies r :
  click_pending m = true →
  current_role m = Some r →
  sl.body_list bodies ≠ [] →
  match nearest_loop (image_scale m) (click_pos m).1 (click_pos m).2
          (sl.body_list bodies) (None, None) with
  | Raise e => try_assign_from_click (Some bodies) m = (Raise e, m)
  | Ok (None, _) =>
      try_assign_from_click (Some bodies) m
      = (Ok NoValidBody, set_click_pending false m)
  | Ok (Some b, _) =>
      ∃ assigned_role m1,
        _generate_role_name m = (Ok assigned_role, m1) ∧
        try_assign_from_click (Some bodies) m
        = (Ok (Assigned (sl.id b) assigned_role),
           set_click_pending false
             (set_role_map (<[sl.id b := assigned_role]> (role_map m1)) m1))
  end.
Proof.
  intros Hp Hr Hne.
  destruct (try_assign_from_click_path (Some bodies) m)
    as [[H|H]|r' _ _ [H|(bs & H & Hnil)]|r' bs e _ _ H _ Hloop
        |r' bs d _ _ H _ Hloop|r' bs b' d l m1 _ _ H _ Hloop Hgen];
    try congruence; injection H as <-.
  - by rewrite Hloop.
  - by rewrite Hloop.
  - rewrite Hloop. eauto.
Qed.

Lemma best_of_click scale (click : Z * Z) bodies st :
  best_of scale (click.1, click.2) bodies st ↔ best_of scale click bodies st.
Proof. by destruct click. Qed.

(** The locals at the end of the loop, when no body makes [int] raise. *)
Lemma nearest_loop_convertible scale click bodies :
  convertible scale bodies →
  ∃ st, nearest_loop scale click.1 click.2 bodies (None, None) = Ok st ∧
        best_of scale click bodies st.
Proof.
  intros Hconv.
  destruct (nearest_loop_best_of scale click.1 click.2 bodies [] (None, None))
    as (st & E & Hst); [|done|].
  - intros b Hin. by apply not_elem_of_nil in Hin.
  - exists st. split; [done|]. by apply best_of_click.
Qed.

(** ** Nearest-match correctness *)

(** C1: in a call with a click pending, a role selected and a non-empty body
    list, the body bound is the first body, in iteration order, whose first
    keypoint, scaled by [image_scale] and truncated to integers, is at minimum
    squared distance from the click; its id is mapped to the label
    [_generate_role_name] has just returned, which for a category is
    ["{category}_{counter + 1}"].  Conversely a call that binds a body binds
    that one. *)
Theorem click_binds_first_nearest_body
    (m : RoleBindingManager) (bodies : sl.Bodies) (r : string) :
  click_pending m = true →
  current_role m = Some r →
  sl.body_list bodies ≠ [] →
  (∀ i b p,
     first_nearest (image_scale m) (click_pos m) (sl.body_list bodies) i b p →
     convertible (image_scale m) (sl.body_list bodies) →
     ∃ assigned_role m1,
       _generate_role_name m = (Ok assigned_role, m1) ∧
       try_assign_from_click (Some bodies) m
       = (Ok (Assigned (sl.id b) assigned_role),
          set_click_pending false
            (set_role_map (<[sl.id b := assigned_role]> (role_map m1)) m1)) ∧
       (∀ c, r = category_name c →
             assigned_role = role_label c (counter c m + 1))) ∧
  (∀ bid assigned_role m',
     try_assign_from_click (Some bodies) m
     = (Ok (Assigned bid assigned_role), m') →
     ∃ i b p,
       first_nearest (image_scale m) (click_pos m) (sl.body_list bodies) i b p ∧
       bid = sl.id b ∧
       (_generate_role_name m).1 = Ok assigned_role ∧
       role_map m' !! bid = Some assigned_role).
Proof.
  intros Hp Hr Hne.
  pose proof (try_assign_from_click_scan m bodies r Hp Hr Hne) as Hscan.
  split.
  - intros i b p Hfn Hconv.
    destruct (nearest_loop_convertible _ (click_pos m) _ Hconv) as (st & E & Hst).
    rewrite E in Hscan. destruct st as [[b'|] [d|]]; try done.
    + destruct Hst as (i' & p' & Hfn' & _).
      destruct (first_nearest_unique _ _ _ _ _ _ _ _ _ Hfn Hfn') as (_ & <- & _).
      destruct Hscan as (l & m1 & Hgen & Hcall).
      exists l, m1. split_and!; [done..|].
      intros c ->. rewrite (generate_role_name_category c m) in Hgen by done.
      congruence.
    + (* a body with a display position has been seen *)
      destruct Hfn as (Hi & Hpt & _).
      apply list_elem_of_lookup_2, Hst in Hi. congruence.
  - intros bid l m' Hcall.
    destruct (nearest_loop _ _ _ _ _) as [[[b|] d]|e] eqn:Hloop;
      [|congruence..].
    destruct Hscan as (l' & m1 & Hgen & Hcall'). rewrite Hcall' in Hcall.
    apply nearest_loop_spec, best_of_click in Hloop.
    destruct d as [d|]; [|done]. destruct Hloop as (i & p & Hfn & _).
    exists i, b, p. simplify_eq. split_and!; try done.
    + by rewrite Hgen.
    + cbn. apply lookup_insert_eq.
Qed.

(** Three bodies, the second and the third at the same distance from the
    click: the second, met first, is bound. *)
Lemma click_binds_first_nearest_body_witness :
  let m := (register_click 110 110
              (set_current_role (Some "Surgeon")
                 (new_manager (1%float, 1%float)))).2 in
  let b1 := sl.mkBody 1 (Some [(100%float, 100%float)]) in
  let b2 := sl.mkBody 2 (Some [(500%float, 500%float)]) in
  let b3 := sl.mkBody 3 (Some [(120%float, 120%float)]) in
  ∃ assigned_role m1,
    _generate_role_name m = (Ok assigned_role, m1) ∧
    try_assign_from_click (Some (sl.mkBodies [b2; b1; b3])) m
    = (Ok (Assigned 1 assigned_role),
       set_click_pending false
         (set_role_map (<[1 := assigned_role]> (role_map m1)) m1)) ∧
    (∀ c, "Surgeon" = category_name c →
          assigned_role = role_label c (counter c m + 1)).
Proof.
  intros m b1 b2 b3.
  refine (proj1 (click_binds_first_nearest_body m (sl.mkBodies [b2; b1; b3])
                   "Surgeon" _ _ _) 1%nat b1 (100, 100) _ _).
  - reflexivity.
  - reflexivity.
  - discriminate.
  - split_and!.
    + reflexivity.
    + vm_compute. reflexivity.
    + intros j b' p' Hj Hp'.
      destruct j as [|[|[|j]]]; cbn in Hj; simplify_eq;
        vm_compute in Hp'; simplify_eq; vm_compute; discriminate.
    + intros j b' p' Hlt Hj Hp'.
      destruct j as [|j]; [|lia]. cbn in Hj. simplify_eq.
      vm_compute in Hp'. simplify_eq. vm_compute. reflexivity.
  - intros b e Hin.
    apply elem_of_cons in Hin as [->|Hin]; [vm_compute; discriminate|].
    apply elem_of_cons in Hin as [->|Hin]; [vm_compute; discriminate|].
    apply elem_of_cons in Hin as [->|Hin]; [vm_compute; discriminate|].
    by apply not_elem_of_nil in Hin.
Defined.

(** ** Bodies without a usable reference point *)

(** C8: a body whose [keypoint_2d] is absent or empty, or whose first
    keypoint has a NaN coordinate, is never the body the loop selects, and the
    body a call binds is the one the loop selected.  When every body of the
    frame is such a body the call returns without touching the role map or
    the counters. *)
Theorem invalid_body_never_selected (m : RoleBindingManager) (bodies : sl.Bodies) :
  (∀ b d,
     nearest_loop (image_scale m) (click_pos m).1 (click_pos m).2
       (sl.body_list bodies) (None, None) = Ok (Some b, d) →
     b ∈ sl.body_list bodies ∧ invalid_reference b = false) ∧
  (∀ bid assigned_role m',
     try_assign_from_click (Some bodies) m
     = (Ok (Assigned bid assigned_role), m') →
     ∃ b d,
       nearest_loop (image_scale m) (click_pos m).1 (click_pos m).2
         (sl.body_list bodies) (None, None) = Ok (Some b, d) ∧
       bid = sl.id b) ∧
  ((∀ b, b ∈ sl.body_list bodies → invalid_reference b = true) →
   ∃ ev m',
     try_assign_from_click (Some bodies) m = (Ok ev, m') ∧
     (∀ bid assigned_role, ev ≠ Assigned bid assigned_role) ∧
     role_map m' = role_map m ∧
     surgeon_count m' = surgeon_count m ∧
     assistant_count m' = assistant_count m ∧
     nurse_count m' = nurse_count m).
Proof.
  split_and!.
  - intros b d Hloop. apply nearest_loop_spec in Hloop.
    destruct d as [d|]; [|done].
    destruct Hloop as (i & p & (Hi & Hp & _) & _). split.
    + by eapply list_elem_of_lookup_2.
    + destruct (invalid_reference b) eqn:Hinv; [|done].
      apply (reference_point_invalid (image_scale m)) in Hinv. congruence.
  - intros bid l m' Hcall.
    destruct (try_assign_from_click_path (Some bodies) m)
      as [?|? ? ? ?|? ? ? ? ? ? ? ?|? ? ? ? ? ? ? ?
          |r' bs b d l' m1 _ _ H _ Hloop Hgen]; try discriminate Hcall.
    injection H as <-. exists b, d. split; [done|]. congruence.
  - intros Hall.
    pose proof (nearest_loop_all_invalid (image_scale m) (click_pos m).1
                  (click_pos m).2 (sl.body_list bodies) (None, None) Hall)
      as Hnone.
    destruct (try_assign_from_click_path (Some bodies) m)
      as [?|? ? ? ?|r' bs e _ _ H _ Hloop|r' bs d _ _ H _ Hloop
          |r' bs b d l' m1 _ _ H _ Hloop Hgen].
    + exists NotAttempted, m. by split_and!.
    + exists NoBodiesAvailable, (set_click_pending false m). by split_and!.
    + injection H as <-. congruence.
    + exists NoValidBody, (set_click_pending false m). by split_and!.
    + injection H as <-. congruence.
Qed.

(** A frame of three bodies, one without keypoints, one with an empty
    keypoint array and one with a NaN coordinate: the click is consumed and
    nothing is bound. *)
Lemma invalid_body_never_selected_witness :
  let m := (register_click 110 110
              (set_current_role (Some "Nurse")
                 (new_manager (1%float, 1%float)))).2 in
  let frame := sl.mkBodies [sl.mkBody 1 None; sl.mkBody 2 (Some []);
                            sl.mkBody 3 (Some [(110%float, nan)])] in
  ∃ ev m',
    try_assign_from_click (Some frame) m = (Ok ev, m') ∧
    (∀ bid assigned_role, ev ≠ Assigned bid assigned_role) ∧
    role_map m' = role_map m ∧
    surgeon_count m' = surgeon_count m ∧
    assistant_count m' = assistant_count m ∧
    nurse_count m' = nurse_count m.
Proof.
  intros m frame.
  refine (proj2 (proj2 (invalid_body_never_selected m frame)) _).
  intros b Hin.
  apply elem_of_cons in Hin as [->|Hin]; [reflexivity|].
  apply elem_of_cons in Hin as [->|Hin]; [reflexivity|].
  apply elem_of_cons in Hin as [->|Hin]; [reflexivity|].
  by apply not_elem_of_nil in Hin.
Defined.

(** ** Clearing the pending flag *)

(** C5, as the claim states it, fails: with a click pending and no role
    selected the call returns at its first guard and the flag is still set. *)
Lemma pending_flag_kept_without_role :
  click_pending
    (try_assign_from_click
       (Some (sl.mkBodies [sl.mkBody 1 (Some [(3%float, 4%float)])]))
       (register_click 5 5 (new_manager (1%float, 1%float))).2).2
  = true.
Proof. reflexivity. Qed.

(** C5, amended: after a call that returns, the pending flag is false, unless
    a click was pending and no role was selected; in that case the call
    returns at its first guard, changes nothing (the state after it is the
    state before it), and the click stays pending. *)
Theorem try_assign_clears_pending
    (m : RoleBindingManager) (bodies : option sl.Bodies) :
  (∀ ev m',
     try_assign_from_click bodies m = (Ok ev, m') →
     click_pending m = false ∨ current_role m ≠ None →
     click_pending m' = false) ∧
  (click_pending m = true → current_role m = None →
   try_assign_from_click bodies m = (Ok NotAttempted, m) ∧
   click_pending (try_assign_from_click bodies m).2 = true).
Proof.
  split.
  - intros ev m' Hcall.
    destruct (try_assign_from_click_path bodies m)
      as [Hg|? ? ? ?|? ? ? ? ? ? ? ?|? ? ? ? ? ? ? ?|? ? ? ? ? ? ? ? ? ? ?];
      simplify_eq; try done.
    intros [?|?]; [done|]. destruct Hg; congruence.
  - intros Hp Hr.
    rewrite try_assign_not_attempted by (right; exact Hr).
    split; [reflexivity | exact Hp].
Qed.

Lemma try_assign_clears_pending_witness :
  let m := (register_click 110 110
              (set_current_role (Some "Nurse")
                 (new_manager (1%float, 1%float)))).2 in
  let waiting := (register_click 110 110 (new_manager (1%float, 1%float))).2 in
  let frame := Some (sl.mkBodies [sl.mkBody 1 (Some [(100%float, 100%float)])]) in
  click_pending (try_assign_from_click frame m).2 = false ∧
  try_assign_from_click frame waiting = (Ok NotAttempted, waiting).
Proof.
  intros m waiting frame. split.
  - refine (proj1 (try_assign_clears_pending m frame)
              (Assigned 1 "Nurse_1") (try_assign_from_click frame m).2 _ _).
    + vm_compute. reflexivity.
    + right. discriminate.
  - refine (proj1 (proj2 (try_assign_clears_pending waiting frame) _ _));
      reflexivity.
Defined.

(** ** The inlined block of [body_tracking.py] against the method *)

(** C9, as the claim states it, fails: on an empty frame, with a click
    pending and a role selected, the method clears the pending flag and the
    inlined block, whose guard also asks for a non-empty body list, leaves
    it set. *)
Lemma block_keeps_click_on_empty_frame :
  click_pending
    (try_assign_from_click (Some (sl.mkBodies []))
       (register_click 5 5
          (set_current_role (Some "Surgeon")
             (new_manager (1%float, 1%float)))).2).2 = false ∧
  click_pending
    (body_tracking.click_assign_block (sl.mkBodies [])
       (register_click 5 5
          (set_current_role (Some "Surgeon")
             (new_manager (1%float, 1%float)))).2).2 = true.
Proof. split; reflexivity. Qed.

Lemma str_or_nonempty r d : r ≠ "" → str_or (Some r) d = r.
Proof. intros H. by destruct r. Qed.

(** C9, amended: from one state whose current role is not the empty
    string, the inlined block and the method give the same outcome and the
    same fields (role map, counters, pending flag and the rest) whenever the
    body list is non-empty, no click is pending, or no role is selected.  On
    an empty body list with a click pending and a role selected neither binds
    or counts anything; the method clears the pending flag and the block does
    nothing. *)
Theorem block_agrees_with_method (m : RoleBindingManager) (bodies : sl.Bodies) :
  (current_role m ≠ Some "" →
   sl.body_list bodies ≠ [] ∨ click_pending m = false ∨ current_role m = None →
   body_tracking.click_assign_block bodies m
   = try_assign_from_click (Some bodies) m) ∧
  (sl.body_list bodies = [] → click_pending m = true → current_role m ≠ None →
   body_tracking.click_assign_block bodies m = (Ok NotAttempted, m) ∧
   try_assign_from_click (Some bodies) m
   = (Ok NoBodiesAvailable, set_click_pending false m)).
Proof.
  split.
  - intros Hrole Hcase.
    destruct (click_pending m) eqn:Hp; cycle 1.
    { rewrite try_assign_not_attempted by (by left).
      unfold body_tracking.click_assign_block. run_method. by rewrite Hp. }
    destruct (current_role m) as [r|] eqn:Hr; cycle 1.
    { rewrite try_assign_not_attempted by (by right).
      unfold body_tracking.click_assign_block. run_method. by rewrite Hp, Hr. }
    destruct Hcase as [Hne|[?|?]]; [|done..].
    assert (Hg := try_assign_guard_passed m r Hp Hr).
    unfold body_tracking.click_assign_block, try_assign_from_click.
    run_method. rewrite Hg, Hp, Hr.
    destruct (sl.body_list bodies) as [|b0 rest] eqn:Hbs; [done|].
    cbn [length Nat.eqb Nat.ltb Nat.leb]. rewrite <- Hbs.
    destruct (click_pos m) as [cx cy].
    destruct (nearest_loop _ _ _ _ _) as [[[b|] d]|e]; cbn [fst]; try done.
    unfold _generate_role_name. run_method. rewrite Hr. cbn [str_eq].
    destruct (String.eqb r "Surgeon"); [done|].
    destruct (String.eqb r "Assistant"); [done|].
    destruct (String.eqb r "Nurse"); [done|].
    rewrite str_or_nonempty by congruence. done.
  - intros Hnil Hp Hr.
    destruct (current_role m) as [r|] eqn:Hr'; [|done]. split.
    + unfold body_tracking.click_assign_block. run_method.
      by rewrite Hp, Hr', Hnil.
    + assert (Hg := try_assign_guard_passed m r Hp Hr').
      unfold try_assign_from_click. run_method. by rewrite Hg, Hnil.
Qed.

Lemma block_agrees_with_method_witness :
  body_tracking.click_assign_block
    (sl.mkBodies [sl.mkBody 1 (Some [(100%float, 100%float)]);
                  sl.mkBody 2 (Some [(500%float, 500%float)])])
    (register_click 510 510
       (set_current_role (Some "Assistant") (new_manager (1%float, 1%float)))).2
  = try_assign_from_click
      (Some (sl.mkBodies [sl.mkBody 1 (Some [(100%float, 100%float)]);
                          sl.mkBody 2 (Some [(500%float, 500%float)])]))
      (register_click 510 510
         (set_current_role (Some "Assistant") (new_manager (1%float, 1%float)))).2.
Proof.
  refine (proj1 (block_agrees_with_method _ _) _ _).
  - discriminate.
  - left. discriminate.
Defined.

(** With the empty string as current role (a state no key produces) the two
    fallbacks differ: the method's [or] binds "Unknown", the block binds the
    empty string. *)
Example fallback_label_differs :
  let m := (register_click 5 5
              (set_current_role (Some "") (new_manager (1%float, 1%float)))).2 in
  let frame := sl.mkBodies [sl.mkBody 1 (Some [(5%float, 5%float)])] in
  (try_assign_from_click (Some frame) m).1 = Ok (Assigned 1 "Unknown") ∧
  (body_tracking.click_assign_block frame m).1 = Ok (Assigned 1 "").
Proof. split; vm_compute; reflexivity. Qed.

(** ** What a call keeps *)

Lemma generate_role_name_frame m assigned_role m1 :
  _generate_role_name m = (Ok assigned_role, m1) →
  image_scale m1 = image_scale m ∧ role_map m1 = role_map m ∧
  current_role m1 = current_role m ∧ click_pending m1 = click_pending m ∧
  click_pos m1 = click_pos m ∧
  ∀ c, counter c m ≤ counter c m1.
Proof.
  intros H.
  destruct (selection_category_dec (current_role m)) as [[c Hc]|Hn].
  - rewrite (generate_role_name_category c m Hc) in H. simplify_eq.
    split_and!; try by destruct c.
    intros c'. rewrite counter_increment. case_bool_decide; subst; lia.
  - rewrite (generate_role_name_fallback m Hn) in H. simplify_eq.
    by split_and!.
Qed.

Lemma try_assign_frame bodies m :
  current_role (try_assign_from_click bodies m).2 = current_role m ∧
  image_scale (try_assign_from_click bodies m).2 = image_scale m ∧
  click_pos (try_assign_from_click bodies m).2 = click_pos m ∧
  ∀ c, counter c m ≤ counter c (try_assign_from_click bodies m).2.
Proof.
  destruct (try_assign_from_click_path bodies m)
    as [?|? ? ? ?|? ? ? ? ? ? ? ?|? ? ? ? ? ? ? ?
        |r bs b d l m1 _ _ _ _ _ Hgen]; cbn [snd];
    try (split_and!; [done..|intros []; cbn; lia]).
  apply generate_role_name_frame in Hgen as (? & ? & ? & ? & ? & Hle).
  split_and!; [done..|]. intros c. specialize (Hle c). by destruct c.
Qed.

Lemma after_call_counter c cl m : counter c m ≤ counter c (after_call cl m).
Proof.
  destruct cl as [key|x y|bodies]; cbn [after_call].
  - rewrite set_current_role_from_key_effect.
    destruct (key_effect key); destruct c; cbn; lia.
  - destruct c; apply Z.le_refl.
  - apply try_assign_frame.
Qed.

Lemma run_counter c cs : ∀ m, counter c m ≤ counter c (run cs m).
Proof.
  induction cs as [|cl cs IH]; intros m; cbn [run]; [lia|].
  pose proof (after_call_counter c cl m). specialize (IH (after_call cl m)). lia.
Qed.

Lemma key_effect_selection_ok key r :
  key_effect key = Some r → selection_ok r.
Proof.
  unfold key_effect. repeat case_match; intros; simplify_eq.
  - right. by exists Surgeon.
  - right. by exists Assistant.
  - right. by exists Nurse.
  - by left.
Qed.

Lemma after_call_selection_ok cl m :
  selection_ok (current_role m) → selection_ok (current_role (after_call cl m)).
Proof.
  intros Hok. destruct cl as [key|x y|bodies]; cbn [after_call].
  - rewrite set_current_role_from_key_effect.
    destruct (key_effect key) as [r|] eqn:Hk; [|done].
    by apply key_effect_selection_ok in Hk.
  - done.
  - by rewrite (proj1 (try_assign_frame bodies m)).
Qed.

Lemma run_selection_ok cs : ∀ m,
  selection_ok (current_role m) → selection_ok (current_role (run cs m)).
Proof.
  induction cs as [|cl cs IH]; intros m Hok; cbn [run]; [done|].
  by apply IH, after_call_selection_ok.
Qed.

(** An assignment made while the selection is none or a category counts one
    more label of that category and binds the label of that number. *)
Lemma try_assign_assigned_category bodies m bid assigned_role m' :
  selection_ok (current_role m) →
  try_assign_from_click bodies m = (Ok (Assigned bid assigned_role), m') →
  ∃ c, current_role m = Some (category_name c) ∧
       assigned_role = role_label c (counter c m + 1) ∧
       m' = set_click_pending false
              (set_role_map (<[bid := assigned_role]> (role_map m))
                 (increment c m)).
Proof.
  intros Hok Hcall.
  destruct (try_assign_from_click_path bodies m)
    as [?|? ? ? ?|? ? ? ? ? ? ? ?|? ? ? ? ? ? ? ?
        |r bs b d l m1 _ Hr _ _ _ Hgen]; try discriminate Hcall.
  destruct Hok as [Hnone|[c Hc]]; [congruence|].
  rewrite (generate_role_name_category c m Hc) in Hgen.
  exists c. simplify_eq. split_and!; try done. by destruct c.
Qed.

Lemma labels_fresh cs : ∀ m,
  selection_ok (current_role m) →
  NoDup (labels cs m) ∧
  ∀ l, l ∈ labels cs m → ∃ c n, l = role_label c n ∧ counter c m < n.
Proof.
  induction cs as [|cl cs IH]; intros m Hok; cbn [labels].
  { split; [constructor|]. intros l Hin. by apply not_elem_of_nil in Hin. }
  destruct (IH (after_call cl m)) as [Hnd Hlater].
  { by apply after_call_selection_ok. }
  assert (Hrest : ∀ l, l ∈ labels cs (after_call cl m) →
            ∃ c n, l = role_label c n ∧ counter c m < n).
  { intros l Hin. destruct (Hlater l Hin) as (c & n & -> & Hlt).
    exists c, n. split; [done|]. pose proof (after_call_counter c cl m). lia. }
  destruct cl as [key|x y|bodies]; cbn [label_of_call app]; try done.
  destruct (try_assign_from_click bodies m) as [[[ | |bid l| ]|e] m'] eqn:Hcall;
    cbn [fst app]; try done.
  destruct (try_assign_assigned_category _ _ _ _ _ Hok Hcall)
    as (c & Hc & Hl & Hm').
  split.
  - apply NoDup_cons. split; [|done]. intros Hin.
    destruct (Hlater l Hin) as (c' & n' & Hl' & Hlt).
    rewrite Hl in Hl'. apply role_label_inj in Hl' as [<- <-].
    cbn [after_call] in Hlt. rewrite Hcall in Hlt. cbn [snd] in Hlt.
    rewrite Hm' in Hlt. destruct c; cbn in Hlt; lia.
  - intros l0 [->|Hin]%elem_of_cons; [|by apply Hrest].
    exists c, (counter c m + 1). split; [done|lia].
Qed.

(** ** Counters and labels *)

(** C2: generating a label for a category adds exactly 1 to that category's
    counter, leaves the other two alone, and returns
    ["{category}_{counter}"] with the counter's new value.  Over any sequence
    of calls on the manager every counter is non-decreasing, a label
    generated later in a category differs from one generated earlier, and,
    from a state whose selection is none or a category, the labels generated
    during the calls are pairwise distinct. *)
Theorem labels_numbered_and_never_repeated :
  (∀ c m,
     current_role m = Some (category_name c) →
     _generate_role_name m
     = (Ok (role_label c (counter c (increment c m))), increment c m) ∧
     counter c (increment c m) = counter c m + 1 ∧
     (∀ c', c' ≠ c → counter c' (increment c m) = counter c' m)) ∧
  (∀ c cl m, counter c m ≤ counter c (after_call cl m)) ∧
  (∀ c cs m, counter c m ≤ counter c (run cs m)) ∧
  (∀ c c' cs m,
     current_role m = Some (category_name c) →
     current_role (run cs (_generate_role_name m).2) = Some (category_name c') →
     (_generate_role_name (run cs (_generate_role_name m).2)).1
     ≠ (_generate_role_name m).1) ∧
  (∀ cs m, selection_ok (current_role m) → NoDup (labels cs m)).
Proof.
  split_and!.
  - intros c m Hc. split_and!.
    + rewrite (generate_role_name_category c m Hc).
      rewrite counter_increment, bool_decide_eq_true_2 by done. done.
    + rewrite counter_increment, bool_decide_eq_true_2 by done. done.
    + intros c' Hne. rewrite counter_increment, bool_decide_eq_false_2 by done.
      done.
  - intros c cl m. apply after_call_counter.
  - intros c cs m. apply run_counter.
  - intros c c' cs m Hc Hc'.
    rewrite (generate_role_name_category c m Hc) in *. cbn [fst snd] in *.
    rewrite (generate_role_name_category c' _ Hc'). cbn [fst].
    intros Heq. simplify_eq. apply role_label_inj in Heq as [-> Hn].
    pose proof (run_counter c cs (increment c m)) as Hle.
    rewrite counter_increment, bool_decide_eq_true_2 in Hle by done. lia.
  - intros cs m Hok. by apply labels_fresh.
Qed.

(** Scenarios 1 to 3 in one session: the labels generated are Surgeon_1,
    Surgeon_2 and Assistant_1, in this order. *)
Lemma labels_numbered_and_never_repeated_witness :
  let frame := Some (sl.mkBodies [sl.mkBody 1 (Some [(100%float, 100%float)]);
                                  sl.mkBody 2 (Some [(500%float, 500%float)])]) in
  let session := [SetCurrentRoleFromKey 115; RegisterClick 110 110;
                  TryAssignFromClick frame; RegisterClick 510 510;
                  TryAssignFromClick frame; SetCurrentRoleFromKey 97;
                  RegisterClick 110 110; TryAssignFromClick frame] in
  labels session (new_manager (1%float, 1%float))
  = ["Surgeon_1"; "Surgeon_2"; "Assistant_1"] ∧
  NoDup (labels session (new_manager (1%float, 1%float))) ∧
  _generate_role_name (set_current_role (Some "Nurse") (new_manager (1%float, 1%float)))
  = (Ok "Nurse_1",
     increment Nurse (set_current_role (Some "Nurse") (new_manager (1%float, 1%float)))).
Proof.
  intros frame session.
  pose proof labels_numbered_and_never_repeated as (Hgen & _ & _ & _ & Hnodup).
  split_and!.
  - vm_compute. reflexivity.
  - apply Hnodup. left. reflexivity.
  - apply (Hgen Nurse). reflexivity.
Defined.

(** ** The fallback of [_generate_role_name] *)

(** C10: after any sequence of [set_current_role_from_key], [register_click]
    and [try_assign_from_click] calls on a freshly constructed manager,
    [current_role] is [None] or one of "Surgeon", "Assistant", "Nurse"; so when
    it is not [None], as in every call of [_generate_role_name] made by
    [try_assign_from_click], one of the three tests of [_generate_role_name]
    succeeds and its fallback is not reached; and every assignment adds 1 to
    the counter of the selected category and leaves the other two alone. *)
Theorem fallback_unreachable (scale : float * float) (cs : list call) :
  selection_ok (current_role (run cs (new_manager scale))) ∧
  (current_role (run cs (new_manager scale)) ≠ None →
   str_eq (current_role (run cs (new_manager scale))) "Surgeon"
   || str_eq (current_role (run cs (new_manager scale))) "Assistant"
   || str_eq (current_role (run cs (new_manager scale))) "Nurse" = true) ∧
  (∀ bodies bid assigned_role m',
     try_assign_from_click bodies (run cs (new_manager scale))
     = (Ok (Assigned bid assigned_role), m') →
     ∃ c, current_role (run cs (new_manager scale)) = Some (category_name c) ∧
          assigned_role = role_label c (counter c m') ∧
          counter c m' = counter c (run cs (new_manager scale)) + 1 ∧
          ∀ c', c' ≠ c → counter c' m' = counter c' (run cs (new_manager scale))).
Proof.
  assert (Hok : selection_ok (current_role (run cs (new_manager scale)))).
  { apply run_selection_ok. by left. }
  split_and!; [done| |].
  - intros Hsome. destruct Hok as [?|[c Hc]]; [done|].
    rewrite Hc. by destruct c.
  - intros bodies bid l m' Hcall.
    destruct (try_assign_assigned_category _ _ _ _ _ Hok Hcall)
      as (c & Hc & Hl & ->).
    exists c. split_and!.
    + done.
    + rewrite Hl. by destruct c.
    + by destruct c.
    + intros c' Hne. destruct c, c'; done.
Qed.

(** The session s, ESC, n, click, then a call on a frame of one body: the
    call binds "Nurse_1" and counts one more nurse. *)
Lemma fallback_unreachable_witness :
  ∃ c, current_role
         (run [SetCurrentRoleFromKey 115; SetCurrentRoleFromKey 27;
               SetCurrentRoleFromKey 110; RegisterClick 110 110]
            (new_manager (1%float, 1%float))) = Some (category_name c) ∧
       "Nurse_1" = role_label c 1.
Proof.
  destruct (fallback_unreachable (1%float, 1%float)
              [SetCurrentRoleFromKey 115; SetCurrentRoleFromKey 27;
               SetCurrentRoleFromKey 110; RegisterClick 110 110])
    as (_ & _ & Hassign).
  destruct (Hassign
              (Some (sl.mkBodies [sl.mkBody 1 (Some [(100%float, 100%float)])]))
              1 "Nurse_1"
              (try_assign_from_click
                 (Some (sl.mkBodies [sl.mkBody 1 (Some [(100%float, 100%float)])]))
                 (run [SetCurrentRoleFromKey 115; SetCurrentRoleFromKey 27;
                       SetCurrentRoleFromKey 110; RegisterClick 110 110]
                    (new_manager (1%float, 1%float)))).2)
    as (c & Hc & Hl & _).
  - vm_compute. reflexivity.
  - exists c. split; [exact Hc|]. rewrite Hl. vm_compute. by destruct c.
Defined.

(** * Further properties of the code *)

(** ** When [try_assign_from_click] raises *)

Lemma nearest_loop_raises scale cx cy bodies : ∀ st e,
  nearest_loop scale cx cy bodies st = Raise e →
  ∃ b, b ∈ bodies ∧ reference_point scale b = Unconvertible e.
Proof.
  induction bodies as [|b bodies IH]; intros st e H; [discriminate H|].
  cbn [nearest_loop] in H. rewrite nearest_iter_reference in H.
  destruct (reference_point scale b) as [|p|e0] eqn:Hb; cbn in H.
  - destruct (IH _ _ H) as (b' & ? & ?). exists b'. split; [by right|done].
  - destruct (IH _ _ H) as (b' & ? & ?). exists b'. split; [by right|done].
  - simplify_eq. exists b. split; [by left|done].
Qed.

Lemma nearest_loop_unconvertible scale cx cy bodies b e :
  b ∈ bodies → reference_point scale b = Unconvertible e →
  ∀ st, ∃ e', nearest_loop scale cx cy bodies st = Raise e'.
Proof.
  intros Hin Hb st.
  destruct (nearest_loop scale cx cy bodies st) as [st'|e'] eqn:E; [|eauto].
  apply nearest_loop_returns in E. by destruct (E b e Hin).
Qed.

(** A call raises exactly when a click is pending, a role is selected and
    some body of the frame has a first keypoint that is no NaN but whose
    scaled value [int] rejects (an infinity, or a NaN product).  The exception
    is the one [int] raised on such a body, and it leaves every field as it
    was: the click is still pending. *)
Theorem try_assign_raises_iff (m : RoleBindingManager) (bodies : option sl.Bodies) :
  ((∃ e, (try_assign_from_click bodies m).1 = Raise e) ↔
   click_pending m = true ∧ current_role m ≠ None ∧
   ∃ bs b e, bodies = Some bs ∧ b ∈ sl.body_list bs ∧
             reference_point (image_scale m) b = Unconvertible e) ∧
  (∀ e m', try_assign_from_click bodies m = (Raise e, m') →
     m' = m ∧
     ∃ bs b, bodies = Some bs ∧ b ∈ sl.body_list bs ∧
             reference_point (image_scale m) b = Unconvertible e).
Proof.
  assert (Hraise : ∀ e m', try_assign_from_click bodies m = (Raise e, m') →
            m' = m ∧ click_pending m = true ∧ current_role m ≠ None ∧
            ∃ bs b, bodies = Some bs ∧ b ∈ sl.body_list bs ∧
                    reference_point (image_scale m) b = Unconvertible e).
  { intros e m' Hcall.
    destruct (try_assign_from_click_path bodies m)
      as [?|? ? ? ?|r bs e' Hp Hr -> _ Hloop|? ? ? ? ? ? ? ?
          |? ? ? ? ? ? ? ? ? ? ? ?]; try discriminate Hcall.
    simplify_eq. apply nearest_loop_raises in Hloop as (b & Hin & Hb).
    split_and!; [done..|congruence|eauto]. }
  split.
  - split.
    + intros [e He].
      destruct (try_assign_from_click bodies m) as [r m'] eqn:Hcall.
      cbn in He. subst r.
      destruct (Hraise _ _ eq_refl) as (_ & ? & ? & bs & b & ? & ? & ?).
      split_and!; [done..|]. by exists bs, b, e.
    + intros (Hp & Hr & bs & b & e & -> & Hin & Hb).
      destruct (current_role m) as [r|] eqn:Hr'; [|done].
      assert (Hne : sl.body_list bs ≠ []).
      { intros Hnil. rewrite Hnil in Hin. by apply not_elem_of_nil in Hin. }
      pose proof (try_assign_from_click_scan m bs r Hp Hr' Hne) as Hscan.
      destruct (nearest_loop_unconvertible _ (click_pos m).1 (click_pos m).2
                  _ _ _ Hin Hb (None, None)) as [e' He'].
      rewrite He' in Hscan. exists e'. by rewrite Hscan.
  - intros e m' Hcall. destruct (Hraise _ _ Hcall) as (? & _ & _ & ?). done.
Qed.

(** A nearer valid body does not help: the frame of scenario 1 with a third
    body at an infinite x makes the call raise [OverflowError]. *)
Lemma try_assign_raises_iff_witness :
  ∃ e, (try_assign_from_click
          (Some (sl.mkBodies [sl.mkBody 1 (Some [(100%float, 100%float)]);
                              sl.mkBody 3 (Some [(infinity, 100%float)])]))
          (register_click 110 110
             (set_current_role (Some "Surgeon")
                (new_manager (1%float, 1%float)))).2).1 = Raise e.
Proof.
  apply (proj1 (try_assign_raises_iff _ _)). split_and!.
  - reflexivity.
  - discriminate.
  - eexists _, (sl.mkBody 3 (Some [(infinity, 100%float)])), OverflowError.
    split_and!; [reflexivity| |vm_compute; reflexivity].
    right. left.
Defined.

(** ** One click, at most one assignment *)

Lemma try_assign_pending bodies m :
  click_pending (try_assign_from_click bodies m).2 = true →
  click_pending m = true.
Proof.
  destruct (try_assign_from_click_path bodies m)
    as [?|? ? ? ?|? ? ? ? ? ? ? ?|? ? ? ? ? ? ? ?|? ? ? ? ? ? ? ? ? ? ? ?];
    cbn; try done.
Qed.

Lemma try_assign_assigned_pending bodies m bid l m' :
  try_assign_from_click bodies m = (Ok (Assigned bid l), m') →
  click_pending m = true ∧ click_pending m' = false.
Proof.
  intros Hcall.
  destruct (try_assign_from_click_path bodies m)
    as [?|? ? ? ?|? ? ? ? ? ? ? ?|? ? ? ? ? ? ? ?|? ? ? ? ? ? ? ? ? ? ? ?];
    try discriminate Hcall.
  by simplify_eq.
Qed.

Lemma labels_bounded_by_clicks cs : ∀ m,
  (length (labels cs m) ≤ (if click_pending m then 1 else 0) + clicks cs)%nat.
Proof.
  induction cs as [|cl cs IH]; intros m; cbn [labels clicks].
  { cbn. lia. }
  specialize (IH (after_call cl m)). rewrite length_app.
  destruct cl as [key|x y|bodies]; cbn [label_of_call length after_call] in *.
  - rewrite set_current_role_from_key_effect in *.
    destruct (key_effect key); cbn in IH; destruct (click_pending m); cbn; lia.
  - change (click_pending (register_click x y m).2) with true in IH.
    destruct (click_pending m); cbn [length] in *; lia.
  - destruct (try_assign_from_click bodies m) as [[[ | |bid l| ]|e] m'] eqn:Hcall;
      cbn [fst snd length] in *.
    1,2,4,5: pose proof (try_assign_pending bodies m) as Hp;
             rewrite Hcall in Hp; cbn [snd] in Hp;
             destruct (click_pending m'); [rewrite Hp by done|]; try lia;
             destruct (click_pending m); lia.
    apply try_assign_assigned_pending in Hcall as [-> Hm'].
    rewrite Hm' in IH. lia.
Qed.

(** "One click = one assignment": over any sequence of calls, from any state,
    the number of labels generated (so of bindings made) is at most the
    number of [register_click] calls, plus one if a click was pending at the
    start; and right after a call that binds a body, a further call binds
    nothing and changes nothing, whatever the frame. *)
Theorem one_click_one_assignment :
  (∀ cs m,
     (length (labels cs m) ≤ (if click_pending m then 1 else 0) + clicks cs)%nat) ∧
  (∀ bodies m bid l m' frame,
     try_assign_from_click bodies m = (Ok (Assigned bid l), m') →
     try_assign_from_click frame m' = (Ok NotAttempted, m')).
Proof.
  split.
  - intros cs m. apply labels_bounded_by_clicks.
  - intros bodies m bid l m' frame Hcall.
    apply try_assign_assigned_pending in Hcall as [_ Hm'].
    apply try_assign_not_attempted. by left.
Qed.

Lemma one_click_one_assignment_witness :
  try_assign_from_click None
    (try_assign_from_click
       (Some (sl.mkBodies [sl.mkBody 1 (Some [(100%float, 100%float)])]))
       (register_click 110 110
          (set_current_role (Some "Surgeon")
             (new_manager (1%float, 1%float)))).2).2
  = (Ok NotAttempted,
     (try_assign_from_click
        (Some (sl.mkBodies [sl.mkBody 1 (Some [(100%float, 100%float)])]))
        (register_click 110 110
           (set_current_role (Some "Surgeon")
              (new_manager (1%float, 1%float)))).2).2).
Proof.
  refine (proj2 one_click_one_assignment
            (Some (sl.mkBodies [sl.mkBody 1 (Some [(100%float, 100%float)])]))
            (register_click 110 110
               (set_current_role (Some "Surgeon")
                  (new_manager (1%float, 1%float)))).2
            1 "Surgeon_1" _ None _).
  vm_compute. reflexivity.
Defined.

(** ** What a call does to the role map *)

Lemma try_assign_role_map bodies m :
  match (try_assign_from_click bodies m).1 with
  | Ok (Assigned bid l) =>
      role_map (try_assign_from_click bodies m).2 = <[bid := l]> (role_map m)
  | _ =>
      role_map (try_assign_from_click bodies m).2 = role_map m ∧
      ∀ c, counter c (try_assign_from_click bodies m).2 = counter c m
  end.
Proof.
  destruct (try_assign_from_click_path bodies m)
    as [?|? ? ? ?|? ? ? ? ? ? ? ?|? ? ? ? ? ? ? ?
        |r bs b d l m1 _ _ _ _ _ Hgen]; cbn [fst snd];
    try (split; [done|by intros []]).
  apply generate_role_name_frame in Hgen as (_ & Hmap & _). cbn. by rewrite Hmap.
Qed.

Lemma after_call_dom cl m bid :
  is_Some (role_map m !! bid) → is_Some (role_map (after_call cl m) !! bid).
Proof.
  intros Hsome. destruct cl as [key|x y|bodies]; cbn [after_call].
  - rewrite set_current_role_from_key_effect. by destruct (key_effect key).
  - done.
  - pose proof (try_assign_role_map bodies m) as H.
    destruct (try_assign_from_click bodies m).1 as [[ | |bid' l| ]|e].
    1,2,4,5: by destruct H as [-> ?].
    rewrite H. destruct (decide (bid' = bid)) as [->|Hne].
    + rewrite lookup_insert_eq. eauto.
    + by rewrite lookup_insert_ne.
Qed.

(** A call changes the role map at one key at most: a call that binds body
    [bid] to [l] leaves the map that was there with [bid] set to [l], over
    whatever [bid] was bound to, and every other outcome, like every key
    press and every click, leaves the map as it was.  So no call changes the
    label of another body, and no binding is ever removed. *)
Theorem bindings_change_one_at_a_time :
  (∀ bodies m,
     match (try_assign_from_click bodies m).1 with
     | Ok (Assigned bid l) =>
         role_map (try_assign_from_click bodies m).2 = <[bid := l]> (role_map m)
     | _ => role_map (try_assign_from_click bodies m).2 = role_map m
     end) ∧
  (∀ key m, role_map (set_current_role_from_key key m).2 = role_map m) ∧
  (∀ x y m, role_map (register_click x y m).2 = role_map m) ∧
  (∀ cs m bid,
     is_Some (role_map m !! bid) → is_Some (role_map (run cs m) !! bid)).
Proof.
  split_and!.
  - intros bodies m. pose proof (try_assign_role_map bodies m) as H.
    destruct (try_assign_from_click bodies m).1 as [[ | |bid' l| ]|e];
      by destruct H.
  - intros key m. rewrite set_current_role_from_key_effect.
    by destruct (key_effect key).
  - done.
  - intros cs. induction cs as [|cl cs IH]; intros m bid Hsome; [done|].
    cbn [run]. by apply IH, after_call_dom.
Qed.

(** Body 1 bound as a surgeon stays bound through a rebinding of body 2, a
    cancelled selection and a click on an empty frame. *)
Lemma bindings_change_one_at_a_time_witness :
  is_Some
    (role_map
       (run [RegisterClick 510 510;
             TryAssignFromClick
               (Some (sl.mkBodies [sl.mkBody 2 (Some [(500%float, 500%float)])]));
             SetCurrentRoleFromKey 27; RegisterClick 1 1;
             TryAssignFromClick (Some (sl.mkBodies []))]
          (set_role_map {[ 1 := "Surgeon_1" ]}
             (set_current_role (Some "Nurse")
                (new_manager (1%float, 1%float))))) !! 1).
Proof.
  apply (proj2 (proj2 (proj2 bindings_change_one_at_a_time))).
  vm_compute. eauto.
Defined.

(** ** Numbering without gaps *)

Lemma label_of_call_cases cl m :
  selection_ok (current_role m) →
  (label_of_call cl m = [] ∧ ∀ c, counter c (after_call cl m) = counter c m) ∨
  (∃ c0, label_of_call cl m = [role_label c0 (counter c0 m + 1)] ∧
         ∀ c, counter c (after_call cl m)
              = if bool_decide (c = c0) then counter c m + 1 else counter c m).
Proof.
  intros Hok. destruct cl as [key|x y|bodies]; cbn [label_of_call after_call].
  - left. split; [done|]. intros c. rewrite set_current_role_from_key_effect.
    destruct (key_effect key); by destruct c.
  - left. split; [done|]. by intros [].
  - pose proof (try_assign_role_map bodies m) as H.
    destruct (try_assign_from_click bodies m) as [r m'] eqn:Hcall.
    cbn [fst snd] in *.
    destruct r as [[ | |bid l| ]|e]; try (left; split; [done|by destruct H]).
    destruct (try_assign_assigned_category _ _ _ _ _ Hok Hcall)
      as (c0 & Hc & -> & ->).
    right. exists c0. split; [done|]. intros c.
    trans (counter c (increment c0 m)); [by destruct c|].
    rewrite counter_increment. case_bool_decide; by subst.
Qed.

Lemma labels_numbering cs : ∀ m,
  selection_ok (current_role m) →
  ∀ c n, role_label c n ∈ labels cs m ↔ counter c m < n ≤ counter c (run cs m).
Proof.
  induction cs as [|cl cs IH]; intros m Hok c n; cbn [labels run].
  { split; [intros H; by apply not_elem_of_nil in H|lia]. }
  pose proof (after_call_selection_ok cl m Hok) as Hok'.
  pose proof (run_counter c cs (after_call cl m)) as Hmono.
  specialize (IH (after_call cl m) Hok' c n).
  destruct (label_of_call_cases cl m Hok) as [[-> Hcnt]|(c0 & -> & Hcnt)].
  - cbn [app]. rewrite IH, Hcnt. done.
  - cbn [app]. rewrite elem_of_cons, IH. specialize (Hcnt c).
    case_bool_decide as Hc.
    + subst c0. split.
      * intros [Heq|?]; [|lia]. apply role_label_inj in Heq as [_ ->]. lia.
      * intros ?. destruct (decide (n = counter c m + 1)) as [->|?];
          [by left|right; lia].
    + split.
      * intros [Heq|?]; [|lia]. apply role_label_inj in Heq as [-> _]. done.
      * intros ?. right. lia.
Qed.

(** Numbers are handed out without gaps: from a state whose selection is
    none or a category, the labels of a category generated during a sequence
    of calls are exactly those numbered from the counter's value at the start,
    plus one, up to its value at the end.  With C2 (no label twice) this makes
    the counter the number of labels of its category generated so far. *)
Theorem labels_numbered_without_gaps
    (cs : list call) (m : RoleBindingManager) (c : RoleCategory) (n : Z) :
  selection_ok (current_role m) →
  (role_label c n ∈ labels cs m ↔ counter c m < n ≤ counter c (run cs m)).
Proof. intros Hok. by apply labels_numbering. Qed.

(** In the session of scenarios 1 to 3 "Surgeon_2" was generated, since the
    surgeon counter went from 0 to 2. *)
Lemma labels_numbered_without_gaps_witness :
  "Surgeon_2" ∈
  labels [SetCurrentRoleFromKey 115; RegisterClick 110 110;
          TryAssignFromClick
            (Some (sl.mkBodies [sl.mkBody 1 (Some [(100%float, 100%float)]);
                                sl.mkBody 2 (Some [(500%float, 500%float)])]));
          RegisterClick 510 510;
          TryAssignFromClick
            (Some (sl.mkBodies [sl.mkBody 1 (Some [(100%float, 100%float)]);
                                sl.mkBody 2 (Some [(500%float, 500%float)])]));
          SetCurrentRoleFromKey 97; RegisterClick 110 110;
          TryAssignFromClick
            (Some (sl.mkBodies [sl.mkBody 1 (Some [(100%float, 100%float)]);
                                sl.mkBody 2 (Some [(500%float, 500%float)])]))]
    (new_manager (1%float, 1%float)).
Proof.
  apply (labels_numbered_without_gaps _ _ Surgeon 2).
  - by left.
  - vm_compute. split; [reflexivity|discriminate].
Defined.

(** ** The role map of a running manager *)

Lemma after_call_bindings_ok cl m :
  selection_ok (current_role m) → bindings_ok m → bindings_ok (after_call cl m).
Proof.
  intros Hok (Hpos & Hlab & Hinj).
  destruct cl as [key|x y|bodies]; cbn [after_call].
  - rewrite set_current_role_from_key_effect. by destruct (key_effect key).
  - done.
  - pose proof (try_assign_role_map bodies m) as Hmap.
    destruct (try_assign_from_click bodies m) as [r m'] eqn:Hcall.
    cbn [fst snd] in *.
    destruct r as [[ | |bid l| ]|e].
    1,2,4,5: destruct Hmap as [Hm Hc]; unfold bindings_ok;
             rewrite Hm; setoid_rewrite Hc; done.
    destruct (try_assign_assigned_category _ _ _ _ _ Hok Hcall)
      as (c0 & Hc0 & Hl & Hm').
    assert (Hcnt : ∀ c, counter c m'
              = if bool_decide (c = c0) then counter c m + 1 else counter c m).
    { intros c. rewrite Hm'.
      trans (counter c (increment c0 m)); [by destruct c|].
      rewrite counter_increment. case_bool_decide; by subst. }
    assert (Hold : ∀ bid', role_map m !! bid' ≠ Some l).
    { intros bid' Hb. destruct (Hlab _ _ Hb) as (c & n & Hl' & Hn).
      rewrite Hl in Hl'. apply role_label_inj in Hl' as [<- <-]. lia. }
    split_and!.
    + intros c. rewrite Hcnt. specialize (Hpos c). case_bool_decide; lia.
    + intros bid' l' Hb. rewrite Hmap in Hb.
      destruct (decide (bid = bid')) as [<-|Hne].
      * rewrite lookup_insert_eq in Hb. simplify_eq.
        exists c0, (counter c0 m + 1). split; [done|].
        rewrite Hcnt, bool_decide_eq_true_2 by done. specialize (Hpos c0). lia.
      * rewrite lookup_insert_ne in Hb by done.
        destruct (Hlab _ _ Hb) as (c & n & -> & Hn). exists c, n.
        split; [done|]. rewrite Hcnt. case_bool_decide; lia.
    + intros bid1 bid2 l' H1 H2. rewrite Hmap in H1, H2.
      destruct (decide (bid = bid1)) as [<-|Hne1];
        destruct (decide (bid = bid2)) as [<-|Hne2]; try done.
      * rewrite lookup_insert_eq in H1. rewrite lookup_insert_ne in H2 by done.
        simplify_eq. by destruct (Hold bid2).
      * rewrite lookup_insert_eq in H2. rewrite lookup_insert_ne in H1 by done.
        simplify_eq. by destruct (Hold bid1).
      * rewrite lookup_insert_ne in H1, H2 by done. by eapply Hinj.
Qed.

Lemma run_bindings_ok cs : ∀ m,
  selection_ok (current_role m) → bindings_ok m → bindings_ok (run cs m).
Proof.
  induction cs as [|cl cs IH]; intros m Hok Hb; [done|]. cbn [run].
  apply IH; [by apply after_call_selection_ok|by apply after_call_bindings_ok].
Qed.

Lemma new_manager_bindings_ok scale : bindings_ok (new_manager scale).
Proof. split_and!; [by intros []|done..]. Qed.

(** In a manager built with the defaults and then driven by any sequence of
    calls, no two body ids carry the same label, and every label in the role
    map is ["{category}_{n}"] for one of the three categories and an [n]
    between 1 and that category's counter.  The same holds from any state of
    which it holds, if that state's selection is none or a category. *)
Theorem bound_labels_unique_and_numbered :
  (∀ scale cs bid1 bid2 l,
     role_map (run cs (new_manager scale)) !! bid1 = Some l →
     role_map (run cs (new_manager scale)) !! bid2 = Some l →
     bid1 = bid2) ∧
  (∀ scale cs bid l,
     role_map (run cs (new_manager scale)) !! bid = Some l →
     ∃ c n, l = role_label c n ∧
            0 < n ≤ counter c (run cs (new_manager scale))) ∧
  (∀ cs m,
     selection_ok (current_role m) → bindings_ok m → bindings_ok (run cs m)).
Proof.
  assert (H : ∀ scale cs, bindings_ok (run cs (new_manager scale))).
  { intros scale cs. apply run_bindings_ok; [by left|].
    apply new_manager_bindings_ok. }
  split_and!.
  - intros scale cs. apply (H scale cs).
  - intros scale cs. apply (H scale cs).
  - intros cs m. apply run_bindings_ok.
Qed.

(** After scenarios 1 and 2 the label of body 2 is a surgeon's label
    numbered within the surgeon counter. *)
Lemma bound_labels_unique_and_numbered_witness :
  ∃ c n,
    "Surgeon_2" = role_label c n ∧
    0 < n ≤ counter c
      (run [SetCurrentRoleFromKey 115; RegisterClick 110 110;
            TryAssignFromClick
              (Some (sl.mkBodies [sl.mkBody 1 (Some [(100%float, 100%float)]);
                                  sl.mkBody 2 (Some [(500%float, 500%float)])]));
            RegisterClick 510 510;
            TryAssignFromClick
              (Some (sl.mkBodies [sl.mkBody 1 (Some [(100%float, 100%float)]);
                                  sl.mkBody 2 (Some [(500%float, 500%float)])]))]
         (new_manager (1%float, 1%float))).
Proof.
  refine (proj1 (proj2 bound_labels_unique_and_numbered) _ _ 2 "Surgeon_2" _).
  vm_compute. reflexivity.
Defined.

(** ** Labels and colours on screen *)

Lemma contains_prefix sub s : String.prefix sub s = true → contains sub s = true.
Proof. intros H. destruct s; cbn [contains]; by rewrite H. Qed.

Lemma contains_occurs c sub s :
  contains (String c sub) s = true → occurs c s = true.
Proof.
  induction s as [|a s IH]; cbn; [done|].
  destruct (ascii_dec c a) as [->|Hne].
  - rewrite Ascii.eqb_refl. done.
  - intros H. rewrite IH; [by rewrite orb_true_r|]. done.
Qed.

Lemma occurs_app c s1 s2 :
  occurs c (s1 +:+ s2) = occurs c s1 || occurs c s2.
Proof.
  induction s1 as [|a s1 IH]; simpl; [done|].
  by rewrite IH, orb_assoc.
Qed.

Lemma occurs_pretty_N_go c x : ∀ s,
  occurs c (pretty_N_go x s) = true →
  occurs c "0123456789" = true ∨ occurs c s = true.
Proof.
  induction (N.lt_wf_0 x) as [x _ IH]; intros s H.
  assert (x = 0 ∨ 0 < x)%N as [->|Hpos] by lia.
  - right. by rewrite pretty_N_go_0 in H.
  - rewrite pretty_N_go_step in H by done.
    apply IH in H as [?|H]; [by left| |by apply N.div_lt].
    cbn [occurs] in H. apply orb_true_iff in H as [H|?]; [|by right].
    left. apply Ascii.eqb_eq in H as ->.
    unfold pretty_N_char. by repeat case_match.
Qed.

Lemma occurs_digit_or_dash c :
  occurs c "0123456789" = true ∨ Ascii.eqb c "-" = true →
  occurs c "-0123456789" = true.
Proof.
  change (occurs c "-0123456789")
    with (Ascii.eqb c "-" || occurs c "0123456789").
  intros [->| ->]; [apply orb_true_r|done].
Qed.

(** [f"{n}"] is made of digits and, for a negative [n], a leading dash. *)
Lemma occurs_fmt_int c n :
  occurs c (fmt_int n) = true → occurs c "-0123456789" = true.
Proof.
  assert (Hgo : ∀ x, occurs c (pretty_N_go x "") = true →
                     occurs c "-0123456789" = true).
  { intros x [H|H]%occurs_pretty_N_go; [|done].
    apply occurs_digit_or_dash. by left. }
  assert (HN : ∀ x : N, occurs c (pretty x) = true →
                        occurs c "-0123456789" = true).
  { intros x. unfold pretty, pretty_N. case_decide; [|apply Hgo].
    intros Hocc. apply occurs_digit_or_dash. left.
    cbn [occurs] in *. rewrite orb_false_r in Hocc. by rewrite Hocc. }
  unfold fmt_int, pretty, pretty_Z. destruct n as [|p|p].
  - apply (HN 0%N).
  - apply (HN (N.pos p)).
  - rewrite occurs_app. intros [H|H]%orb_true_iff.
    + apply occurs_digit_or_dash. right.
      cbn [occurs] in H. by rewrite orb_false_r in H.
    + by apply (HN (N.pos p)).
Qed.

Lemma not_contains_numbered c sub (pre : string) n :
  occurs c pre = false → occurs c "-0123456789" = false →
  contains (String c sub) (pre +:+ fmt_int n) = false.
Proof.
  intros Hpre Hdig.
  destruct (contains _ _) eqn:E; [|done].
  apply contains_occurs in E. rewrite occurs_app, Hpre in E.
  apply occurs_fmt_int in E. congruence.
Qed.

Lemma get_label_and_color_unbound role_color body_id m :
  role_map m !! body_id = None →
  get_label_and_color role_color body_id m
  = Found ("ID:" +:+ fmt_int body_id, (0, 255, 255)).
Proof.
  intros Hnone. unfold get_label_and_color. rewrite Hnone. cbn [default].
  rewrite !not_contains_numbered by done. done.
Qed.

(** A body without a binding is shown as ["ID:{id}"] in yellow, whatever its
    id and whatever the colour dictionary holds: the text of an id never
    contains a category name, and no dictionary entry is read. *)
Theorem unbound_body_shows_id
    (role_color : gmap string color) (body_id : Z) (m : RoleBindingManager) :
  role_map m !! body_id = None →
  get_label_and_color role_color body_id m
  = Found ("ID:" +:+ fmt_int body_id, (0, 255, 255)).
Proof. apply get_label_and_color_unbound. Qed.

Lemma unbound_body_shows_id_witness :
  get_label_and_color ∅ (-7) (new_manager (1%float, 1%float))
  = Found ("ID:-7", (0, 255, 255)).
Proof.
  apply (unbound_body_shows_id ∅ (-7) (new_manager (1%float, 1%float))).
  reflexivity.
Defined.

Lemma role_label_contains c c' n :
  contains (category_name c') (role_label c n) = bool_decide (c' = c).
Proof.
  unfold role_label.
  destruct c, c'; cbn [category_name];
    first [ by apply contains_prefix
          | by apply (not_contains_numbered _ _ "Surgeon_")
          | by apply (not_contains_numbered _ _ "Assistant_")
          | by apply (not_contains_numbered _ _ "Nurse_") ].
Qed.

Lemma get_label_and_color_numbered role_color body_id m c n :
  role_map m !! body_id = Some (role_label c n) →
  get_label_and_color role_color body_id m
  = match role_color !! category_name c with
    | Some col => Found (role_label c n, col)
    | None => KeyError (category_name c)
    end.
Proof.
  intros Hsome. unfold get_label_and_color, getitem. rewrite Hsome.
  cbn [default id].
  pose proof (role_label_contains c Surgeon n) as Hs.
  pose proof (role_label_contains c Assistant n) as Ha.
  pose proof (role_label_contains c Nurse n) as Hn.
  cbn [category_name] in Hs, Ha, Hn. rewrite Hs, Ha, Hn.
  destruct c;
    repeat first [ rewrite bool_decide_eq_true_2 by done
                 | rewrite bool_decide_eq_false_2 by done ];
    cbn [category_name]; by destruct (role_color !! _).
Qed.

(** A body bound to a label the manager generated is shown with that label
    in its category's colour, for every number: "Assistant_12" is not taken
    for a surgeon's or a nurse's label.  If the colour dictionary lacks the
    category the subscript raises [KeyError].  With the default dictionary,
    in a manager built with the defaults and driven by any sequence of calls,
    the method never raises: every body is shown either as its id in yellow or
    as a generated label in the red, blue or green of its category. *)
Theorem bound_body_shows_category_color :
  (∀ role_color body_id m c n,
     role_map m !! body_id = Some (role_label c n) →
     get_label_and_color role_color body_id m
     = match role_color !! category_name c with
       | Some col => Found (role_label c n, col)
       | None => KeyError (category_name c)
       end) ∧
  (∀ scale cs body_id,
     (role_map (run cs (new_manager scale)) !! body_id = None ∧
      get_label_and_color default_role_color body_id (run cs (new_manager scale))
      = Found ("ID:" +:+ fmt_int body_id, (0, 255, 255))) ∨
     (∃ c n,
        role_map (run cs (new_manager scale)) !! body_id = Some (role_label c n) ∧
        get_label_and_color default_role_color body_id (run cs (new_manager scale))
        = Found (role_label c n,
                 match c with
                 | Surgeon => (0, 0, 255)
                 | Assistant => (255, 0, 0)
                 | Nurse => (0, 255, 0)
                 end))).
Proof.
  split.
  - intros. by apply get_label_and_color_numbered.
  - intros scale cs body_id.
    destruct (role_map (run cs (new_manager scale)) !! body_id) as [l|] eqn:Hl.
    + right.
      assert (Hok : bindings_ok (run cs (new_manager scale))).
      { apply run_bindings_ok; [by left|apply new_manager_bindings_ok]. }
      destruct (proj1 (proj2 Hok) _ _ Hl) as (c & n & -> & _).
      exists c, n. split; [done|].
      rewrite (get_label_and_color_numbered _ _ _ c n Hl). by destruct c.
    + left. split; [done|]. by apply get_label_and_color_unbound.
Qed.

Lemma bound_body_shows_category_color_witness :
  get_label_and_color default_role_color 4
    (set_role_map {[ 4 := "Assistant_12" ]} (new_manager (1%float, 1%float)))
  = Found ("Assistant_12", (255, 0, 0)).
Proof.
  refine (eq_trans
            (proj1 bound_body_shows_category_color default_role_color 4
               (set_role_map {[ 4 := "Assistant_12" ]}
                  (new_manager (1%float, 1%float))) Assistant 12 _) _).
  - vm_compute. reflexivity.
  - vm_compute. reflexivity.
Defined.

(** ** Mouse events *)

Section MouseEvents.

Import viewer_2d.

Lemma mouse_callback_cases event x y v m :
  (event = cv2.EVENT_LBUTTONDOWN ∧ on_button v x y ∧
   _mouse_callback event x y (v, m) = (set_binding_help_requested true v, m)) ∨
  (event = cv2.EVENT_LBUTTONDOWN ∧ ¬ on_button v x y ∧
   _mouse_callback event x y (v, m) = (v, (register_click x y m).2)) ∨
  (event ≠ cv2.EVENT_LBUTTONDOWN ∧ _mouse_callback event x y (v, m) = (v, m)).
Proof.
  unfold _mouse_callback, on_button.
  destruct (Z.eqb_spec event cv2.EVENT_LBUTTONDOWN) as [->|Hev]; [|by right; right].
  destruct (Z.leb_spec (button_x v) x), (Z.leb_spec x (button_x v + button_w v)),
    (Z.leb_spec (button_y v) y), (Z.leb_spec y (button_y v + button_h v));
    cbn [andb]; first [ by left | right; left; split_and!; [done|lia|done] ].
Qed.

Lemma last_binding_click_help v events :
  last_binding_click (set_binding_help_requested true v) events
  = last_binding_click v events.
Proof.
  induction events as [|[[e x] y] events IH]; [reflexivity|].
  cbn [last_binding_click]. rewrite IH. reflexivity.
Qed.

Lemma help_pressed_help v events :
  help_pressed (set_binding_help_requested true v) events = help_pressed v events.
Proof.
  induction events as [|[[e x] y] events IH]; [reflexivity|].
  cbn [help_pressed]. rewrite IH. reflexivity.
Qed.

(** What a sequence of mouse events does, in full.  The manager is left with
    the last left press off the help button as its pending click, or
    untouched when there was none; the help request is set when some event
    was a left press on the button (borders included) and is otherwise as it
    was.  So events other than left presses change nothing, a press on the
    button neither registers, cancels nor moves a binding click, a press off
    the button does not touch the help request, no mouse event clears it, and
    nothing but the click fields of the manager and the help request of the
    viewer changes. *)
Theorem mouse_events_keep_last_binding_click
    (events : list (Z * Z * Z)) (v : BodyViewer2D) (m : RoleBindingManager) :
  deliver events (v, m)
  = (if help_pressed v events then set_binding_help_requested true v else v,
     match last_binding_click v events with
     | Some (x, y) => (register_click x y m).2
     | None => m
     end).
Proof.
  revert v m. induction events as [|[[e x] y] events IH]; intros v m;
    [reflexivity|].
  change (deliver ((e, x, y) :: events) (v, m))
    with (deliver events (_mouse_callback e x y (v, m))).
  cbn [last_binding_click help_pressed].
  destruct (mouse_callback_cases e x y v m)
    as [(-> & Hon & ->)|[(-> & Hoff & ->)|(Hev & ->)]]; rewrite IH.
  - rewrite last_binding_click_help, help_pressed_help.
    rewrite (bool_decide_eq_true_2 _ Hon). cbn [andb orb negb Z.eqb Pos.eqb].
    f_equal.
    + by destruct (help_pressed v events).
    + by destruct (last_binding_click v events) as [[x0 y0]|].
  - rewrite (bool_decide_eq_false_2 _ Hoff). cbn [andb orb negb Z.eqb Pos.eqb].
    f_equal. by destruct (last_binding_click v events) as [[x0 y0]|].
  - rewrite (proj2 (Z.eqb_neq _ _) Hev). cbn [andb orb].
    f_equal. by destruct (last_binding_click v events) as [[x0 y0]|].
Qed.

(** A binding click, a press on the help button, a mouse move and a release,
    then a second binding click: the second is the pending one, and the help
    request is set. *)
Example mouse_session :
  deliver [(1, 400, 300); (1, 30, 80); (0, 31, 81); (4, 31, 81); (1, 500, 350)]
    (new_viewer "view" 1080 (1%float, 1%float), new_manager (1%float, 1%float))
  = (set_binding_help_requested true (new_viewer "view" 1080 (1%float, 1%float)),
     (register_click 500 350 (new_manager (1%float, 1%float))).2).
Proof. reflexivity. Qed.

(** The callback of [body_tracking.py] and the viewer's, with the button
    where [__init__] puts it by default, do the same on every event: from the
    same help flag and the same click fields they leave the same help flag
    and the same manager fields. *)
Theorem mouse_callbacks_agree
    (event x y : Z) (v : BodyViewer2D) (m : RoleBindingManager) :
  button_x v = 20 → button_y v = 70 → button_w v = 170 → button_h v = 40 →
  body_tracking_mouse_callback event x y (binding_help_requested v, m)
  = (binding_help_requested (_mouse_callback event x y (v, m)).1,
     (_mouse_callback event x y (v, m)).2).
Proof.
  intros Hx Hy Hw Hh.
  unfold body_tracking_mouse_callback, _mouse_callback. rewrite Hx, Hy, Hw, Hh.
  destruct (event =? cv2.EVENT_LBUTTONDOWN); [|done].
  by destruct (_ && _).
Qed.

Lemma mouse_callbacks_agree_witness :
  body_tracking_mouse_callback 1 190 110 (false, new_manager (1%float, 1%float))
  = (true, new_manager (1%float, 1%float)).
Proof.
  apply (mouse_callbacks_agree 1 190 110
           (new_viewer "view" 1080 (1%float, 1%float))
           (new_manager (1%float, 1%float))); reflexivity.
Defined.

End MouseEvents.

(** ** The labels [render_frame] draws *)

Section Rendering.

Import viewer_2d.

Lemma get_label_and_color_found role_color body_id m :
  (∀ c, is_Some (role_color !! category_name c)) →
  ∃ role_text col,
    get_label_and_color role_color body_id m = Found (role_text, col).
Proof.
  intros Hkeys. unfold get_label_and_color, getitem.
  destruct (Hkeys Surgeon) as [cs Hs]. destruct (Hkeys Assistant) as [ca Ha].
  destruct (Hkeys Nurse) as [cn Hn]. cbn [category_name] in *.
  rewrite Hs, Ha, Hn. repeat case_match; eauto.
Qed.

Lemma default_role_color_keys c : is_Some (default_role_color !! category_name c).
Proof. destruct c; vm_compute; eauto. Qed.

Lemma draw_all_accepted calls :
  (∀ d, d ∈ calls → accepts d = true) → draw_all calls = (calls, None).
Proof.
  induction calls as [|d calls IH]; intros H; [reflexivity|].
  cbn [draw_all]. rewrite (H d) by (by left).
  rewrite IH; [reflexivity|]. intros d' Hin. apply H. by right.
Qed.

Lemma draw_all_returns calls : ∀ drawn,
  draw_all calls = (drawn, None) →
  drawn = calls ∧ ∀ d, d ∈ calls → accepts d = true.
Proof.
  induction calls as [|d calls IH]; intros drawn H; cbn [draw_all] in H.
  - injection H as <-. split; [reflexivity|].
    intros d Hin. by apply not_elem_of_nil in Hin.
  - destruct (accepts d) eqn:Hd; [|discriminate H].
    destruct (draw_all calls) as [drawn0 err0]. injection H as <- ->.
    destruct (IH _ eq_refl) as [-> Hall]. split; [reflexivity|].
    intros d' [->|Hin]%elem_of_cons; [exact Hd|by apply Hall].
Qed.

Lemma draw_all_drawn calls : ∀ drawn err,
  draw_all calls = (drawn, err) → ∀ d, d ∈ drawn → d ∈ calls.
Proof.
  induction calls as [|d calls IH]; intros drawn err H d0 Hin;
    cbn [draw_all] in H.
  - injection H as <- _. by apply not_elem_of_nil in Hin.
  - destruct (accepts d).
    + destruct (draw_all calls) as [drawn0 err0] eqn:E. injection H as <- _.
      apply elem_of_cons in Hin as [->|Hin]; [by left|].
      right. by eapply IH.
    + injection H as <- _. by apply not_elem_of_nil in Hin.
Qed.

Lemma overlay_no_imshow bodies num_people v m window help_image :
  ImShow window help_image ∉ overlay bodies num_people v m.
Proof.
  unfold overlay. intros Hin. apply elem_of_app in Hin as [Hin|Hin].
  - repeat (apply elem_of_cons in Hin as [Heq|Hin]; [discriminate Heq|]).
    by apply not_elem_of_nil in Hin.
  - destruct (current_role m);
      repeat (apply elem_of_cons in Hin as [Heq|Hin]; [discriminate Heq|]);
      by apply not_elem_of_nil in Hin.
Qed.

Lemma overlay_current_role bodies num_people v m m' :
  current_role m' = current_role m →
  overlay bodies num_people v m' = overlay bodies num_people v m.
Proof. unfold overlay. by intros ->. Qed.

(** One turn of the label loop, by the reference point of the body. *)
Lemma label_loop_cons role_color scale m b bodies :
  label_loop role_color scale m (b :: bodies)
  = match reference_point scale b with
    | Absent => label_loop role_color scale m bodies
    | Unconvertible e => ([], Some (IntError e))
    | Display p =>
        match get_label_and_color role_color (sl.id b) m with
        | KeyError k => ([], Some (ColorKeyError k))
        | Found (role_text, col) =>
            if cv2.fits_point (p.1, p.2 - 10) then
              (PutText role_text (p.1, p.2 - 10) col
                 :: (label_loop role_color scale m bodies).1,
               (label_loop role_color scale m bodies).2)
            else ([], Some Cv2Error)
        end
    end.
Proof.
  cbn [label_loop]. unfold reference_point.
  destruct (sl.keypoint_2d b) as [[|kp kps]|]; [reflexivity| |reflexivity].
  destruct (isnan kp.1 || isnan kp.2); [reflexivity|].
  destruct (Py.int (PrimFloat.mul kp.1 scale.1)) as [x|e]; [|reflexivity].
  destruct (Py.int (PrimFloat.mul kp.2 scale.2)) as [y|e]; [|reflexivity].
  destruct (get_label_and_color role_color (sl.id b) m) as [[t col]|k];
    [|reflexivity].
  cbn [accepts fst snd]. destruct (cv2.fits_point (x, y - 10)); [|reflexivity].
  by destruct (label_loop role_color scale m bodies).
Qed.

Lemma label_loop_convertible role_color scale m bodies :
  (∀ c, is_Some (role_color !! category_name c)) →
  convertible scale bodies →
  labels_fit scale bodies →
  label_loop role_color scale m bodies
  = (omap (shown_label role_color scale m) bodies, None).
Proof.
  intros Hkeys. induction bodies as [|b bodies IH]; intros Hconv Hfit;
    [reflexivity|].
  assert (Hrest : convertible scale bodies).
  { intros b' e Hin. apply Hconv. by right. }
  assert (Hfits : labels_fit scale bodies).
  { intros b' p Hin. apply Hfit. by right. }
  specialize (IH Hrest Hfits). rewrite label_loop_cons, IH.
  cbn [omap list_omap fst snd].
  destruct (reference_point scale b) as [|p|e] eqn:Hb.
  - assert (shown_label role_color scale m b = None) as ->; [|reflexivity].
    unfold shown_label. by rewrite Hb.
  - destruct (get_label_and_color_found role_color (sl.id b) m Hkeys)
      as (t & col & Hfound).
    assert (shown_label role_color scale m b
            = Some (PutText t (p.1, p.2 - 10) col)) as ->.
    { unfold shown_label. by rewrite Hb, Hfound. }
    rewrite Hfound, (Hfit b p); [reflexivity|by left|exact Hb].
  - destruct (Hconv b e); [by left|exact Hb].
Qed.

Lemma label_loop_returns role_color scale m bodies : ∀ drawn,
  label_loop role_color scale m bodies = (drawn, None) →
  convertible scale bodies ∧ labels_fit scale bodies.
Proof.
  induction bodies as [|b bodies IH]; intros drawn Hloop.
  { split; [intros b e Hin|intros b p Hin]; by apply not_elem_of_nil in Hin. }
  rewrite label_loop_cons in Hloop.
  destruct (reference_point scale b) as [|p|e] eqn:Hb; [| |discriminate Hloop].
  - destruct (IH _ Hloop) as [Hconv Hfit]. split.
    + intros b' e [->|Hin]%elem_of_cons; [congruence|by apply Hconv].
    + intros b' p' [->|Hin]%elem_of_cons; [congruence|by apply Hfit].
  - destruct (get_label_and_color role_color (sl.id b) m) as [[t col]|k];
      [|discriminate Hloop].
    destruct (cv2.fits_point (p.1, p.2 - 10)) eqn:Hp; [|discriminate Hloop].
    destruct (label_loop role_color scale m bodies) as [drawn0 err0].
    cbn [fst snd] in Hloop. injection Hloop as _ ->.
    destruct (IH _ eq_refl) as [Hconv Hfit]. split.
    + intros b' e [->|Hin]%elem_of_cons; [congruence|by apply Hconv].
    + intros b' p' [->|Hin]%elem_of_cons; [|by apply Hfit].
      intros Hb'. rewrite Hb in Hb'. by injection Hb' as <-.
Qed.

Lemma label_loop_draws_text role_color scale m bodies : ∀ drawn err,
  label_loop role_color scale m bodies = (drawn, err) →
  ∀ d, d ∈ drawn → ∃ t p col, d = PutText t p col.
Proof.
  induction bodies as [|b bodies IH]; intros drawn err Hloop d Hin.
  { injection Hloop as <- _. by apply not_elem_of_nil in Hin. }
  rewrite label_loop_cons in Hloop.
  destruct (reference_point scale b) as [|p|e].
  - by eapply IH.
  - destruct (get_label_and_color role_color (sl.id b) m) as [[t col]|k].
    + destruct (cv2.fits_point (p.1, p.2 - 10)).
      * destruct (label_loop role_color scale m bodies) as [drawn0 err0] eqn:E.
        cbn [fst snd] in Hloop. injection Hloop as <- _.
        apply elem_of_cons in Hin as [->|Hin]; [by eauto|]. by eapply IH.
      * injection Hloop as <- _. by apply not_elem_of_nil in Hin.
    + injection Hloop as <- _. by apply not_elem_of_nil in Hin.
  - injection Hloop as <- _. by apply not_elem_of_nil in Hin.
Qed.

(** [render_frame] labels exactly the bodies the click resolver can select.
    With the colours the manager has by default, which are those [main.py]
    runs with, it returns exactly when OpenCV takes the calls before the
    loop (the count, the help button, the role being bound),
    no keypoint of the frame makes [int] raise, and every label position (a
    display position moved up ten pixels) is a point OpenCV takes.  It has
    then made the calls before the loop, drawn for each body with a display
    position, in frame order, the body's label ten pixels above that position
    and nothing for the others, shown the help window if it was requested and
    the main window last, and cleared the help request.  Otherwise it raises:
    the main window is not shown and the viewer, a help request included, is
    as it was. *)
Theorem render_frame_labels_selectable_bodies
    (bodies : sl.Bodies) (num_people : Z)
    (v : BodyViewer2D) (m : RoleBindingManager) :
  ((render_frame default_role_color bodies num_people v m).1.2 = None ↔
   (∀ d, d ∈ overlay bodies num_people v m → accepts d = true) ∧
   convertible (image_scale v) (sl.body_list bodies) ∧
   labels_fit (image_scale v) (sl.body_list bodies)) ∧
  ((render_frame default_role_color bodies num_people v m).1.2 = None →
   (render_frame default_role_color bodies num_people v m).1.1
   = (overlay bodies num_people v m
      ++ omap (shown_label default_role_color (image_scale v) m) (sl.body_list bodies)
      ++ (if binding_help_requested v
          then [ImShow (help_window_name v) true] else [])
      ++ [ImShow (window_name v) false])%list ∧
   (render_frame default_role_color bodies num_people v m).2
   = (if binding_help_requested v
      then set_binding_help_requested false v else v) ∧
   binding_help_requested (render_frame default_role_color bodies num_people v m).2
   = false) ∧
  ((render_frame default_role_color bodies num_people v m).1.2 ≠ None →
   (render_frame default_role_color bodies num_people v m).2 = v ∧
   ImShow (window_name v) false
   ∉ (render_frame default_role_color bodies num_people v m).1.1).
Proof.
  pose proof default_role_color_keys as Hkeys. unfold render_frame.
  destruct (draw_all (overlay bodies num_people v m)) as [shown [err|]] eqn:Hov.
  { (* a call before the loop is refused *)
    cbn [fst snd]. split_and!.
    - split; [discriminate|]. intros (Hacc & _ & _).
      rewrite (draw_all_accepted _ Hacc) in Hov. discriminate Hov.
    - discriminate.
    - intros _. split; [reflexivity|]. intros Hin.
      apply (draw_all_drawn _ _ _ Hov) in Hin.
      by apply overlay_no_imshow in Hin. }
  apply draw_all_returns in Hov as [-> Hacc].
  destruct (label_loop default_role_color (image_scale v) m
              (sl.body_list bodies)) as [drawn [err|]] eqn:Hloop.
  { (* the loop raises *)
    cbn [fst snd]. split_and!.
    - split; [discriminate|]. intros (_ & Hconv & Hfit).
      rewrite (label_loop_convertible _ _ _ _ Hkeys Hconv Hfit) in Hloop.
      discriminate Hloop.
    - discriminate.
    - intros _. split; [reflexivity|]. intros Hin.
      apply elem_of_app in Hin as [Hin|Hin].
      + by apply overlay_no_imshow in Hin.
      + destruct (label_loop_draws_text _ _ _ _ _ _ Hloop _ Hin)
          as (t & p & col & Heq). discriminate Heq. }
  destruct (label_loop_returns _ _ _ _ _ Hloop) as [Hconv Hfit].
  rewrite (label_loop_convertible _ _ _ _ Hkeys Hconv Hfit) in Hloop.
  injection Hloop as <-.
  destruct (binding_help_requested v) eqn:Hreq; cbn [fst snd].
  - split_and!.
    + split; [intros _; by split_and!|reflexivity].
    + intros _. split_and!; reflexivity.
    + intros H. by destruct H.
  - split_and!.
    + split; [intros _; by split_and!|reflexivity].
    + intros _. split_and!; [reflexivity..|exact Hreq].
    + intros H. by destruct H.
Qed.

(** A frame of one bound body, one unbound and one without keypoints, with a
    help request: the calls before the loop, two labels, then the help
    window, then the main one. *)
Lemma render_frame_labels_selectable_bodies_witness :
  (render_frame default_role_color
     (sl.mkBodies [sl.mkBody 1 (Some [(100%float, 100%float)]);
                   sl.mkBody 2 None;
                   sl.mkBody 3 (Some [(500%float, 400%float)])])
     3
     (set_binding_help_requested true (new_viewer "view" 1080 (1%float, 1%float)))
     (set_role_map {[ 1 := "Nurse_1" ]} (new_manager (1%float, 1%float)))).2
  = new_viewer "view" 1080 (1%float, 1%float).
Proof.
  refine (proj1 (proj2 (proj1 (proj2 (render_frame_labels_selectable_bodies
                                        _ _ _ _)) _))).
  vm_compute. reflexivity.
Defined.

(** A keypoint [int] accepts and OpenCV does not: at 2 ^ 31 pixels the label
    is refused and [render_frame] raises [cv2.error]. *)
Example label_refused :
  (render_frame default_role_color
     (sl.mkBodies [sl.mkBody 1 (Some [(0x1p+31%float, 100%float)])]) 1
     (new_viewer "view" 1080 (1%float, 1%float))
     (new_manager (1%float, 1%float))).1.2
  = Some Cv2Error.
Proof. vm_compute. reflexivity. Qed.

End Rendering.

(** In the order of [main.py] (assignment, then rendering), with the viewer
    and the manager on the same image scale and the default colours: in a
    pass on a grabbed frame in which the assignment binds a body, made in a
    state whose selection is a category, and in which OpenCV takes the calls
    before the label loop and every label position, the pass does not raise
    and has drawn the new label, in the category's colour, ten pixels above
    the point the click was measured against. *)
Theorem assigned_label_drawn_in_same_frame
    (bodies : sl.Bodies) (waitkey : Z) (st : main_py.loop_state)
    (m' : RoleBindingManager) (bid : Z) (l : string) :
  selection_ok (current_role (main_py.binding_manager st)) →
  viewer_2d.image_scale (main_py.viewer st)
  = image_scale (main_py.binding_manager st) →
  try_assign_from_click (Some bodies) (main_py.binding_manager st)
  = (Ok (Assigned bid l), m') →
  (∀ d, d ∈ viewer_2d.overlay bodies (Z.of_nat (length (sl.body_list bodies)))
              (main_py.viewer st) (main_py.binding_manager st) →
        viewer_2d.accepts d = true) →
  labels_fit (image_scale (main_py.binding_manager st)) (sl.body_list bodies) →
  (∀ err, (main_py.iteration default_role_color true bodies waitkey st).1.1
          ≠ main_py.Raised err) ∧
  main_py.binding_manager
    (main_py.iteration default_role_color true bodies waitkey st).1.2
  = (if Z.land waitkey 255 =? ord "q" then m'
     else (set_current_role_from_key (Z.land waitkey 255) m').2) ∧
  ∃ b p c col,
    b ∈ sl.body_list bodies ∧ sl.id b = bid ∧
    reference_point (image_scale (main_py.binding_manager st)) b = Display p ∧
    current_role (main_py.binding_manager st) = Some (category_name c) ∧
    default_role_color !! category_name c = Some col ∧
    viewer_2d.PutText l (p.1, p.2 - 10) col
    ∈ (main_py.iteration default_role_color true bodies waitkey st).2.
Proof.
  destruct st as [m v kw]. cbn [main_py.binding_manager main_py.viewer].
  intros Hok Hscale Hcall Hacc Hfit.
  destruct (try_assign_assigned_category _ _ _ _ _ Hok Hcall)
    as (c & Hc & Hl & Hm').
  pose proof (proj1 (try_assign_frame (Some bodies) m)) as Hrole.
  rewrite Hcall in Hrole. cbn [snd] in Hrole.
  assert (Hsel : ∃ b p,
    b ∈ sl.body_list bodies ∧ sl.id b = bid ∧
    reference_point (image_scale m) b = Display p ∧
    convertible (image_scale m) (sl.body_list bodies)).
  { clear Hm' Hrole.
    destruct (try_assign_from_click_path (Some bodies) m)
      as [?|? ? ? ?|? ? ? ? ? ? ? ?|? ? ? ? ? ? ? ?
          |r bs b d l' m1 _ _ Hbs _ Hloop Hgen]; try discriminate Hcall.
    injection Hbs as <-. injection Hcall as Hbid _ _.
    pose proof (nearest_loop_returns _ _ _ _ _ _ Hloop) as Hconv.
    apply nearest_loop_spec in Hloop. destruct d as [d|]; [|done].
    destruct Hloop as (i & p & (Hi & Hp & _) & _).
    apply list_elem_of_lookup_2 in Hi. by exists b, p. }
  destruct Hsel as (b & p & Hi & Hbid & Hp & Hconv).
  assert (Hmap : role_map m' !! sl.id b = Some (role_label c (counter c m + 1))).
  { rewrite Hm', Hbid, <- Hl. cbn. apply lookup_insert_eq. }
  assert (Hshown : ∃ col,
    default_role_color !! category_name c = Some col ∧
    shown_label default_role_color (image_scale m) m' b
    = Some (viewer_2d.PutText l (p.1, p.2 - 10) col)).
  { destruct (default_role_color_keys c) as [col Hcol]. exists col.
    split; [done|]. unfold shown_label.
    rewrite Hp, (get_label_and_color_numbered _ _ _ c _ Hmap), Hcol, Hl. done. }
  destruct Hshown as (col & Hcol & Hshown).
  assert (Hin : viewer_2d.PutText l (p.1, p.2 - 10) col
                ∈ omap (shown_label default_role_color (image_scale m) m')
                    (sl.body_list bodies)).
  { apply list_elem_of_omap. by exists b. }
  unfold main_py.iteration.
  cbn [negb main_py.binding_manager main_py.viewer main_py.key_wait].
  rewrite Hcall. unfold viewer_2d.render_frame.
  rewrite (overlay_current_role _ _ _ _ _ Hrole), Hscale.
  rewrite (draw_all_accepted _ Hacc).
  rewrite (label_loop_convertible _ _ _ _
             default_role_color_keys Hconv Hfit).
  destruct (viewer_2d.binding_help_requested v), (_ =? ord "q");
    cbn [fst snd main_py.binding_manager];
    (split; [discriminate|]); (split; [reflexivity|]); exists b, p, c, col;
    (split_and!; [done..|]); rewrite !elem_of_app; auto.
Qed.

Lemma assigned_label_drawn_in_same_frame_witness :
  viewer_2d.PutText "Surgeon_1" (100, 90) (0, 0, 255)
  ∈ (main_py.iteration default_role_color true
       (sl.mkBodies [sl.mkBody 1 (Some [(100%float, 100%float)]);
                     sl.mkBody 2 (Some [(500%float, 500%float)])])
       (-1)
       (main_py.mkLoop
          (register_click 110 110
             (set_current_role (Some "Surgeon")
                (new_manager (1%float, 1%float)))).2
          (viewer_2d.new_viewer "view" 1080 (1%float, 1%float)) 10)).2.
Proof.
  destruct (assigned_label_drawn_in_same_frame
              (sl.mkBodies [sl.mkBody 1 (Some [(100%float, 100%float)]);
                            sl.mkBody 2 (Some [(500%float, 500%float)])])
              (-1)
              (main_py.mkLoop
                 (register_click 110 110
                    (set_current_role (Some "Surgeon")
                       (new_manager (1%float, 1%float)))).2
                 (viewer_2d.new_viewer "view" 1080 (1%float, 1%float)) 10)
              (try_assign_from_click
                 (Some (sl.mkBodies
                          [sl.mkBody 1 (Some [(100%float, 100%float)]);
                           sl.mkBody 2 (Some [(500%float, 500%float)])]))
                 (register_click 110 110
                    (set_current_role (Some "Surgeon")
                       (new_manager (1%float, 1%float)))).2).2
              1 "Surgeon_1")
    as (_ & _ & b & p & c & col & Hb & Hid & Hp & Hc & Hcol & Hin).
  - right. by exists Surgeon.
  - reflexivity.
  - vm_compute. reflexivity.
  - intros d Hd. unfold viewer_2d.overlay in Hd.
    repeat (apply elem_of_cons in Hd as [->|Hd]; [reflexivity|]).
    by apply not_elem_of_nil in Hd.
  - intros b p Hb Hp.
    apply elem_of_cons in Hb as [->|Hb]; [by injection Hp as <-|].
    apply elem_of_cons in Hb as [->|Hb]; [by injection Hp as <-|].
    by apply not_elem_of_nil in Hb.
  - apply elem_of_cons in Hb as [->|Hb]; [|exfalso].
    + injection Hp as <-. injection Hc as Hc. destruct c; try discriminate Hc.
      injection Hcol as <-. exact Hin.
    + apply elem_of_cons in Hb as [->|Hb]; [discriminate Hid|].
      by apply not_elem_of_nil in Hb.
Defined.

(** ** The loop of [main.py] *)

Lemma run_app cs1 cs2 : ∀ m, run (cs1 ++ cs2) m = run cs2 (run cs1 m).
Proof. induction cs1 as [|c cs1 IH]; intros m; [done|]. cbn. apply IH. Qed.

Lemma iteration_runs_calls role_color grab bodies waitkey st :
  ∃ cs,
    main_py.binding_manager (main_py.iteration role_color grab bodies waitkey st).1.2
    = run cs (main_py.binding_manager st).
Proof.
  unfold main_py.iteration. destruct grab; cbn [negb]; [|by exists []].
  destruct (try_assign_from_click (Some bodies) (main_py.binding_manager st))
    as [[ev|e] m1] eqn:Hcall.
  - assert (Hm1 : m1 = run [TryAssignFromClick (Some bodies)]
                         (main_py.binding_manager st)).
    { cbn. by rewrite Hcall. }
    destruct (viewer_2d.render_frame _ _ _ _ _) as [[drawn [err|]] v1];
      cbn [fst snd main_py.binding_manager]; [by eexists|].
    destruct (_ =? ord "q"); cbn [fst snd main_py.binding_manager];
      [by eexists|].
    exists [TryAssignFromClick (Some bodies);
            SetCurrentRoleFromKey (Z.land waitkey 255)].
    cbn. by rewrite Hcall.
  - exists [TryAssignFromClick (Some bodies)]. cbn. by rewrite Hcall.
Qed.

Lemma session_runs_calls role_color inputs : ∀ st,
  ∃ cs,
    main_py.binding_manager (main_py.session role_color inputs st).2
    = run cs (main_py.binding_manager st).
Proof.
  induction inputs as [|[grab bodies waitkey|event x y] inputs IH]; intros st;
    cbn [main_py.session].
  - by exists [].
  - destruct (iteration_runs_calls role_color grab bodies waitkey st)
      as [cs1 Hcs1].
    destruct (main_py.iteration role_color grab bodies waitkey st)
      as [[o st'] drawn]. cbn [fst snd] in Hcs1.
    destruct o; [|by exists cs1..].
    destruct (IH st') as [cs2 Hcs2]. exists (cs1 ++ cs2)%list.
    by rewrite run_app, <- Hcs1.
  - destruct (mouse_callback_cases event x y (main_py.viewer st)
                (main_py.binding_manager st))
      as [(_ & _ & ->)|[(_ & _ & ->)|(_ & ->)]].
    + apply (IH (main_py.mkLoop _ _ _)).
    + destruct (IH (main_py.mkLoop
                      (register_click x y (main_py.binding_manager st)).2
                      (main_py.viewer st) (main_py.key_wait st)))
        as [cs2 Hcs2].
      exists (RegisterClick x y :: cs2). by rewrite Hcs2.
    + apply (IH (main_py.mkLoop _ _ _)).
Qed.

(** The program drives the manager through its three public methods only:
    whatever frames, keys and mouse events arrive, and however the loop ends,
    the manager it leaves is the one some sequence of [try_assign_from_click],
    [set_current_role_from_key] and [register_click] calls leaves.  So in a
    run of the program that starts with a new manager the selection is
    always none or a category, no two bodies ever carry the same label, and
    every label is ["{category}_{n}"] with [n] between 1 and the counter. *)
Theorem program_keeps_bindings_unique
    (role_color : gmap string color) (inputs : list main_py.input) :
  (∀ st, ∃ cs,
     main_py.binding_manager (main_py.session role_color inputs st).2
     = run cs (main_py.binding_manager st)) ∧
  (∀ scale v kw,
     selection_ok
       (current_role
          (main_py.binding_manager
             (main_py.session role_color inputs
                (main_py.mkLoop (new_manager scale) v kw)).2)) ∧
     (∀ bid1 bid2 l,
        role_map
          (main_py.binding_manager
             (main_py.session role_color inputs
                (main_py.mkLoop (new_manager scale) v kw)).2) !! bid1 = Some l →
        role_map
          (main_py.binding_manager
             (main_py.session role_color inputs
                (main_py.mkLoop (new_manager scale) v kw)).2) !! bid2 = Some l →
        bid1 = bid2) ∧
     (∀ bid l,
        role_map
          (main_py.binding_manager
             (main_py.session role_color inputs
                (main_py.mkLoop (new_manager scale) v kw)).2) !! bid = Some l →
        ∃ c n, l = role_label c n ∧
               0 < n ≤ counter c
                 (main_py.binding_manager
                    (main_py.session role_color inputs
                       (main_py.mkLoop (new_manager scale) v kw)).2))).
Proof.
  split; [apply session_runs_calls|].
  intros scale v kw.
  destruct (session_runs_calls role_color inputs
              (main_py.mkLoop (new_manager scale) v kw)) as [cs ->].
  cbn [main_py.binding_manager].
  assert (Hok : bindings_ok (run cs (new_manager scale))).
  { apply run_bindings_ok; [by left|apply new_manager_bindings_ok]. }
  destruct Hok as (_ & Hlab & Hinj).
  split_and!; [|done..]. apply run_selection_ok. by left.
Qed.

(** A session of the program: 's', a click on the first body, a press on
    the help button, then a frame in which the click is resolved. *)
Lemma program_keeps_bindings_unique_witness :
  ∃ c n,
    "Surgeon_1" = role_label c n ∧
    0 < n ≤ counter c
      (main_py.binding_manager
         (main_py.session default_role_color
            [main_py.Frame true (sl.mkBodies []) 115;
             main_py.Mouse 1 300 300; main_py.Mouse 1 30 80;
             main_py.Frame true
               (sl.mkBodies [sl.mkBody 1 (Some [(100%float, 100%float)])]) (-1)]
            (main_py.mkLoop (new_manager (1%float, 1%float))
               (viewer_2d.new_viewer "view" 1080 (1%float, 1%float)) 10)).2).
Proof.
  refine (proj2 (proj2 (proj2 (program_keeps_bindings_unique _ _) _ _ _))
            1 "Surgeon_1" _).
  vm_compute. reflexivity.
Defined.

(** A frame with a keypoint [int] rejects ends the program, click or no
    click: with a colour for each category, a pass on a grabbed frame one of
    whose bodies has such a keypoint (on the viewer's scale) ends in an
    exception, raised by the assignment or, if that returns, by the
    rendering; no key is read, and the selection and the pause are as they
    were. *)
Theorem unconvertible_keypoint_ends_program
    (role_color : gmap string color) (bodies : sl.Bodies) (waitkey : Z)
    (st : main_py.loop_state) (b : sl.Body) (e : exn) :
  (∀ c, is_Some (role_color !! category_name c)) →
  b ∈ sl.body_list bodies →
  reference_point (viewer_2d.image_scale (main_py.viewer st)) b = Unconvertible e →
  ∃ err,
    (main_py.iteration role_color true bodies waitkey st).1.1 = main_py.Raised err ∧
    current_role
      (main_py.binding_manager
         (main_py.iteration role_color true bodies waitkey st).1.2)
    = current_role (main_py.binding_manager st) ∧
    main_py.key_wait (main_py.iteration role_color true bodies waitkey st).1.2
    = main_py.key_wait st.
Proof.
  intros Hkeys Hin Hb. unfold main_py.iteration. cbn [negb].
  pose proof (proj1 (try_assign_frame (Some bodies) (main_py.binding_manager st)))
    as Hrole.
  destruct (try_assign_from_click (Some bodies) (main_py.binding_manager st))
    as [[ev|e0] m1]; cbn [snd] in Hrole; [|by eexists].
  unfold viewer_2d.render_frame.
  destruct (viewer_2d.draw_all _) as [shown [err|]]; [by eexists|].
  destruct (viewer_2d.label_loop _ _ _ _) as [drawn [err|]] eqn:Hloop;
    [by eexists|].
  apply label_loop_returns in Hloop as [Hconv _].
  destruct (Hconv b e Hin Hb).
Qed.

Lemma unconvertible_keypoint_ends_program_witness :
  ∃ err,
    (main_py.iteration default_role_color true
       (sl.mkBodies [sl.mkBody 1 (Some [(100%float, 100%float)]);
                     sl.mkBody 2 (Some [(infinity, 100%float)])])
       (-1)
       (main_py.mkLoop (new_manager (1%float, 1%float))
          (viewer_2d.new_viewer "view" 1080 (1%float, 1%float)) 10)).1.1
    = main_py.Raised err.
Proof.
  destruct (unconvertible_keypoint_ends_program default_role_color
              (sl.mkBodies [sl.mkBody 1 (Some [(100%float, 100%float)]);
                            sl.mkBody 2 (Some [(infinity, 100%float)])])
              (-1)
              (main_py.mkLoop (new_manager (1%float, 1%float))
                 (viewer_2d.new_viewer "view" 1080 (1%float, 1%float)) 10)
              (sl.mkBody 2 (Some [(infinity, 100%float)])) OverflowError)
    as (err & Herr & _).
  - apply default_role_color_keys.
  - right. left.
  - vm_compute. reflexivity.
  - by exists err.
Defined.

(** Only the low byte of what [cv2.waitKey] returns is read: a pass does the
    same on [waitkey] and on [waitkey mod 256].  So "no key" (-1, read as
    255) neither quits, pauses nor changes the selection, and the pause delay,
    once 0 or 10, stays 0 or 10. *)
Theorem key_handling_reads_low_byte
    (role_color : gmap string color) (grab : bool) (bodies : sl.Bodies)
    (waitkey : Z) (st : main_py.loop_state) :
  main_py.iteration role_color grab bodies waitkey st
  = main_py.iteration role_color grab bodies (waitkey `mod` 256) st ∧
  ((main_py.iteration role_color grab bodies (-1) st).1.1 ≠ main_py.Break ∧
   current_role
     (main_py.binding_manager (main_py.iteration role_color grab bodies (-1) st).1.2)
   = current_role (main_py.binding_manager st) ∧
   main_py.key_wait (main_py.iteration role_color grab bodies (-1) st).1.2
   = main_py.key_wait st) ∧
  (main_py.key_wait st = 0 ∨ main_py.key_wait st = 10 →
   main_py.key_wait (main_py.iteration role_color grab bodies waitkey st).1.2 = 0 ∨
   main_py.key_wait (main_py.iteration role_color grab bodies waitkey st).1.2 = 10).
Proof.
  assert (Hmask : Z.land (waitkey `mod` 256) 255 = Z.land waitkey 255).
  { change 255 with (Z.ones 8). rewrite !Z.land_ones by lia.
    change (2 ^ 8) with 256. by rewrite Z.mod_mod. }
  pose proof (proj1 (try_assign_frame (Some bodies) (main_py.binding_manager st)))
    as Hrole.
  split_and!.
  - unfold main_py.iteration. by rewrite Hmask.
  - unfold main_py.iteration. destruct grab; cbn [negb]; [|done].
    destruct (try_assign_from_click _ _) as [[ev|e] m1]; [|done].
    by destruct (viewer_2d.render_frame _ _ _ _ _) as [[drawn [err|]] v1].
  - unfold main_py.iteration. destruct grab; cbn [negb]; [|done].
    destruct (try_assign_from_click _ _) as [[ev|e] m1]; [|done].
    by destruct (viewer_2d.render_frame _ _ _ _ _) as [[drawn [err|]] v1].
  - unfold main_py.iteration. destruct grab; cbn [negb]; [|done].
    destruct (try_assign_from_click _ _) as [[ev|e] m1]; [|done].
    by destruct (viewer_2d.render_frame _ _ _ _ _) as [[drawn [err|]] v1].
  - intros Hkw. unfold main_py.iteration. destruct grab; cbn [negb]; [|done].
    destruct (try_assign_from_click _ _) as [[ev|e] m1]; [|done].
    destruct (viewer_2d.render_frame _ _ _ _ _) as [[drawn [err|]] v1]; [done|].
    destruct (_ =? ord "q"); [done|]. cbn [fst snd main_py.key_wait].
    destruct (_ =? ord "m"); [|done]. destruct (0 <? _); auto.
Qed.

Lemma key_handling_reads_low_byte_witness :
  main_py.key_wait
    (main_py.iteration default_role_color true (sl.mkBodies []) (256 + 109)
       (main_py.mkLoop (new_manager (1%float, 1%float))
          (viewer_2d.new_viewer "view" 1080 (1%float, 1%float)) 10)).1.2 = 0 ∨
  main_py.key_wait
    (main_py.iteration default_role_color true (sl.mkBodies []) (256 + 109)
       (main_py.mkLoop (new_manager (1%float, 1%float))
          (viewer_2d.new_viewer "view" 1080 (1%float, 1%float)) 10)).1.2 = 10.
Proof.
  apply (proj2 (proj2 (key_handling_reads_low_byte _ _ _ _ _))).
  right. reflexivity.
Defined.

(** ** Command-line options *)

Section Options.

Import args.

Variable isdigit : string → bool.
Variable int_str : string → result Z.

Lemma parse_args_resolution init opt init' :
  parse_args isdigit int_str init opt = Ok init' →
  camera_resolution init'
  = if contains "HD2K" (resolution opt) then HD2K
    else if contains "HD1200" (resolution opt) then HD1200
    else if contains "HD1080" (resolution opt) then HD1080
    else if contains "HD720" (resolution opt) then HD720
    else if contains "SVGA" (resolution opt) then SVGA
    else if contains "VGA" (resolution opt) then VGA
    else camera_resolution init.
Proof.
  unfold parse_args. cbv [mbind mret result_mbind result_ret result_bind].
  intros H.
  repeat match type of H with
         | context [if ?b then _ else _] => destruct b
         | context [match int_str ?s with _ => _ end] => destruct (int_str s)
         end;
    try discriminate H; by injection H as <-.
Qed.

(** Each resolution the [--resolution] option documents selects itself:
    when [parse_args] returns, an option string that is exactly one of HD2K,
    HD1200, HD1080, HD720, SVGA, VGA has set that resolution (SVGA is not
    taken for VGA, which it contains), whatever the other options are; a
    string containing SVGA and no HD name sets SVGA; and a string containing
    none of the six names leaves the resolution as it was. *)
Theorem resolution_names_select_themselves
    (init init' : InitParameters) (opt : Options) :
  parse_args isdigit int_str init opt = Ok init' →
  (∀ r, resolution opt = resolution_name r → camera_resolution init' = r) ∧
  (contains "SVGA" (resolution opt) = true →
   contains "HD2K" (resolution opt) = false →
   contains "HD1200" (resolution opt) = false →
   contains "HD1080" (resolution opt) = false →
   contains "HD720" (resolution opt) = false →
   camera_resolution init' = SVGA) ∧
  ((∀ r, contains (resolution_name r) (resolution opt) = false) →
   camera_resolution init' = camera_resolution init).
Proof.
  intros H. apply parse_args_resolution in H. rewrite H. split_and!.
  - intros r ->. by destruct r.
  - by intros -> -> -> -> ->.
  - intros Hnone.
    pose proof (Hnone HD2K) as H1. pose proof (Hnone HD1200) as H2.
    pose proof (Hnone HD1080) as H3. pose proof (Hnone HD720) as H4.
    pose proof (Hnone SVGA) as H5. pose proof (Hnone VGA) as H6.
    cbn [resolution_name] in *. by rewrite H1, H2, H3, H4, H5, H6.
Qed.

End Options.

(** "SVGA" with an SVO file: the file is taken and the resolution is SVGA. *)
Lemma resolution_names_select_themselves_witness :
  args.parse_args args.ascii_isdigit (λ _, Raise ValueError) args.default_init
    (args.mkOptions "run.svo" "" "SVGA")
  = Ok (args.mkInit (args.SvoFile "run.svo") args.SVGA) ∧
  args.camera_resolution (args.mkInit (args.SvoFile "run.svo") args.SVGA)
  = args.SVGA.
Proof.
  split; [vm_compute; reflexivity|].
  refine (proj1 (resolution_names_select_themselves args.ascii_isdigit
                   (λ _, Raise ValueError) args.default_init
                   (args.mkInit (args.SvoFile "run.svo") args.SVGA)
                   (args.mkOptions "run.svo" "" "SVGA") _) args.SVGA _).
  - vm_compute. reflexivity.
  - reflexivity.
Defined.

(** ** The input [parse_args] selects *)

Ltac branches :=
  repeat match goal with
         | |- context [if ?b then _ else _] => destruct b
         end.

Section InputSource.

Import args.

Lemma split_nonempty c s : split c s ≠ [].
Proof.
  induction s as [|a s IH]; [done|]. cbn [split].
  destruct (Ascii.eqb a c); [done|]. by destruct (split c s).
Qed.

Lemma split_cons c s first others :
  split c s = first :: others →
  (others = [] ∧ s = first ∧ occurs c s = false) ∨
  (∃ rest, s = first +:+ String c rest ∧ occurs c first = false ∧
           split c rest = others).
Proof.
  revert first others. induction s as [|a s IH]; intros first others H.
  { cbn in H. simplify_eq. by left. }
  cbn [split] in H. cbn [occurs]. rewrite (Ascii.eqb_sym c a).
  destruct (Ascii.eqb_spec a c) as [->|Hne].
  - simplify_eq. right. by exists s.
  - destruct (split c s) as [|f o] eqn:Hs; [by destruct (split_nonempty c s)|].
    simplify_eq.
    destruct (IH _ _ eq_refl) as [(-> & -> & Hocc)|(rest & -> & Hocc & Hrest)].
    + left. by rewrite Hocc.
    + right. exists rest. cbn [occurs]. rewrite (Ascii.eqb_sym c a).
      destruct (Ascii.eqb_spec a c); [done|]. by rewrite Hocc.
Qed.

Lemma split_no_sep c s : occurs c s = false → split c s = [s].
Proof.
  induction s as [|a s IH]; [done|]. cbn [occurs split].
  rewrite (Ascii.eqb_sym c a). destruct (Ascii.eqb a c); [done|].
  cbn [orb]. intros H. by rewrite (IH H).
Qed.


Lemma split_two c s host text :
  split c s = [host; text] →
  s = host +:+ String c text ∧ occurs c host = false ∧ occurs c text = false.
Proof.
  intros H. apply split_cons in H as [(? & _)|(rest & -> & Hocc & Hrest)];
    [done|].
  apply split_cons in Hrest as [(_ & -> & ?)|(? & _ & _ & Hnil)]; [done|].
  by destruct (split_nonempty _ _ Hnil).
Qed.





Variable isdigit : string → bool.
Variable int_str : string → result Z.

Lemma parse_args_input init opt :
  match parse_args isdigit int_str init opt with
  | Raise e =>
      (0 <? String.length (input_svo_file opt))%nat
      && endswith ".svo" (input_svo_file opt) = false ∧
      ip_address opt ≠ "" ∧
      isdigit (remove_char "." (remove_char ":" (ip_address opt))) = true ∧
      length (split "." (ip_address opt)) = 4%nat ∧
      ∃ host text, split ":" (ip_address opt) = [host; text] ∧
                   int_str text = Raise e
  | Ok init' =>
      input init'
      = if (0 <? String.length (input_svo_file opt))%nat
           && endswith ".svo" (input_svo_file opt)
        then SvoFile (input_svo_file opt)
        else if (0 <? String.length (ip_address opt))%nat then
          if isdigit (remove_char "." (remove_char ":" (ip_address opt)))
             && (length (split "." (ip_address opt)) =? 4)%nat
          then match split ":" (ip_address opt) with
               | [host; text] =>
                   match int_str text with
                   | Ok port => Stream host (Some port)
                   | Raise _ => input init
                   end
               | _ => Stream (ip_address opt) None
               end
          else input init
        else input init
  end.
Proof.
  unfold parse_args.
  cbv [mbind mret result_mbind result_ret result_bind].
  destruct ((0 <? String.length (input_svo_file opt))%nat
            && endswith ".svo" (input_svo_file opt)) eqn:Hsvo.
  { by branches. }
  destruct (ip_address opt) as [|a ip] eqn:Hip.
  { cbn [String.length Nat.ltb Nat.leb]. by branches. }
  rewrite <- Hip. replace (0 <? String.length (ip_address opt))%nat with true
    by (by rewrite Hip).
  destruct (isdigit _) eqn:Hdig; cbn [andb]; [|by branches].
  destruct (Nat.eqb_spec (length (split "." (ip_address opt))) 4) as [H4|H4];
    cbn [andb]; [|by branches].
  destruct (split ":" (ip_address opt)) as [|host [|text [|x rest]]] eqn:Hsplit;
    cbn; try (by branches).
  destruct (int_str text) as [port|e] eqn:Hint.
  - by branches.
  - split_and!; [done|by rewrite Hip|done..|]. by exists host, text.
Qed.


End InputSource.


Section InputSelection.

Import args.

Variable isdigit : string → bool.
Variable int_str : string → result Z.

Lemma length_pos_nonempty s : (0 <? String.length s)%nat = negb (String.eqb s "").
Proof. by destruct s. Qed.

(** Which input the script ends up with.  It exits, before [parse_args], when
    both a file and an address are given.  Otherwise, when [parse_args]
    returns: an SVO file is used only if its name ends in ".svo"; a stream
    with a port only if the address is [host:text] with a single colon and
    [int(text)] is the port; a stream without a port only if the address does
    not hold exactly one colon; and a file name that does not end in ".svo",
    given alone, is ignored without a word: the live camera is used. *)
Theorem input_source_selection (opt : Options) :
  (script_args isdigit int_str opt = None ↔
   input_svo_file opt ≠ "" ∧ ip_address opt ≠ "") ∧
  (∀ init',
     script_args isdigit int_str opt = Some (Ok init') →
     (∀ path, input init' = SvoFile path →
        path = input_svo_file opt ∧ endswith ".svo" path = true ∧
        ip_address opt = "") ∧
     (∀ host port, input init' = Stream host (Some port) →
        input_svo_file opt = "" ∧
        ∃ text, ip_address opt = host +:+ ":" +:+ text ∧
                int_str text = Ok port ∧
                occurs ":" host = false ∧ occurs ":" text = false) ∧
     (∀ ip, input init' = Stream ip None →
        input_svo_file opt = "" ∧ ip = ip_address opt ∧
        length (split ":" ip) ≠ 2%nat)) ∧
  (endswith ".svo" (input_svo_file opt) = false →
   ip_address opt = "" →
   ∃ init', script_args isdigit int_str opt = Some (Ok init') ∧
            input init' = LiveCamera).
Proof.
  unfold script_args. rewrite !length_pos_nonempty.
  destruct (String.eqb_spec (input_svo_file opt) "") as [Hsvo|Hsvo];
    destruct (String.eqb_spec (ip_address opt) "") as [Hip|Hip]; cbn [negb andb].
  - (* neither *)
    split_and!.
    + split; [done|]. by intros [? _].
    + intros init' [= Hparse].
      pose proof (parse_args_input isdigit int_str default_init opt) as Hin.
      rewrite Hparse, Hsvo, Hip in Hin. cbn in Hin.
      split_and!; intros; cbn in Hin; congruence.
    + intros _ _.
      pose proof (parse_args_input isdigit int_str default_init opt) as Hin.
      destruct (parse_args isdigit int_str default_init opt) as [init'|e].
      * exists init'. split; [done|]. rewrite Hsvo, Hip in Hin. by cbn in Hin.
      * destruct Hin as (_ & ? & _). done.
  - (* an address only *)
    split_and!.
    + split; [done|]. by intros [? _].
    + intros init' [= Hparse].
      pose proof (parse_args_input isdigit int_str default_init opt) as Hin.
      rewrite Hparse, !length_pos_nonempty, Hsvo in Hin.
      rewrite (proj2 (String.eqb_neq _ _) Hip) in Hin.
      cbn [String.eqb negb andb] in Hin.
      destruct (isdigit _ && _) in Hin;
        [|cbn in Hin; split_and!; intros; cbn in Hin; congruence].
      destruct (split ":" (ip_address opt)) as [|host [|text [|x rest]]] eqn:Hsplit.
      * by destruct (split_nonempty _ _ Hsplit).
      * split_and!; [intros; cbn in Hin; congruence..|].
        intros ip Heq. rewrite Heq in Hin. simplify_eq. by rewrite Hsplit.
      * destruct (int_str text) as [port|e] eqn:Hint;
          [|cbn in Hin; split_and!; intros; cbn in Hin; congruence].
        apply split_two in Hsplit as (Haddr & Hh & Ht).
        split_and!; [intros; cbn in Hin; congruence| |intros; cbn in Hin; congruence].
        intros host' port' Heq. rewrite Heq in Hin. simplify_eq.
        split; [done|]. by exists text.
      * split_and!; [intros; cbn in Hin; congruence..|].
        intros ip Heq. rewrite Heq in Hin. simplify_eq. by rewrite Hsplit.
    + done.
  - (* a file only *)
    split_and!.
    + split; [done|]. by intros [_ ?].
    + intros init' [= Hparse].
      pose proof (parse_args_input isdigit int_str default_init opt) as Hin.
      rewrite Hparse, !length_pos_nonempty, Hip in Hin.
      rewrite (proj2 (String.eqb_neq _ _) Hsvo) in Hin.
      cbn [String.eqb negb andb] in Hin.
      destruct (endswith ".svo" (input_svo_file opt)) eqn:Hends;
        [|split_and!; intros; cbn in Hin; congruence].
      split_and!; [|intros; cbn in Hin; congruence..].
      intros path Heq. rewrite Heq in Hin. by simplify_eq.
    + intros Hends _.
      pose proof (parse_args_input isdigit int_str default_init opt) as Hin.
      destruct (parse_args isdigit int_str default_init opt) as [init'|e].
      * exists init'. split; [done|]. rewrite Hends, Hip, andb_false_r in Hin.
        by cbn in Hin.
      * destruct Hin as (_ & ? & _). done.
  - (* both: the script exits *)
    split_and!; [done|intros; discriminate|done].
Qed.

End InputSelection.

Lemma input_source_selection_witness :
  ∃ init',
    args.script_args args.ascii_isdigit
      (λ s, if args.ascii_isdigit s then Ok 0 else Raise ValueError)
      (args.mkOptions "recording.mp4" "" "")
    = Some (Ok init') ∧
    args.input init' = args.LiveCamera.
Proof.
  apply (proj2 (proj2 (input_source_selection _ _
                         (args.mkOptions "recording.mp4" "" "")))); reflexivity.
Defined.

(** ** The loop of [body_tracking.py] against the loop of [main.py] *)

Lemma nearest_loop_first_failure scale cx cy bodies : ∀ st,
  match first_failure scale bodies with
  | Some e => nearest_loop scale cx cy bodies st = Raise e
  | None => ∃ st', nearest_loop scale cx cy bodies st = Ok st'
  end.
Proof.
  induction bodies as [|b bodies IH]; intros st; cbn [first_failure nearest_loop].
  { by exists st. }
  rewrite nearest_iter_reference.
  destruct (reference_point scale b) as [|p|e]; cbn; [apply IH..|done].
Qed.

Lemma first_failure_convertible scale bodies :
  first_failure scale bodies = None ↔ convertible scale bodies.
Proof.
  split.
  - intros H. pose proof (nearest_loop_first_failure scale 0 0 bodies (None, None)) as Hl.
    rewrite H in Hl. destruct Hl as [st' Hst']. by eapply nearest_loop_returns.
  - intros Hconv. induction bodies as [|b bodies IH]; [done|].
    cbn [first_failure].
    destruct (reference_point scale b) as [|p|e] eqn:Hb.
    + apply IH. intros b' e Hin. apply Hconv. by right.
    + apply IH. intros b' e Hin. apply Hconv. by right.
    + destruct (Hconv b e); [by left|done].
Qed.

Lemma label_loop_first_failure role_color scale m bodies :
  (∀ c, is_Some (role_color !! category_name c)) →
  labels_fit scale bodies →
  (viewer_2d.label_loop role_color scale m bodies).2
  = viewer_2d.IntError <$> first_failure scale bodies.
Proof.
  intros Hkeys. induction bodies as [|b bodies IH]; intros Hfit; [done|].
  assert (Hfits : labels_fit scale bodies).
  { intros b' p Hin. apply Hfit. by right. }
  rewrite label_loop_cons. cbn [first_failure].
  destruct (reference_point scale b) as [|p|e] eqn:Hb; [by apply IH| |done].
  destruct (get_label_and_color_found role_color (sl.id b) m Hkeys)
    as (t & col & ->).
  rewrite (Hfit b p); [by apply IH|by left|exact Hb].
Qed.

(** The label loop of the script is the viewer's, on the default colours. *)
Lemma script_label_loop_eq m bodies :
  body_tracking_main.label_loop m bodies
  = viewer_2d.label_loop default_role_color (image_scale m) m bodies.
Proof.
  induction bodies as [|b bodies IH]; [done|].
  cbn [body_tracking_main.label_loop viewer_2d.label_loop].
  destruct (sl.keypoint_2d b) as [[|kp kps]|]; [done| |done].
  destruct (isnan kp.1), (isnan kp.2); cbn [negb andb orb]; try done.
  destruct (Py.int _) as [x|e]; [|done].
  destruct (Py.int _) as [y|e]; [|done].
  unfold get_label_and_color. cbv zeta.
  destruct (contains "Surgeon" _).
  { destruct (getitem _ _); [by rewrite IH|done]. }
  destruct (contains "Assistant" _).
  { destruct (getitem _ _); [by rewrite IH|done]. }
  destruct (contains "Nurse" _).
  { destruct (getitem _ _); [by rewrite IH|done]. }
  by rewrite IH.
Qed.

(** The calls the script makes before its label loop are the viewer's, when
    the viewer's button is where the script draws it. *)
Lemma script_overlay_accepted bodies num_people v m :
  (∀ d, d ∈ viewer_2d.overlay bodies num_people v m →
        viewer_2d.accepts d = true) →
  ∀ d,
    d ∈ ([viewer_2d.Render2D (image_scale m) (sl.body_list bodies);
          viewer_2d.PutText ("People detected: " +:+ fmt_int num_people)
            (20, 40) (0, 255, 0);
          viewer_2d.Rectangle (20, 70) (20 + 170, 70 + 40) (255, 255, 255) (-1);
          viewer_2d.Rectangle (20, 70) (20 + 170, 70 + 40) (0, 0, 0) 2;
          viewer_2d.PutText "Binding Help" (20 + 15, 70 + 27) (0, 0, 0)]
         ++ match current_role m with
            | Some role =>
                [viewer_2d.PutText ("Current role to bind: " +:+ role)
                   (20, viewer_2d.display_height v - 20) (0, 255, 255)]
            | None => []
            end)%list →
    viewer_2d.accepts d = true.
Proof.
  intros Hacc d Hin. apply elem_of_app in Hin as [Hin|Hin].
  - repeat (apply elem_of_cons in Hin as [->|Hin]; [reflexivity|]).
    by apply not_elem_of_nil in Hin.
  - apply Hacc. unfold viewer_2d.overlay. apply elem_of_app. by right.
Qed.

(** The click-assignment block against the method, as a lemma. *)
Lemma click_assign_block_eq m bodies :
  selection_ok (current_role m) →
  sl.body_list bodies ≠ [] ∨ click_pending m = false ∨ current_role m = None →
  body_tracking.click_assign_block bodies m
  = try_assign_from_click (Some bodies) m.
Proof.
  intros Hok Hcase.
  destruct (click_pending m) eqn:Hp; cycle 1.
  { rewrite try_assign_not_attempted by (by left).
    unfold body_tracking.click_assign_block. run_method. by rewrite Hp. }
  destruct (current_role m) as [r|] eqn:Hr; cycle 1.
  { rewrite try_assign_not_attempted by (by right).
    unfold body_tracking.click_assign_block. run_method. by rewrite Hp, Hr. }
  destruct Hcase as [Hne|[?|?]]; [|done..].
  assert (Hg := try_assign_guard_passed m r Hp Hr).
  unfold body_tracking.click_assign_block, try_assign_from_click.
  run_method. rewrite Hg, Hp, Hr.
  destruct (sl.body_list bodies) as [|b0 rest] eqn:Hbs; [done|].
  cbn [length Nat.eqb Nat.ltb Nat.leb]. rewrite <- Hbs.
  destruct (click_pos m) as [cx cy].
  destruct (nearest_loop _ _ _ _ _) as [[[b|] d]|e]; cbn [fst]; try done.
  unfold _generate_role_name. run_method. rewrite Hr. cbn [str_eq].
  destruct Hok as [?|[c Hc]]; [done|]. injection Hc as ->.
  by destruct c.
Qed.

Lemma role_keys_eq key m :
  (if key =? ord "s" then set_current_role (Some "Surgeon") m
   else if key =? ord "a" then set_current_role (Some "Assistant") m
   else if key =? ord "n" then set_current_role (Some "Nurse") m
   else if key =? 27 then set_current_role None m
   else m)
  = (set_current_role_from_key key m).2.
Proof. unfold set_current_role_from_key. by branches. Qed.

(** The refactored program does in a pass what the script did, as long as
    OpenCV takes what is drawn: from the same state, with the viewer on the
    manager's image scale and a selection that is none or a category, on a
    frame for which OpenCV takes the viewer's calls before the label loop and
    every label position, a pass of [main.py] and a pass of
    [body_tracking.py] on the same inputs end the same way (going on,
    [break], or the same exception) and leave the same binding state, help
    flag and pause delay, unless a click is pending with a role selected and
    the frame is empty. *)
Theorem refactored_pass_agrees_with_script
    (grab : bool) (bodies : sl.Bodies) (waitkey : Z)
    (m : RoleBindingManager) (v : viewer_2d.BodyViewer2D) (kw : Z) :
  viewer_2d.image_scale v = image_scale m →
  selection_ok (current_role m) →
  sl.body_list bodies ≠ [] ∨ click_pending m = false ∨ current_role m = None →
  (∀ d, d ∈ viewer_2d.overlay bodies (Z.of_nat (length (sl.body_list bodies)))
              v m →
        viewer_2d.accepts d = true) →
  labels_fit (image_scale m) (sl.body_list bodies) →
  (body_tracking_main.iteration (viewer_2d.display_height v) grab bodies waitkey
     (viewer_2d.binding_help_requested v, m, kw)).1.1
  = (main_py.iteration default_role_color grab bodies waitkey
       (main_py.mkLoop m v kw)).1.1 ∧
  (body_tracking_main.iteration (viewer_2d.display_height v) grab bodies waitkey
     (viewer_2d.binding_help_requested v, m, kw)).1.2
  = (viewer_2d.binding_help_requested
       (main_py.viewer
          (main_py.iteration default_role_color grab bodies waitkey
             (main_py.mkLoop m v kw)).1.2),
     main_py.binding_manager
       (main_py.iteration default_role_color grab bodies waitkey
          (main_py.mkLoop m v kw)).1.2,
     main_py.key_wait
       (main_py.iteration default_role_color grab bodies waitkey
          (main_py.mkLoop m v kw)).1.2).
Proof.
  intros Hscale Hok Hcase Hacc Hfit.
  unfold body_tracking_main.iteration, main_py.iteration.
  destruct grab; cbn [negb main_py.binding_manager main_py.viewer main_py.key_wait];
    [|done].
  cbv zeta.
  rewrite (draw_all_accepted _ (script_overlay_accepted _ _ _ _ Hacc)).
  rewrite script_label_loop_eq, (click_assign_block_eq m bodies Hok Hcase).
  pose proof (label_loop_first_failure default_role_color (image_scale m) m
                (sl.body_list bodies) default_role_color_keys Hfit) as Hlegacy.
  pose proof (nearest_loop_first_failure (image_scale m) (click_pos m).1
                (click_pos m).2 (sl.body_list bodies) (None, None)) as Hnear.
  pose proof (try_assign_from_click_path (Some bodies) m) as Hpath.
  pose proof (proj1 (try_assign_frame (Some bodies) m)) as Hrole.
  unfold viewer_2d.render_frame. rewrite Hscale.
  destruct (first_failure (image_scale m) (sl.body_list bodies)) as [e|] eqn:Hff.
  - (* a keypoint [int] rejects: both raise, nothing has changed *)
    destruct (viewer_2d.label_loop default_role_color (image_scale m) m
                (sl.body_list bodies)) as [drawn err] eqn:Hloop.
    cbn [snd fmap option_fmap option_map] in Hlegacy. subst err.
    destruct Hpath as [Hg|r Hp Hr [?|(bs & ? & Hnil)]|r bs e' Hp Hr ? ? Hraise
                       |r bs d Hp Hr ? ? Hret|r bs b d l m1 Hp Hr ? ? Hret _];
      simplify_eq; cbn [fst snd].
    + rewrite (draw_all_accepted _ Hacc), Hloop. done.
    + by rewrite Hnil in Hff.
    + by rewrite Hnear in Hraise; simplify_eq.
    + by rewrite Hnear in Hret.
    + by rewrite Hnear in Hret.
  - (* every keypoint converts *)
    apply first_failure_convertible in Hff.
    rewrite (label_loop_convertible _ _ m _ default_role_color_keys Hff Hfit).
    destruct (try_assign_from_click (Some bodies) m) as [[ev|e] m1] eqn:Hcall.
    + assert (Hm1 : image_scale m1 = image_scale m).
      { pose proof (try_assign_frame (Some bodies) m) as Hf.
        rewrite Hcall in Hf. by destruct Hf as (_ & ? & _). }
      cbn [snd] in Hrole.
      rewrite (overlay_current_role _ _ _ _ _ Hrole),
        (draw_all_accepted _ Hacc).
      rewrite (label_loop_convertible _ _ m1 _ default_role_color_keys Hff Hfit).
      rewrite <- role_keys_eq.
      destruct (viewer_2d.binding_help_requested v) eqn:Hreq;
        destruct (_ =? ord "q"); cbn [fst snd]; try done.
      all: cbn [main_py.viewer main_py.binding_manager main_py.key_wait];
        by rewrite ?Hreq.
    + destruct Hnear as [st' Hst']. inversion Hpath; simplify_eq. congruence.
Qed.

(** A pass in which 's' is pressed while a click on the only body is pending
    with the nurse role selected. *)
Lemma refactored_pass_agrees_with_script_witness :
  (body_tracking_main.iteration 1080 true
     (sl.mkBodies [sl.mkBody 1 (Some [(100%float, 100%float)])]) 115
     (false,
      (register_click 300 300
         (set_current_role (Some "Nurse") (new_manager (1%float, 1%float)))).2,
      10)).1.1
  = (main_py.iteration default_role_color true
       (sl.mkBodies [sl.mkBody 1 (Some [(100%float, 100%float)])]) 115
       (main_py.mkLoop
          (register_click 300 300
             (set_current_role (Some "Nurse") (new_manager (1%float, 1%float)))).2
          (viewer_2d.new_viewer "view" 1080 (1%float, 1%float)) 10)).1.1.
Proof.
  refine (proj1 (refactored_pass_agrees_with_script true
                   (sl.mkBodies [sl.mkBody 1 (Some [(100%float, 100%float)])]) 115
                   (register_click 300 300
                      (set_current_role (Some "Nurse")
                         (new_manager (1%float, 1%float)))).2
                   (viewer_2d.new_viewer "view" 1080 (1%float, 1%float)) 10
                   _ _ _ _ _)).
  - reflexivity.
  - right. by exists Nurse.
  - left. discriminate.
  - intros d Hd. unfold viewer_2d.overlay in Hd.
    repeat (apply elem_of_cons in Hd as [->|Hd]; [reflexivity|]).
    by apply not_elem_of_nil in Hd.
  - intros b p Hb Hp.
    apply elem_of_cons in Hb as [->|Hb]; [by injection Hp as <-|].
    by apply not_elem_of_nil in Hb.
Defined.

(** Where the two programs part: a click is pending on a body whose label
    OpenCV refuses (a keypoint at 2 ^ 31 pixels).  Both passes end in
    [cv2.error]; [main.py], which binds before it draws, has bound the body
    and used up the click, and the script, which draws first, has not. *)
Example refused_label_orders_differ :
  let frame := sl.mkBodies [sl.mkBody 1 (Some [(0x1p+31%float, 100%float)])] in
  let m := (register_click 300 300
              (set_current_role (Some "Nurse")
                 (new_manager (1%float, 1%float)))).2 in
  let refactored :=
    main_py.iteration default_role_color true frame (-1)
      (main_py.mkLoop m (viewer_2d.new_viewer "view" 1080 (1%float, 1%float)) 10) in
  let script := body_tracking_main.iteration 1080 true frame (-1) (false, m, 10) in
  refactored.1.1 = main_py.Raised viewer_2d.Cv2Error ∧
  script.1.1 = main_py.Raised viewer_2d.Cv2Error ∧
  role_map (main_py.binding_manager refactored.1.2) !! 1 = Some "Nurse_1" ∧
  click_pending (main_py.binding_manager refactored.1.2) = false ∧
  script.1.2 = (false, m, 10).
Proof. vm_compute. repeat split. Qed.
